(** * Payment service of pulse-earn: a shallow embedding and its properties

    Source: [src/services/paymentService.ts], class [PaymentService].

    The service is asynchronous glue code: every method is a straight-line
    sequence of awaited calls to external collaborators (the hosted store
    client, the settings and profile services, the payment gateways' HTTP
    endpoints) wrapped in one [try]/[catch].  Each method is embedded as a
    computation in a reader, state and exception monad: it reads an [Env],
    what the collaborators answer and the failures the store reports, and
    threads a [Store], the two tables the service writes and the trace of
    the calls made.

    JavaScript numbers are IEEE-754 binary64 values; they are embedded as
    Rocq's primitive floats, whose operations are the same binary64
    operations. *)

From Stdlib Require Import ZArith Ascii String Uint63 PrimFloat FloatOps SpecFloat.
From stdpp Require Import gmap strings list sorting.

Set Warnings "-inexact-float".
Open Scope string_scope.

(** ** JavaScript values *)

Module Js.

(** [number]: an IEEE-754 double. *)
Abbreviation number := float.

(** Truthiness of a number: every number but [0], [-0] and [NaN]. *)
Definition truthy_number (x : number) : bool :=
  negb (PrimFloat.is_zero x || PrimFloat.is_nan x).

(** Truthiness of a string: every string but the empty one. *)
Definition truthy_string (s : string) : bool :=
  negb (String.eqb s "").

(** [x || d] on a possibly missing ([null] or [undefined]) number. *)
Definition number_or (x : option number) (d : number) : number :=
  match x with
  | Some v => if truthy_number v then v else d
  | None => d
  end.

(** [s || d] on a possibly missing string. *)
Definition string_or (s : option string) (d : string) : string :=
  match s with
  | Some v => if truthy_string v then v else d
  | None => d
  end.

(** [if (s)] on a possibly missing string. *)
Definition truthy_opt_string (s : option string) : bool :=
  match s with
  | Some v => truthy_string v
  | None => false
  end.

(** [if (x)] on a possibly missing number. *)
Definition truthy_opt_number (x : option number) : bool :=
  match x with
  | Some v => truthy_number v
  | None => false
  end.

(** The double of an integer of magnitude at most [2^53] (exact). *)
Definition number_of_Z (negative : bool) (n : Z) : number :=
  let a := PrimFloat.of_uint63 (Uint63.of_Z (Z.abs n)) in
  if (n <? 0)%Z then PrimFloat.opp a
  else if (n =? 0)%Z && negative then PrimFloat.neg_zero
  else a.

(** [Math.round]: [NaN], the infinities and the zeros are returned as they
    are; otherwise the integer nearest to [x], a tie going towards
    [+Infinity], and [-0] when the result is zero and [x] is negative.
    A finite double [m * 2^e] with [0 <= e] is an integer already; for
    [e < 0] the result is [floor (x + 1/2)], computed on integers. *)
Definition Math_round (x : number) : number :=
  match Prim2SF x with
  | S754_finite s m e =>
      if (0 <=? e)%Z then x
      else
        let twice := (if s then - (2 * Z.pos m) else 2 * Z.pos m)%Z in
        number_of_Z s ((twice + 2 ^ (- e)) / 2 ^ (1 - e))%Z
  | _ => x
  end.

(** What a [catch] clause may receive: an [Error] object with its message,
    or any other thrown value. *)
Inductive Thrown : Type :=
| ErrorObject (message : string)
| OtherValue.

(** [e instanceof Error ? e.message : fallback]. *)
Definition message_or (e : Thrown) (fallback : string) : string :=
  match e with
  | ErrorObject m => m
  | OtherValue => fallback
  end.

(** A value stored in a free-form JSON object (the [metadata] column). *)
Inductive Value : Type :=
| VNumber (x : number)
| VString (s : string).

End Js.

(** ** Data model  (the types of [types/api] the service reads and writes) *)

(** Modelled from the spec: [types/api] is not among the source files.
    [PaymentMethod.type] and [Transaction.payment_method], "one of
    [wallet], [stripe], [paypal], [paystack]". *)
Inductive PaymentType : Type := Wallet | Stripe | Paypal | Paystack.

(** Modelled from the spec: [types/api] is not among the source files.
    [Transaction.status], "[pending] -> [completed] | [failed] | [refunded]". *)
Inductive Status : Type := Pending | Completed | Failed | Refunded.

#[global] Instance PaymentType_eq_dec : EqDecision PaymentType.
Proof. solve_decision. Defined.

#[global] Instance Status_eq_dec : EqDecision Status.
Proof. solve_decision. Defined.

(** Modelled from the spec: [ServiceResponse] is declared in
    [profileService], which is not among the source files.  The "uniform
    [{data, error}] result shape" of every service call; either field may
    be [null]. *)
Record ServiceResponse (A : Type) : Type := Response {
  data : option A;
  error : option string
}.
Arguments Response {A} _ _.
Arguments data {A} _.
Arguments error {A} _.

Definition success {A : Type} (x : A) : ServiceResponse A := Response (Some x) None.
Definition failure {A : Type} (msg : string) : ServiceResponse A := Response None (Some msg).

(** Modelled from the spec: [types/api] is not among the source files.
    [PaymentMethod.config], the "optional config map with
    [supported_currencies] (set of currency codes) and/or
    [default_currency]". *)
Record PaymentConfig : Type := {
  supported_currencies : option (list string);
  default_currency : option string
}.

(** Modelled from the spec: [types/api] is not among the source files.
    "PaymentMethod: id, name, type, active flag, optional config map". *)
Record PaymentMethod : Type := {
  pm_id : string;
  pm_name : string;
  pm_type : PaymentType;
  pm_is_active : bool;
  pm_config : option PaymentConfig
}.

(** Modelled from the spec: the profile type is declared outside the source
    files.  The two fields the service reads: the wallet balance and the
    preferred currency. *)
Record Profile : Type := {
  points : Js.number;
  pf_currency : option string
}.

(** Modelled from the spec: the settings type is declared outside the source
    files.  The [promoted_polls] settings object, with its "configurable
    points-per-USD rate". *)
Record Settings : Type := {
  points_to_usd_conversion : option Js.number
}.

Abbreviation Metadata := (gmap string Js.Value).

(** Modelled from the spec: [types/api] is not among the source files.
    "Transaction: id, user reference, optional promoted-campaign reference,
    amount, currency, original_amount/original_currency, payment_method,
    status, gateway_transaction_id, metadata map", with the two further
    columns the service writes. *)
Record Transaction : Type := {
  id : string;
  user_id : string;
  promoted_poll_id : option string;
  amount : Js.number;
  currency : string;
  original_amount : Js.number;
  original_currency : string;
  payment_method : PaymentType;
  status : Status;
  gateway_transaction_id : option string;
  stripe_payment_intent_id : option string;
  metadata : Metadata;
  updated_at : option string
}.

(** The object handed to [.insert(...)]: the columns the service sets. *)
Record NewTransaction : Type := {
  new_user_id : string;
  new_promoted_poll_id : option string;
  new_amount : Js.number;
  new_currency : string;
  new_original_amount : Js.number;
  new_original_currency : string;
  new_payment_method : PaymentType;
  new_status : Status;
  new_metadata : Metadata
}.

(** The object handed to [.update(...)]: a column is written when present. *)
Record TransactionPatch : Type := {
  set_status : option Status;
  set_gateway_transaction_id : option string;
  set_stripe_payment_intent_id : option string;
  set_metadata : option Metadata;
  set_updated_at : option string
}.

(** Modelled from the spec: [types/api] is not among the source files.
    [TransactionCreateRequest], with the fields [createTransaction] reads. *)
Record TransactionCreateRequest : Type := {
  req_amount : Js.number;
  req_currency : option string;
  req_payment_method : PaymentType;
  req_promoted_poll_id : option string;
  req_metadata : option Metadata
}.

(** The JSON body posted to a gateway-initiation endpoint. *)
Record GatewayRequest : Type := {
  gw_amount : Js.number;
  gw_userId : string;
  gw_transactionId : string;
  gw_promotedPollId : option string;
  gw_currency : string
}.

(** The JSON body a gateway-initiation endpoint answers with. *)
Record GatewayBody : Type := {
  body_error : option string;
  body_clientSecret : option string;
  body_paymentIntentId : option string;
  body_authorizationUrl : option string;
  body_reference : option string
}.

(** What [fetch] followed by [response.json()] can do: the request is
    rejected, or a response arrives with its [ok] flag and a body that
    parses or makes [json()] throw. *)
Inductive HttpOutcome : Type :=
| Rejected (reason : Js.Thrown)
| Responded (ok : bool) (json : Js.Thrown + GatewayBody).

(** ** The collaborators

    The settings service, the profile service and the store client answer
    every call with a [{data, error}] pair and do not throw ("all public
    operations return a uniform success/error pair rather than raising past
    their boundary"); [fetch] and [response.json()] may throw. *)

(** The message of an error the store or the profile service reports; it is
    never empty. *)
Record Fault : Type := {
  fault_head : ascii;
  fault_tail : string
}.

Definition fault_message (f : Fault) : string := String (fault_head f) (fault_tail f).

Definition fault_of (msg : string) : option Fault :=
  match msg with
  | String a r => Some {| fault_head := a; fault_tail := r |}
  | EmptyString => None
  end.

(** One awaited call to a collaborator, as recorded in the trace. *)
Inductive Call : Type :=
| GetSettings (category : string)
| GetExchangeRate (from to : string)
| GetPaymentGatewaySettings (country : option string)
| FetchProfileById (userId : string)
| UpdateUserPoints (userId : string) (delta : Js.number)
| SelectPaymentMethods
| InsertTransaction (row : NewTransaction)
| UpdateTransaction (transactionId : string) (patch : TransactionPatch)
| SelectTransaction (transactionId : string)
| Fetch (url : string) (body : GatewayRequest).

(** What the run does not change: the answers of the settings service and
    of the gateways, the reference table of payment methods, the store's
    row-level update policy and key generator, the clock's reading, the
    project URL, and the failures the store and the profile service report,
    given by the position of the call among the fallible calls. *)
Record Env : Type := {
  settings : string -> ServiceResponse Settings;
  gateway_settings : option string -> ServiceResponse (list PaymentType);
  exchange_rates : string -> string -> ServiceResponse Js.number;
  payment_methods : list PaymentMethod;
  may_update : Transaction -> bool;
  fresh_id : nat -> string;
  gateway : string -> GatewayRequest -> HttpOutcome;
  now : string;
  VITE_SUPABASE_URL : string;
  faults : nat -> option Fault
}.

(** What the run changes: the two tables it writes, the number of fallible
    calls made so far, and the trace of all calls, the latest first. *)
Record Store : Type := {
  profiles : gmap string Profile;
  transactions : gmap string Transaction;
  clock : nat;
  trace : list Call
}.

(** ** The monad of a service method: reads [Env], threads [Store], and
    either returns or throws. *)

Definition M (A : Type) : Type := Env -> Store -> (Js.Thrown + A) * Store.

Definition ret {A : Type} (x : A) : M A := fun _ s => (inr x, s).

Definition throw {A : Type} (e : Js.Thrown) : M A := fun _ s => (inl e, s).

Definition bind {A B : Type} (c : M A) (k : A -> M B) : M B :=
  fun env s =>
    match c env s with
    | (inr x, s') => k x env s'
    | (inl e, s') => (inl e, s')
    end.

(** [try { c } catch (e) { handler e }]. *)
Definition try_catch {A : Type} (c : M A) (handler : Js.Thrown -> M A) : M A :=
  fun env s =>
    match c env s with
    | (inr x, s') => (inr x, s')
    | (inl e, s') => handler e env s'
    end.

Definition ask : M Env := fun env s => (inr env, s).
Definition get : M Store := fun _ s => (inr s, s).

Declare Scope service_scope.
Delimit Scope service_scope with service.
Notation "'let*' x ':=' c 'in' k" := (bind c (fun x => k))
  (at level 10, x name, c at level 100, k at level 200) : service_scope.
Notation "c ';;' k" := (bind c (fun _ => k))
  (at level 100, k at level 200, right associativity) : service_scope.
Open Scope service_scope.

(** Records the call in the trace. *)
Definition record_call (c : Call) : M unit :=
  fun _ s =>
    (inr tt, {| profiles := profiles s; transactions := transactions s;
                clock := clock s; trace := c :: trace s |}).

(** Records a fallible call and asks the failure plan what this call, the
    [clock]-th of its kind, reports. *)
Definition fallible_call (c : Call) : M (option string) :=
  fun env s =>
    (inr (fault_message <$> faults env (clock s)),
     {| profiles := profiles s; transactions := transactions s;
        clock := S (clock s); trace := c :: trace s |}).

Definition set_profiles (p : gmap string Profile) : M unit :=
  fun _ s =>
    (inr tt, {| profiles := p; transactions := transactions s;
                clock := clock s; trace := trace s |}).

Definition set_transactions (t : gmap string Transaction) : M unit :=
  fun _ s =>
    (inr tt, {| profiles := profiles s; transactions := t;
                clock := clock s; trace := trace s |}).

(** *** The settings service *)

(** Modelled from the spec: [SettingsService.getSettings] is not among the
    source files.  A read-only lookup of a settings object ("a configurable
    points-per-USD rate"); the caller reads only [data]. *)
Definition SettingsService_getSettings (category : string) : M (ServiceResponse Settings) :=
  record_call (GetSettings category);;
  let* env := ask in
  ret (settings env category).

(** Modelled from the spec: [SettingsService.getExchangeRate] is not among
    the source files.  A read-only lookup, "(from_currency, to_currency) ->
    multiplicative rate; sourced externally", answering with a rate, with
    an error, or with neither. *)
Definition SettingsService_getExchangeRate (from to : string) : M (ServiceResponse Js.number) :=
  record_call (GetExchangeRate from to);;
  let* env := ask in
  ret (exchange_rates env from to).

(** Modelled from the spec: [SettingsService.getPaymentGatewaySettings] is
    not among the source files.  "methods enabled for a country (via a
    settings lookup)": the enabled method types, or an error. *)
Definition SettingsService_getPaymentGatewaySettings (countryCode : option string)
  : M (ServiceResponse (list PaymentType)) :=
  record_call (GetPaymentGatewaySettings countryCode);;
  let* env := ask in
  ret (gateway_settings env countryCode).

(** *** The profile service *)

(** Modelled from the spec: [ProfileService.fetchProfileById] is not among
    the source files.  "Fetch the user's profile; fail if missing": the
    stored profile, nothing when there is none, or the error the service
    reports. *)
Definition ProfileService_fetchProfileById (userId : string) : M (ServiceResponse Profile) :=
  let* fault := fallible_call (FetchProfileById userId) in
  match fault with
  | Some msg => ret (failure msg)
  | None => let* s := get in ret (Response (profiles s !! userId) None)
  end.

Definition add_points (delta : Js.number) (p : Profile) : Profile :=
  {| points := (points p + delta)%float; pf_currency := pf_currency p |}.

(** Modelled from the spec: [ProfileService.updateUserPoints] is not among
    the source files.  "Debit points (negative delta applied via a separate
    profile-update call)": the delta is added to the stored balance, unless
    the service reports an error, which leaves the balance as it was. *)
Definition ProfileService_updateUserPoints (userId : string) (delta : Js.number)
  : M (ServiceResponse Profile) :=
  let* fault := fallible_call (UpdateUserPoints userId delta) in
  match fault with
  | Some msg => ret (failure msg)
  | None =>
      let* s := get in
      match profiles s !! userId with
      | None => ret (failure "User profile not found")
      | Some p =>
          set_profiles (<[userId := add_points delta p]> (profiles s));;
          ret (success (add_points delta p))
      end
  end.

(** *** The store client  (the query builder over the two tables) *)

(** The row a new transaction becomes: the store adds the key and leaves
    the columns not given empty. *)
Definition stored_row (key : string) (r : NewTransaction) : Transaction :=
  {| id := key;
     user_id := new_user_id r;
     promoted_poll_id := new_promoted_poll_id r;
     amount := new_amount r;
     currency := new_currency r;
     original_amount := new_original_amount r;
     original_currency := new_original_currency r;
     payment_method := new_payment_method r;
     status := new_status r;
     gateway_transaction_id := None;
     stripe_payment_intent_id := None;
     metadata := new_metadata r;
     updated_at := None |}.

Definition or_keep {A : Type} (new : option A) (old : A) : A :=
  match new with
  | Some v => v
  | None => old
  end.

Definition or_keep_opt {A : Type} (new : option A) (old : option A) : option A :=
  match new with
  | Some v => Some v
  | None => old
  end.

(** The row after an update: the columns of the patch overwrite. *)
Definition apply_patch (p : TransactionPatch) (t : Transaction) : Transaction :=
  {| id := id t;
     user_id := user_id t;
     promoted_poll_id := promoted_poll_id t;
     amount := amount t;
     currency := currency t;
     original_amount := original_amount t;
     original_currency := original_currency t;
     payment_method := payment_method t;
     status := or_keep (set_status p) (status t);
     gateway_transaction_id := or_keep_opt (set_gateway_transaction_id p) (gateway_transaction_id t);
     stripe_payment_intent_id := or_keep_opt (set_stripe_payment_intent_id p) (stripe_payment_intent_id t);
     metadata := or_keep (set_metadata p) (metadata t);
     updated_at := or_keep_opt (set_updated_at p) (updated_at t) |}.

(** [supabase.from('transactions').insert(row).select().single()]: the
    stored row, or the message of the error the store reports. *)
Definition transactions_insert (row : NewTransaction) : M (ServiceResponse Transaction) :=
  let* s0 := get in
  let* fault := fallible_call (InsertTransaction row) in
  match fault with
  | Some msg => ret (failure msg)
  | None =>
      let* env := ask in
      let* s := get in
      let t := stored_row (fresh_id env (clock s0)) row in
      set_transactions (<[id t := t]> (transactions s));;
      ret (success t)
  end.

(** [supabase.from('transactions').update(patch).eq('id', key)], with or
    without [.select()]: the rows written (at most one, [id] being the key),
    or the message of the error the store reports.  A row is written when
    it exists and the store's row-level policy lets this client update it;
    otherwise the update matches no row, which is no error. *)
Definition transactions_update (patch : TransactionPatch) (key : string)
  : M (ServiceResponse (list Transaction)) :=
  let* fault := fallible_call (UpdateTransaction key patch) in
  match fault with
  | Some msg => ret (failure msg)
  | None =>
      let* env := ask in
      let* s := get in
      match transactions s !! key with
      | Some t =>
          if may_update env t then
            set_transactions (<[key := apply_patch patch t]> (transactions s));;
            ret (success [apply_patch patch t])
          else ret (success [])
      | None => ret (success [])
      end
  end.

(** [supabase.from('transactions').select('*').eq('id', key).maybeSingle()]. *)
Definition transactions_select (key : string) : M (ServiceResponse Transaction) :=
  let* fault := fallible_call (SelectTransaction key) in
  match fault with
  | Some msg => ret (failure msg)
  | None => let* s := get in ret (Response (transactions s !! key) None)
  end.

(** The order of [.order('name')]. *)
Definition name_le (a b : PaymentMethod) : Prop :=
  String.leb (pm_name a) (pm_name b) = true.

#[global] Instance name_le_dec : RelDecision name_le.
Proof. intros a b. unfold name_le. apply _. Defined.

(** [supabase.from('payment_methods').select('*').eq('is_active', true).order('name')]. *)
Definition payment_methods_select_active : M (ServiceResponse (list PaymentMethod)) :=
  let* fault := fallible_call SelectPaymentMethods in
  match fault with
  | Some msg => ret (failure msg)
  | None =>
      let* env := ask in
      ret (success (merge_sort name_le (filter (fun m => pm_is_active m = true) (payment_methods env))))
  end.

(** [fetch(url, {method: 'POST', ..., body})] and the [ok] flag of the
    response, with what [response.json()] will give. *)
Definition fetch (url : string) (body : GatewayRequest) : M (bool * (Js.Thrown + GatewayBody)) :=
  record_call (Fetch url body);;
  let* env := ask in
  match gateway env url body with
  | Rejected reason => throw reason
  | Responded ok json => ret (ok, json)
  end.

(** [await response.json()]. *)
Definition response_json (json : Js.Thrown + GatewayBody) : M GatewayBody :=
  match json with
  | inl reason => throw reason
  | inr body => ret body
  end.

(** ** The payment service *)

(** [getPaymentMethods()]. *)
Definition getPaymentMethods : M (ServiceResponse (list PaymentMethod)) :=
  try_catch
    (let* r := payment_methods_select_active in
     match error r with
     | Some msg => ret (failure msg)
     | None => ret (success (default [] (data r)))
     end)
    (fun e => ret (failure (Js.message_or e "Failed to get payment methods"))).

(** The callback of the currency filter of [getAvailablePaymentMethods]. *)
Definition supports_currency (currency : string) (method : PaymentMethod) : bool :=
  match pm_config method ≫= supported_currencies with
  | Some supported => bool_decide (currency ∈ supported)
  | None =>
      match pm_config method ≫= default_currency with
      | Some d => if Js.truthy_string d then String.eqb d currency else true
      | None => true
      end
  end.

(** The callback of the country filter: [enabledMethods?.includes(method.type)]. *)
Definition enabled_in (enabledMethods : option (list PaymentType)) (method : PaymentMethod) : bool :=
  match enabledMethods with
  | Some enabled => bool_decide (pm_type method ∈ enabled)
  | None => false
  end.

(** [getAvailablePaymentMethods(countryCode?, currency?)]. *)
Definition getAvailablePaymentMethods (countryCode currency : option string)
  : M (ServiceResponse (list PaymentMethod)) :=
  try_catch
    (let* enabled := SettingsService_getPaymentGatewaySettings countryCode in
     if Js.truthy_opt_string (error enabled) then ret (Response None (error enabled))
     else
       let* all := getPaymentMethods in
       if Js.truthy_opt_string (error all) then ret (Response None (error all))
       else
         let availableMethods :=
           match data all with
           | Some allMethods => List.filter (enabled_in (data enabled)) allMethods
           | None => []
           end in
         match currency with
         | Some c =>
             if Js.truthy_string c
             then ret (success (List.filter (supports_currency c) availableMethods))
             else ret (success availableMethods)
         | None => ret (success availableMethods)
         end)
    (fun e => ret (failure (Js.message_or e "Failed to get available payment methods"))).

(** The template literal of the insufficient-points message, kept as its
    pieces: the literal chunks and the two interpolated numbers. *)
Inductive Piece : Type :=
| Lit (text : string)
| Num (x : Js.number).

(** The [error] of a wallet payment: a plain string, or the template
    literal above. *)
Inductive WalletError : Type :=
| Plain (msg : string)
| Template (pieces : list Piece).

Record WalletResponse : Type := {
  wallet_data : option Transaction;
  wallet_error : option WalletError
}.

Definition insufficient_points (pointsNeeded available : Js.number) : WalletError :=
  Template [Lit "Insufficient points. You need "; Num pointsNeeded;
            Lit " points ("; Num available; Lit " available)."].

(** [Math.round(amountInUSD * pointsToUsdConversion)]. *)
Definition points_for (amountInUSD pointsToUsdConversion : Js.number) : Js.number :=
  Js.Math_round (amountInUSD * pointsToUsdConversion)%float.

(** The row [processWalletPayment] inserts. *)
Definition wallet_row (userId : string) (amount : Js.number) (promotedPollId : option string)
    (currency : string) (amountInUSD pointsToUsdConversion pointsNeeded : Js.number)
  : NewTransaction :=
  {| new_user_id := userId;
     new_promoted_poll_id := promotedPollId;
     new_amount := amountInUSD;
     new_currency := "USD";
     new_original_amount := amount;
     new_original_currency := currency;
     new_payment_method := Wallet;
     new_status := Completed;
     new_metadata :=
       {[ "points_used" := Js.VNumber pointsNeeded;
          "conversion_rate" := Js.VNumber pointsToUsdConversion;
          "exchange_rate" :=
            Js.VNumber (if negb (String.eqb currency "USD")
                        then (amountInUSD / amount)%float else 1%float) ]} |}.

(** [processWalletPayment], from the balance check on: the profile has been
    fetched and [pointsNeeded] computed. *)
Definition wallet_debit_and_record (userId : string) (amount : Js.number)
    (promotedPollId : option string) (currency : string)
    (amountInUSD pointsToUsdConversion : Js.number) (profile : Profile)
  : M WalletResponse :=
  let pointsNeeded := points_for amountInUSD pointsToUsdConversion in
  if (points profile <? pointsNeeded)%float then
    ret {| wallet_data := None;
           wallet_error := Some (insufficient_points pointsNeeded (points profile)) |}
  else
    let* debit := ProfileService_updateUserPoints userId (- pointsNeeded)%float in
    if Js.truthy_opt_string (error debit) then
      ret {| wallet_data := None; wallet_error := Plain <$> error debit |}
    else
      let* inserted :=
        transactions_insert
          (wallet_row userId amount promotedPollId currency
                      amountInUSD pointsToUsdConversion pointsNeeded) in
      match error inserted with
      | Some message =>
          ProfileService_updateUserPoints userId pointsNeeded;;
          ret {| wallet_data := None; wallet_error := Some (Plain message) |}
      | None =>
          ret {| wallet_data := data inserted; wallet_error := None |}
      end.

(** [processWalletPayment], from the points computation on: [amountInUSD]
    is known. *)
Definition wallet_with_usd_amount (userId : string) (amount : Js.number)
    (promotedPollId : option string) (currency : string)
    (pointsToUsdConversion amountInUSD : Js.number)
  : M WalletResponse :=
  let* fetched := ProfileService_fetchProfileById userId in
  match Js.truthy_opt_string (error fetched), data fetched with
  | false, Some profile =>
      wallet_debit_and_record userId amount promotedPollId currency
                              amountInUSD pointsToUsdConversion profile
  | true, _ =>
      ret {| wallet_data := None; wallet_error := Plain <$> error fetched |}
  | false, None =>
      ret {| wallet_data := None; wallet_error := Some (Plain "User profile not found") |}
  end.

(** [processWalletPayment(userId, amount, promotedPollId?, currency = 'USD')]. *)
Definition processWalletPayment (userId : string) (amount : Js.number)
    (promotedPollId : option string) (currency : string)
  : M WalletResponse :=
  try_catch
    (let* settings := SettingsService_getSettings "promoted_polls" in
     let pointsToUsdConversion :=
       Js.number_or (data settings ≫= points_to_usd_conversion) 100%float in
     if negb (String.eqb currency "USD") then
       let* rate := SettingsService_getExchangeRate currency "USD" in
       if Js.truthy_opt_string (error rate) then
         ret {| wallet_data := None; wallet_error := Plain <$> error rate |}
       else
         wallet_with_usd_amount userId amount promotedPollId currency pointsToUsdConversion
           (match data rate with
            | Some exchangeRate =>
                if Js.truthy_number exchangeRate then (amount * exchangeRate)%float else amount
            | None => amount
            end)
     else
       wallet_with_usd_amount userId amount promotedPollId currency pointsToUsdConversion amount)
    (fun e =>
       ret {| wallet_data := None;
              wallet_error := Some (Plain (Js.message_or e "Failed to process wallet payment")) |}).

(** The row [createTransaction] inserts. *)
Definition created_row (userId : string) (transactionData : TransactionCreateRequest)
    (originalAmount : Js.number) (userCurrency : string) : NewTransaction :=
  {| new_user_id := userId;
     new_promoted_poll_id := req_promoted_poll_id transactionData;
     new_amount := req_amount transactionData;
     new_currency := Js.string_or (req_currency transactionData) "USD";
     new_original_amount := originalAmount;
     new_original_currency := userCurrency;
     new_payment_method := req_payment_method transactionData;
     new_status := Pending;
     new_metadata := default ∅ (req_metadata transactionData) |}.

(** [createTransaction(userId, transactionData)]. *)
Definition createTransaction (userId : string) (transactionData : TransactionCreateRequest)
  : M (ServiceResponse Transaction) :=
  try_catch
    (let* fetched := ProfileService_fetchProfileById userId in
     let userCurrency := Js.string_or (data fetched ≫= pf_currency) "USD" in
     let originalCurrency := Js.string_or (req_currency transactionData) "USD" in
     let* originalAmount :=
       (if negb (String.eqb originalCurrency userCurrency) then
          let* rate := SettingsService_getExchangeRate originalCurrency userCurrency in
          match data rate with
          | Some exchangeRate =>
              if Js.truthy_number exchangeRate
              then ret (req_amount transactionData * exchangeRate)%float
              else ret (req_amount transactionData)
          | None => ret (req_amount transactionData)
          end
        else ret (req_amount transactionData)) in
     let* inserted := transactions_insert (created_row userId transactionData originalAmount userCurrency) in
     match error inserted with
     | Some message => ret (failure message)
     | None => ret (Response (data inserted) None)
     end)
    (fun e => ret (failure (Js.message_or e "Failed to create transaction"))).

(** [['completed', 'failed', 'refunded'].includes(s)]. *)
Definition is_final (s : Status) : bool :=
  bool_decide (s ∈ [Completed; Failed; Refunded]).

(** The [updateData] of [updateTransactionStatus]. *)
Definition status_patch (status : Status) (timestamp : string) (gatewayTransactionId : option string)
  : TransactionPatch :=
  {| set_status := Some status;
     set_gateway_transaction_id :=
       if Js.truthy_opt_string gatewayTransactionId then gatewayTransactionId else None;
     set_stripe_payment_intent_id := None;
     set_metadata := None;
     set_updated_at := Some timestamp |}.

(** [updateTransactionStatus(transactionId, status, gatewayTransactionId?)]. *)
Definition updateTransactionStatus (transactionId : string) (newStatus : Status)
    (gatewayTransactionId : option string) : M (ServiceResponse Transaction) :=
  try_catch
    (let* env := ask in
     let updateData := status_patch newStatus (now env) gatewayTransactionId in
     let* updated := transactions_update updateData transactionId in
     match error updated with
     | Some message => ret (failure message)
     | None =>
         match data updated with
         | Some (updatedTransaction :: _) => ret (success updatedTransaction)
         | _ =>
             let* existing := transactions_select transactionId in
             match error existing with
             | Some message => ret (failure message)
             | None =>
                 match data existing with
                 | Some existingTransaction =>
                     if is_final (status existingTransaction)
                     then ret (success existingTransaction)
                     else ret (failure "Transaction not found")
                 | None => ret (failure "Transaction not found")
                 end
             end
         end
     end)
    (fun e => ret (failure (Js.message_or e "Failed to update transaction status"))).

(** [{...metadata, [key]: value}], as the store receives it: an entry whose
    value is [undefined] is dropped when the object is serialised. *)
Definition with_entry (key : string) (value : option string) (m : Metadata) : Metadata :=
  match value with
  | Some v => <[key := Js.VString v]> m
  | None => m
  end.

(** The patch that marks a transaction failed, in the [catch] of the
    gateway round trip. *)
Definition failed_patch (m : Metadata) (message timestamp : string) : TransactionPatch :=
  {| set_status := Some Failed;
     set_gateway_transaction_id := None;
     set_stripe_payment_intent_id := None;
     set_metadata := Some (<["error" := Js.VString message]> m);
     set_updated_at := Some timestamp |}.

(** The [metadata] a gateway initiation hands to [createTransaction]. *)
Definition request_metadata (amount : Js.number) (currency : string) : Metadata :=
  {[ "original_amount" := Js.VNumber amount; "original_currency" := Js.VString currency ]}.

(** The conversion of the amount into the gateway's currency, at the head
    of both initiations: the rate's [error] is not read. *)
Definition to_gateway_currency (amount : Js.number) (currency target : string) : M Js.number :=
  if negb (String.eqb currency target) then
    let* rate := SettingsService_getExchangeRate currency target in
    match data rate with
    | Some exchangeRate =>
        if Js.truthy_number exchangeRate then ret (amount * exchangeRate)%float else ret amount
    | None => ret amount
    end
  else ret amount.

Record StripeInit : Type := {
  clientSecret : string;
  stripe_transactionId : string
}.

Record PaystackInit : Type := {
  authorizationUrl : string;
  paystack_transactionId : string
}.

(** The inner [try]/[catch] of [initializeStripePayment]: the round trip to
    the [create-payment-intent] function for the pending [transaction]. *)
Definition stripe_round_trip (userId : string) (usdAmount : Js.number)
    (promotedPollId : option string) (transaction : Transaction) : M (ServiceResponse StripeInit) :=
  let* env := ask in
  try_catch
    (let* response :=
       fetch (VITE_SUPABASE_URL env ++ "/functions/v1/create-payment-intent")
         {| gw_amount := usdAmount;
            gw_userId := userId;
            gw_transactionId := id transaction;
            gw_promotedPollId := promotedPollId;
            gw_currency := "USD" |} in
     (if negb (fst response) then
        let* errorData := response_json (snd response) in
        throw (Js.ErrorObject
                 (Js.string_or (body_error errorData) "Failed to create payment intent"))
      else ret tt);;
     let* body := response_json (snd response) in
     if Js.truthy_opt_string (body_clientSecret body) then
       transactions_update
         {| set_status := None;
            set_gateway_transaction_id := None;
            set_stripe_payment_intent_id := body_paymentIntentId body;
            set_metadata :=
              Some (with_entry "payment_intent_id" (body_paymentIntentId body)
                               (metadata transaction));
            set_updated_at := None |}
         (id transaction);;
       ret (success {| clientSecret := default "" (body_clientSecret body);
                       stripe_transactionId := id transaction |})
     else throw (Js.ErrorObject "No client secret returned from payment intent creation"))
    (fun err =>
       transactions_update
         (failed_patch (metadata transaction)
            (Js.message_or err "Failed to create payment intent") (now env))
         (id transaction);;
       throw err).

(** [initializeStripePayment(userId, amount, promotedPollId?, currency = 'USD')]. *)
Definition initializeStripePayment (userId : string) (amount : Js.number)
    (promotedPollId : option string) (currency : string) : M (ServiceResponse StripeInit) :=
  try_catch
    (ProfileService_fetchProfileById userId;;
     let* usdAmount := to_gateway_currency amount currency "USD" in
     let* created :=
       createTransaction userId
         {| req_amount := usdAmount;
            req_currency := Some "USD";
            req_payment_method := Stripe;
            req_promoted_poll_id := promotedPollId;
            req_metadata := Some (request_metadata amount currency) |} in
     if Js.truthy_opt_string (error created) then ret (Response None (error created))
     else
       match data created with
       | None => ret (failure "Failed to create transaction record")
       | Some transaction => stripe_round_trip userId usdAmount promotedPollId transaction
       end)
    (fun e => ret (failure (Js.message_or e "Failed to initialize Stripe payment"))).

(** The inner [try]/[catch] of [initializePaystackPayment]: the round trip
    to the [paystack-initiate-payment] function. *)
Definition paystack_round_trip (userId : string) (ngnAmount : Js.number)
    (promotedPollId : option string) (transaction : Transaction) : M (ServiceResponse PaystackInit) :=
  let* env := ask in
  try_catch
    (let* response :=
       fetch (VITE_SUPABASE_URL env ++ "/functions/v1/paystack-initiate-payment")
         {| gw_amount := ngnAmount;
            gw_userId := userId;
            gw_transactionId := id transaction;
            gw_promotedPollId := promotedPollId;
            gw_currency := "NGN" |} in
     (if negb (fst response) then
        let* errorData := response_json (snd response) in
        throw (Js.ErrorObject
                 (Js.string_or (body_error errorData) "Failed to initialize Paystack payment"))
      else ret tt);;
     let* body := response_json (snd response) in
     if Js.truthy_opt_string (body_authorizationUrl body) then
       transactions_update
         {| set_status := None;
            set_gateway_transaction_id := body_reference body;
            set_stripe_payment_intent_id := None;
            set_metadata :=
              Some (with_entry "paystack_reference" (body_reference body)
                               (metadata transaction));
            set_updated_at := None |}
         (id transaction);;
       ret (success {| authorizationUrl := default "" (body_authorizationUrl body);
                       paystack_transactionId := id transaction |})
     else throw (Js.ErrorObject "No authorization URL returned from Paystack"))
    (fun err =>
       transactions_update
         (failed_patch (metadata transaction)
            (Js.message_or err "Failed to initialize Paystack payment") (now env))
         (id transaction);;
       throw err).

(** [initializePaystackPayment(userId, amount, promotedPollId?, currency = 'USD')]. *)
Definition initializePaystackPayment (userId : string) (amount : Js.number)
    (promotedPollId : option string) (currency : string) : M (ServiceResponse PaystackInit) :=
  try_catch
    (ProfileService_fetchProfileById userId;;
     let* ngnAmount := to_gateway_currency amount currency "NGN" in
     let* created :=
       createTransaction userId
         {| req_amount := ngnAmount;
            req_currency := Some "NGN";
            req_payment_method := Paystack;
            req_promoted_poll_id := promotedPollId;
            req_metadata := Some (request_metadata amount currency) |} in
     if Js.truthy_opt_string (error created) then ret (Response None (error created))
     else
       match data created with
       | None => ret (failure "Failed to create transaction record")
       | Some transaction => paystack_round_trip userId ngnAmount promotedPollId transaction
       end)
    (fun e => ret (failure (Js.message_or e "Failed to initialize Paystack payment"))).

(** [convertAmount(amount, fromCurrency, toCurrency)]. *)
Definition convertAmount (amount : Js.number) (fromCurrency toCurrency : string)
  : M (ServiceResponse Js.number) :=
  try_catch
    (if String.eqb fromCurrency toCurrency then ret (success amount)
     else
       let* rate := SettingsService_getExchangeRate fromCurrency toCurrency in
       if Js.truthy_opt_string (error rate) then ret (Response None (error rate))
       else
         match data rate with
         | Some r =>
             if Js.truthy_number r then ret (success (amount * r)%float)
             else ret (failure ("Exchange rate not found for " ++ fromCurrency ++ " to " ++ toCurrency))
         | None => ret (failure ("Exchange rate not found for " ++ fromCurrency ++ " to " ++ toCurrency))
         end)
    (fun e => ret (failure (Js.message_or e "Failed to convert amount"))).

(** ** What the statements below speak about *)

(** The conversion that [processWalletPayment] (once its rate lookup has
    reported no error), [createTransaction] and the gateway initiations
    apply: the amount times the rate when the currencies differ and the
    lookup gives a rate that is neither zero nor NaN, the amount itself
    otherwise. *)
Definition lenient_convert (env : Env) (amount : Js.number) (from to : string) : Js.number :=
  if String.eqb from to then amount
  else
    match data (exchange_rates env from to) with
    | Some exchangeRate =>
        if Js.truthy_number exchangeRate then (amount * exchangeRate)%float else amount
    | None => amount
    end.

(** The rate lookup that goes with it, if any. *)
Definition rate_reads (from to : string) : list Call :=
  if String.eqb from to then [] else [GetExchangeRate from to].

(** The points-per-USD rate [processWalletPayment] works with:
    [settings?.points_to_usd_conversion || 100]. *)
Definition wallet_conversion (env : Env) : Js.number :=
  Js.number_or (data (settings env "promoted_polls") ≫= points_to_usd_conversion) 100%float.

(** The [amountInUSD] of [processWalletPayment] once the rate lookup, if
    any, has reported no error. *)
Definition wallet_amount_in_usd (env : Env) (amount : Js.number) (currency : string) : Js.number :=
  lenient_convert env amount currency "USD".

(** The rate lookup of [processWalletPayment] is skipped or reports no error. *)
Definition rate_lookup_passes (env : Env) (currency : string) : bool :=
  String.eqb currency "USD"
  || negb (Js.truthy_opt_string (error (exchange_rates env currency "USD"))).

(** The calls [processWalletPayment] makes before it fetches the profile,
    the latest first. *)
Definition wallet_reads (currency : string) : list Call :=
  rate_reads currency "USD" ++ [GetSettings "promoted_polls"].

(** The store after the calls [cs] (the latest first) that change nothing. *)
Definition after_reads (cs : list Call) (s : Store) : Store :=
  {| profiles := profiles s; transactions := transactions s;
     clock := clock s; trace := cs ++ trace s |}.

(** A call that writes to a table. *)
Definition is_write (c : Call) : bool :=
  match c with
  | UpdateUserPoints _ _ | InsertTransaction _ | UpdateTransaction _ _ => true
  | _ => false
  end.

(** The [pointsNeeded] of [processWalletPayment]. *)
Definition wallet_points_needed (env : Env) (amount : Js.number) (currency : string) : Js.number :=
  points_for (wallet_amount_in_usd env amount currency) (wallet_conversion env).

(** The run of [processWalletPayment] from the store [s] reaches the debit
    step: the rate lookup passes, the profile service answers with the
    user's profile, and the balance is not below [pointsNeeded]. *)
Definition reaches_debit (env : Env) (s : Store) (userId : string) (amount : Js.number)
    (currency : string) (profile : Profile) : Prop :=
  rate_lookup_passes env currency = true
  /\ faults env (clock s) = None
  /\ profiles s !! userId = Some profile
  /\ (points profile <? wallet_points_needed env amount currency)%float = false.

(** The user [userId] has a completed transaction in the table. *)
Definition has_completed_transaction (userId : string) (s : Store) : Prop :=
  exists t, transactions s !! id t = Some t /\ user_id t = userId /\ status t = Completed.

(** The balance of [userId] is lower in [s'] than in [s]. *)
Definition balance_reduced (userId : string) (s s' : Store) : Prop :=
  exists p p',
    profiles s !! userId = Some p /\ profiles s' !! userId = Some p'
    /\ (points p' <? points p)%float = true.

(** The currency rule of [getAvailablePaymentMethods], in words: the
    method lists the currency among its [supported_currencies]; or it has
    no such list and its [default_currency] is the currency; or it has
    neither a list nor a default (an absent or empty [default_currency]
    declares none). *)
Definition currency_rule (c : string) (m : PaymentMethod) : Prop :=
  (exists supported, pm_config m ≫= supported_currencies = Some supported /\ c ∈ supported)
  \/ (pm_config m ≫= supported_currencies = None /\ pm_config m ≫= default_currency = Some c)
  \/ (pm_config m ≫= supported_currencies = None
      /\ Js.truthy_opt_string (pm_config m ≫= default_currency) = false).

(** The method is active and enabled for the country. *)
Definition country_enabled_active (env : Env) (country : option string) (m : PaymentMethod) : Prop :=
  m ∈ payment_methods env
  /\ pm_is_active m = true
  /\ exists enabled, data (gateway_settings env country) = Some enabled /\ pm_type m ∈ enabled.

(** The [userCurrency] a method started in store [s] works with: the
    profile's currency, USD when the fetch fails or gives none. *)
Definition preferred_currency (env : Env) (s : Store) (userId : string) : string :=
  Js.string_or
    (match faults env (clock s) with
     | Some _ => None
     | None => profiles s !! userId ≫= pf_currency
     end)
    "USD".

(** The row [createTransaction], started in store [s], hands to the store. *)
Definition createTransaction_row (env : Env) (s : Store) (userId : string)
    (req : TransactionCreateRequest) : NewTransaction :=
  created_row userId req
    (lenient_convert env (req_amount req) (Js.string_or (req_currency req) "USD")
       (preferred_currency env s userId))
    (preferred_currency env s userId).

(** The store after [createTransaction], started in store [s], has made its
    calls; [table] is the transactions table then. *)
Definition createTransaction_store (env : Env) (s : Store) (userId : string)
    (req : TransactionCreateRequest) (table : gmap string Transaction) : Store :=
  {| profiles := profiles s;
     transactions := table;
     clock := S (S (clock s));
     trace := InsertTransaction (createTransaction_row env s userId req)
                :: rate_reads (Js.string_or (req_currency req) "USD")
                              (preferred_currency env s userId)
                ++ FetchProfileById userId :: trace s |}.

(** The request a gateway initiation hands to [createTransaction]. *)
Definition gateway_request (method : PaymentType) (target : string) (env : Env)
    (amount : Js.number) (poll : option string) (currency : string) : TransactionCreateRequest :=
  {| req_amount := lenient_convert env amount currency target;
     req_currency := Some target;
     req_payment_method := method;
     req_promoted_poll_id := poll;
     req_metadata := Some (request_metadata amount currency) |}.

(** The store in which a gateway initiation, started in store [s], calls
    [createTransaction]. *)
Definition before_create (s : Store) (userId currency target : string) : Store :=
  {| profiles := profiles s;
     transactions := transactions s;
     clock := S (clock s);
     trace := rate_reads currency target ++ FetchProfileById userId :: trace s |}.

(** What makes the round trip to a gateway fail, and the value thrown: a
    rejected request; a response that is not OK, with the [error] of its
    body, or [fallback] for a body without one, or what [json()] throws; an
    OK response whose body [json()] cannot read, or in which the expected
    [field] is missing or empty. *)
Definition round_trip_failure (fallback missing : string) (field : GatewayBody -> option string)
    (outcome : HttpOutcome) : option Js.Thrown :=
  match outcome with
  | Rejected reason => Some reason
  | Responded false (inr body) => Some (Js.ErrorObject (Js.string_or (body_error body) fallback))
  | Responded true (inr body) =>
      if Js.truthy_opt_string (field body) then None else Some (Js.ErrorObject missing)
  | Responded _ (inl reason) => Some reason
  end.

Definition stripe_failure : HttpOutcome -> option Js.Thrown :=
  round_trip_failure "Failed to create payment intent"
    "No client secret returned from payment intent creation" body_clientSecret.

Definition paystack_failure : HttpOutcome -> option Js.Thrown :=
  round_trip_failure "Failed to initialize Paystack payment"
    "No authorization URL returned from Paystack" body_authorizationUrl.

Definition stripe_call (env : Env) (userId : string) (usdAmount : Js.number)
    (poll : option string) (t : Transaction) : Call :=
  Fetch (VITE_SUPABASE_URL env ++ "/functions/v1/create-payment-intent")
    {| gw_amount := usdAmount; gw_userId := userId; gw_transactionId := id t;
       gw_promotedPollId := poll; gw_currency := "USD" |}.

Definition paystack_call (env : Env) (userId : string) (ngnAmount : Js.number)
    (poll : option string) (t : Transaction) : Call :=
  Fetch (VITE_SUPABASE_URL env ++ "/functions/v1/paystack-initiate-payment")
    {| gw_amount := ngnAmount; gw_userId := userId; gw_transactionId := id t;
       gw_promotedPollId := poll; gw_currency := "NGN" |}.

(** What the gateway answers to a recorded [Fetch]. *)
Definition answer (env : Env) (c : Call) : option HttpOutcome :=
  match c with
  | Fetch url body => Some (gateway env url body)
  | _ => None
  end.

(** Every row handed to the store between [s] and [s'] satisfies [P]. *)
Definition inserts_only (P : NewTransaction -> Prop) (s s' : Store) : Prop :=
  exists calls,
    trace s' = (calls ++ trace s)%list
    /\ forall row, InsertTransaction row ∈ calls -> P row.

(** The transactions table after an update of [key] by [patch] issued in
    store [s]: the row is rewritten when the store reports no failure, the
    row exists and the policy lets it be updated. *)
Definition table_after_update (env : Env) (s : Store) (patch : TransactionPatch) (key : string)
  : gmap string Transaction :=
  match faults env (clock s), transactions s !! key with
  | None, Some row =>
      if may_update env row then <[key := apply_patch patch row]> (transactions s)
      else transactions s
  | _, _ => transactions s
  end.

(** The store after that update. *)
Definition after_update (env : Env) (s : Store) (patch : TransactionPatch) (key : string) : Store :=
  {| profiles := profiles s;
     transactions := table_after_update env s patch key;
     clock := S (clock s);
     trace := UpdateTransaction key patch :: trace s |}.

(** The store after a profile fetch. *)
Definition after_fetch (s : Store) (userId : string) : Store :=
  {| profiles := profiles s; transactions := transactions s;
     clock := S (clock s); trace := FetchProfileById userId :: trace s |}.

(** The pending row a gateway initiation for [target], started in store
    [s], creates when the store accepts the insert. *)
Definition created_pending (method : PaymentType) (target : string) (env : Env) (s : Store)
    (userId : string) (amount : Js.number) (poll : option string) (currency : string)
  : Transaction :=
  stored_row (fresh_id env (S (S (clock s))))
    (createTransaction_row env (before_create s userId currency target) userId
       (gateway_request method target env amount poll currency)).

(** The store in which the round trip to the gateway starts. *)
Definition before_round_trip (method : PaymentType) (target : string) (env : Env) (s : Store)
    (userId : string) (amount : Js.number) (poll : option string) (currency : string) : Store :=
  createTransaction_store env (before_create s userId currency target) userId
    (gateway_request method target env amount poll currency)
    (<[id (created_pending method target env s userId amount poll currency)
       := created_pending method target env s userId amount poll currency]> (transactions s)).

(** The row of a gateway initiation for [target]: the amount in the
    gateway's currency under [amount]/[currency], that amount taken into
    the user's preferred currency under [original_amount]/
    [original_currency], and the request's own amount and currency in the
    metadata. *)
Definition gateway_row_shape (env : Env) (target preferred : string) (amount : Js.number)
    (currency : string) (row : NewTransaction) : Prop :=
  new_amount row = lenient_convert env amount currency target
  /\ new_currency row = target
  /\ new_original_amount row = lenient_convert env (new_amount row) target preferred
  /\ new_original_currency row = preferred
  /\ new_metadata row !! "original_amount" = Some (Js.VNumber amount)
  /\ new_metadata row !! "original_currency" = Some (Js.VString currency).

(** ** A small world, for the examples *)

Definition demo_rates (from to : string) : ServiceResponse Js.number :=
  if String.eqb from "EUR" && String.eqb to "USD" then success 1.1%float
  else if String.eqb from "USD" && String.eqb to "EUR" then success 0.5%float
  else Response None None.

Definition card : PaymentMethod :=
  {| pm_id := "pm-1"; pm_name := "Card"; pm_type := Stripe; pm_is_active := true;
     pm_config := Some {| supported_currencies := Some ["USD"; "NGN"]; default_currency := None |} |}.

Definition points_wallet : PaymentMethod :=
  {| pm_id := "pm-2"; pm_name := "Wallet"; pm_type := Wallet; pm_is_active := true;
     pm_config := None |}.

Definition bank : PaymentMethod :=
  {| pm_id := "pm-3"; pm_name := "Bank"; pm_type := Paystack; pm_is_active := true;
     pm_config := Some {| supported_currencies := None; default_currency := Some "EUR" |} |}.

Definition retired : PaymentMethod :=
  {| pm_id := "pm-4"; pm_name := "Alipay"; pm_type := Paypal; pm_is_active := false;
     pm_config := None |}.

Definition declined : HttpOutcome :=
  Responded false
    (inr {| body_error := Some "card declined"; body_clientSecret := None;
            body_paymentIntentId := None; body_authorizationUrl := None;
            body_reference := None |}).

Definition demo_env (plan : nat -> option Fault) : Env :=
  {| settings := fun _ => success {| points_to_usd_conversion := Some 100%float |};
     gateway_settings := fun _ => success [Wallet; Stripe; Paystack; Paypal];
     exchange_rates := demo_rates;
     payment_methods := [points_wallet; retired; card; bank];
     may_update := fun t => bool_decide (status t = Pending);
     fresh_id := fun _ => "tx-1";
     gateway := fun _ _ => declined;
     now := "2025-01-01T00:00:00.000Z";
     VITE_SUPABASE_URL := "https://project.example";
     faults := plan |}.

Definition no_faults : nat -> option Fault := fun _ => None.

(** The store refuses the calls number [k] to [k + span - 1]. *)
Definition refusing (k span : nat) (msg : string) : nat -> option Fault :=
  fun i => if (k <=? i)%nat && (i <? k + span)%nat then fault_of msg else None.

Definition alice : Profile := {| points := 10000%float; pf_currency := Some "EUR" |}.
Definition bob : Profile := {| points := 100%float; pf_currency := None |}.

Definition demo_store : Store :=
  {| profiles := {[ "alice" := alice; "bob" := bob ]};
     transactions := ∅;
     clock := 0;
     trace := [] |}.

(** The store refuses the insert of a wallet payment by alice; the credit
    that follows is applied. *)
Definition insert_refused : Env := demo_env (refusing 2 1 "insert failed").

(** The store refuses the insert and then the credit as well. *)
Definition insert_and_credit_refused : Env := demo_env (refusing 2 2 "store unavailable").

(** The store refuses the update a gateway initiation by a user of the demo
    store issues after the gateway's answer. *)
Definition update_refused : Env := demo_env (refusing 3 1 "update refused").

(** The demo world under a row-level policy that lets no row be updated:
    every update matches zero rows. *)
Definition read_only_env : Env :=
  {| settings := settings (demo_env no_faults);
     gateway_settings := gateway_settings (demo_env no_faults);
     exchange_rates := demo_rates;
     payment_methods := payment_methods (demo_env no_faults);
     may_update := fun _ => false;
     fresh_id := fresh_id (demo_env no_faults);
     gateway := gateway (demo_env no_faults);
     now := now (demo_env no_faults);
     VITE_SUPABASE_URL := VITE_SUPABASE_URL (demo_env no_faults);
     faults := no_faults |}.

Definition paid_row : Transaction :=
  {| id := "tx-9"; user_id := "alice"; promoted_poll_id := Some "poll-1";
     amount := 20%float; currency := "USD";
     original_amount := 10%float; original_currency := "EUR";
     payment_method := Stripe; status := Completed;
     gateway_transaction_id := Some "pi_123"; stripe_payment_intent_id := Some "pi_123";
     metadata := ∅; updated_at := Some "2024-12-31T23:59:59.000Z" |}.

Definition open_row : Transaction :=
  {| id := "tx-8"; user_id := "bob"; promoted_poll_id := None;
     amount := 5%float; currency := "USD";
     original_amount := 5%float; original_currency := "USD";
     payment_method := Paystack; status := Pending;
     gateway_transaction_id := None; stripe_payment_intent_id := None;
     metadata := ∅; updated_at := None |}.

(** The demo store with one settled and one pending transaction. *)
Definition ledger_store : Store :=
  {| profiles := profiles demo_store;
     transactions := {[ "tx-9" := paid_row; "tx-8" := open_row ]};
     clock := 0;
     trace := [] |}.

(** A request for 100 USD by card. *)
Definition hundred_usd : TransactionCreateRequest :=
  {| req_amount := 100%float; req_currency := Some "USD"; req_payment_method := Stripe;
     req_promoted_poll_id := Some "poll-1"; req_metadata := None |}.

(** A request for 50 EUR by card. *)
Definition fifty_eur : TransactionCreateRequest :=
  {| req_amount := 50%float; req_currency := Some "EUR"; req_payment_method := Stripe;
     req_promoted_poll_id := None; req_metadata := None |}.

(** A gateway that answers every initiation with a client secret and a
    payment intent. *)
Definition approving_env : Env :=
  {| settings := settings (demo_env no_faults);
     gateway_settings := gateway_settings (demo_env no_faults);
     exchange_rates := demo_rates;
     payment_methods := payment_methods (demo_env no_faults);
     may_update := may_update (demo_env no_faults);
     fresh_id := fresh_id (demo_env no_faults);
     gateway := fun _ _ =>
       Responded true
         (inr {| body_error := None; body_clientSecret := Some "pi_1_secret_2";
                 body_paymentIntentId := Some "pi_1"; body_authorizationUrl := None;
                 body_reference := None |});
     now := now (demo_env no_faults);
     VITE_SUPABASE_URL := VITE_SUPABASE_URL (demo_env no_faults);
     faults := no_faults |}.

(** ** The retry-payment modal

    Source: the modal component that calls the service (its file name is
    not recorded).  Its pure parts are embedded as functions of the state
    the component holds. *)

Module RetryPaymentModal.

(** [isValidStripeKey(key)], as the truth value of what it returns. *)
Definition isValidStripeKey (key : string) : bool :=
  Js.truthy_string key
  && negb (String.eqb key "your_stripe_publishable_key")
  && negb (String.eqb key "pk_test_placeholder_key_replace_with_actual_stripe_key")
  && (String.prefix "pk_test_" key || String.prefix "pk_live_" key).

(** The key [loadStripeKey] hands to [loadStripe], if any: the key of the
    integration settings when it is present and valid, else the key of the
    environment when that one is valid. *)
Definition stripeKey (stripePublicKey envStripeKey : option string) : option string :=
  match stripePublicKey with
  | Some k =>
      if Js.truthy_string k && isValidStripeKey k then Some k
      else match envStripeKey with
           | Some e => if isValidStripeKey e then Some e else None
           | None => None
           end
  | None =>
      match envStripeKey with
      | Some e => if isValidStripeKey e then Some e else None
      | None => None
      end
  end.

(** A row of [SettingsService.getAllExchangeRates()]. *)
Record ExchangeRate : Type := {
  from_currency : string;
  to_currency : string;
  rate : Js.number
}.

(** The [exchangeRates] state: rates by source and by target currency. *)
Abbreviation Rates := (gmap string (gmap string Js.number)).

(** The body of the [forEach] of [fetchExchangeRates]. *)
Definition add_rate (ratesMap : Rates) (r : ExchangeRate) : Rates :=
  <[from_currency r := <[to_currency r := rate r]> (default ∅ (ratesMap !! from_currency r))]>
    ratesMap.

(** The [ratesMap] [fetchExchangeRates] builds from the rows. *)
Definition ratesMap (rates : list ExchangeRate) : Rates :=
  fold_left add_rate rates ∅.

(** [exchangeRates[from] && exchangeRates[from][to]], when truthy. *)
Definition usable_rate (exchangeRates : Rates) (from to : string) : option Js.number :=
  match exchangeRates !! from ≫= (fun row => row !! to) with
  | Some r => if Js.truthy_number r then Some r else None
  | None => None
  end.

(** The modal's own [convertAmount]: the direct rate, else the two rates
    through USD, else the amount as it is. *)
Definition convertAmount (exchangeRates : Rates) (value : Js.number) (fromCurrency toCurrency : string)
  : Js.number :=
  if String.eqb fromCurrency toCurrency then value
  else
    match usable_rate exchangeRates fromCurrency toCurrency with
    | Some direct => (value * direct)%float
    | None =>
        match usable_rate exchangeRates fromCurrency "USD",
              usable_rate exchangeRates "USD" toCurrency with
        | Some first, Some second => (value * first * second)%float
        | _, _ => value
        end
    end.

(** The [pointsToUsdConversion] state after [fetchSettings]: the initial
    100 unless the settings arrive without error and hold a usable rate. *)
Definition pointsToUsdConversion (fetched : ServiceResponse Settings) : Js.number :=
  if Js.truthy_opt_string (error fetched) then 100%float
  else Js.number_or (data fetched ≫= points_to_usd_conversion) 100%float.

(** The points the modal shows for a wallet payment, and compares the
    balance with. *)
Definition pointsCost (exchangeRates : Rates) (conversion budget_amount : Js.number)
    (pollCurrency : string) : Js.number :=
  (convertAmount exchangeRates budget_amount pollCurrency "USD" * conversion)%float.

(** [method.type === 'stripe' && (!stripeInstance || stripeLoadError)]. *)
Definition stripe_unusable (stripeInstance : bool) (stripeLoadError : option string)
    (method : PaymentMethod) : bool :=
  bool_decide (pm_type method = Stripe)
  && (negb stripeInstance || Js.truthy_opt_string stripeLoadError).

(** The [filteredMethods] of [fetchPaymentMethods]. *)
Definition filteredMethods (stripeInstance : bool) (stripeLoadError : option string)
    (fetched : option (list PaymentMethod)) : list PaymentMethod :=
  match fetched with
  | Some methods =>
      List.filter (fun m => negb (stripe_unusable stripeInstance stripeLoadError m)) methods
  | None => []
  end.

(** The [selectedPaymentMethod] state after [fetchPaymentMethods]: the
    first wallet method, else the first method, else what it was. *)
Definition selectedPaymentMethod (methods : list PaymentMethod) (previous : string) : string :=
  match List.find (fun m => bool_decide (pm_type m = Wallet)) methods with
  | Some walletMethod => pm_id walletMethod
  | None =>
      match methods with
      | first :: _ => pm_id first
      | [] => previous
      end
  end.

(** The method [handleRetryPayment] retries with: the one found under the
    selected id, unless it is a Stripe method that cannot be used. *)
Definition methodToRetry (stripeInstance : bool) (stripeLoadError : option string)
    (paymentMethods : list PaymentMethod) (selected : string) : string + PaymentMethod :=
  if negb (Js.truthy_string selected) then inl "Please select a payment method"
  else
    match List.find (fun m => String.eqb (pm_id m) selected) paymentMethods with
    | None => inl "Invalid payment method"
    | Some paymentMethod =>
        if stripe_unusable stripeInstance stripeLoadError paymentMethod
        then inl ("Stripe payment system is not available. "
                  ++ "Please contact support or use an alternative payment method.")
        else inr paymentMethod
    end.

End RetryPaymentModal.

(** ** Listing all transactions

    [getAllTransactions] reads a column of the profile, the role, and runs
    a paged query that the [Store] above does not describe.  It is embedded
    as a function of what its two collaborators answer, and returns the
    queries it sent next to its result.  The collaborators answer and do
    not throw, so its [catch] clause is not reached. *)

Module Listing.

(** Modelled from the spec: the profile type is declared outside the source
    files.  The field [getAllTransactions] reads, for "unauthorized admin
    access". *)
Record Account : Type := {
  role : string
}.

(** The [options] of [getAllTransactions]. *)
Record ListOptions : Type := {
  limit : option Js.number;
  offset : option Js.number;
  opt_status : option Status;
  opt_payment_method : option PaymentType;
  opt_currency : option string
}.

(** The query sent to the store: [.range(first, last)], newest first, with
    the [.eq(...)] filters that were added. *)
Record ListQuery : Type := {
  first_row : Js.number;
  last_row : Js.number;
  with_status : option Status;
  with_payment_method : option PaymentType;
  with_currency : option string
}.

(** What the store answers: [{data, error, count}]. *)
Record QueryAnswer : Type := {
  rows : option (list Transaction);
  query_error : option string;
  count : option Js.number
}.

Record Page : Type := {
  page_transactions : list Transaction;
  totalCount : Js.number
}.

(** [adminProfile.role === 'admin'] on a profile that may be missing. *)
Definition is_admin (profile : option Account) : bool :=
  match profile with
  | Some account => String.eqb (role account) "admin"
  | None => false
  end.

(** The query [getAllTransactions] builds from its options: [limit = 50]
    and [offset = 0] by default, a currency filter only for a non-empty
    currency. *)
Definition query_of (options : ListOptions) : ListQuery :=
  let limit := default 50%float (limit options) in
  let offset := default 0%float (offset options) in
  {| first_row := offset;
     last_row := (offset + limit - 1)%float;
     with_status := opt_status options;
     with_payment_method := opt_payment_method options;
     with_currency :=
       if Js.truthy_opt_string (opt_currency options) then opt_currency options else None |}.

(** [getAllTransactions(adminId, options = {})]. *)
Definition getAllTransactions (fetchProfileById : string -> ServiceResponse Account)
    (run_query : ListQuery -> QueryAnswer) (adminId : string) (options : ListOptions)
  : list ListQuery * ServiceResponse Page :=
  let fetched := fetchProfileById adminId in
  if Js.truthy_opt_string (error fetched) || negb (is_admin (data fetched)) then
    ([], failure "Unauthorized: Only admins can view all transactions")
  else
    let query := query_of options in
    let answer := run_query query in
    ([query],
     match query_error answer with
     | Some message => failure message
     | None =>
         success {| page_transactions := default [] (rows answer);
                    totalCount := Js.number_or (count answer) 0%float |}
     end).

End Listing.

(** ** More of what the statements speak about *)

(** A result carries a value and no error, or an error and no value. *)
Definition one_of {A : Type} (r : ServiceResponse A) : Prop :=
  (is_Some (data r) /\ error r = None) \/ (data r = None /\ is_Some (error r)).

Definition wallet_one_of (r : WalletResponse) : Prop :=
  (is_Some (wallet_data r) /\ wallet_error r = None)
  \/ (wallet_data r = None /\ is_Some (wallet_error r)).

(** The update [initializeStripePayment] issues after a successful round
    trip. *)
Definition stripe_success_patch (body : GatewayBody) (t : Transaction) : TransactionPatch :=
  {| set_status := None;
     set_gateway_transaction_id := None;
     set_stripe_payment_intent_id := body_paymentIntentId body;
     set_metadata :=
       Some (with_entry "payment_intent_id" (body_paymentIntentId body) (metadata t));
     set_updated_at := None |}.

(** The update [initializePaystackPayment] issues after a successful round
    trip. *)
Definition paystack_success_patch (body : GatewayBody) (t : Transaction) : TransactionPatch :=
  {| set_status := None;
     set_gateway_transaction_id := body_reference body;
     set_stripe_payment_intent_id := None;
     set_metadata :=
       Some (with_entry "paystack_reference" (body_reference body) (metadata t));
     set_updated_at := None |}.

(** A run returns, rather than throws, a result that is one of the two. *)
Definition returns_one_of {A : Type} (run : (Js.Thrown + ServiceResponse A) * Store) : Prop :=
  exists r, fst run = inr r /\ one_of r.

(** A call to a gateway. *)
Definition is_gateway_call (c : Call) : bool :=
  match c with
  | Fetch _ _ => true
  | _ => false
  end.

(** The calls a gateway initiation for [target], started in store [s],
    makes up to the insert of the pending row, the latest first. *)
Definition initiation_calls (method : PaymentType) (target : string) (env : Env) (s : Store)
    (userId : string) (amount : Js.number) (poll : option string) (cur : string) : list Call :=
  InsertTransaction
    (createTransaction_row env (before_create s userId cur target) userId
       (gateway_request method target env amount poll cur))
    :: rate_reads (Js.string_or (Some target) "USD")
         (preferred_currency env (before_create s userId cur target) userId)
    ++ FetchProfileById userId :: rate_reads cur target ++ [FetchProfileById userId].

(** The gateway is asked for what the stored transaction records. *)
Definition request_matches_row (method : PaymentType) (s : Store) (c : Call) : Prop :=
  match c with
  | Fetch _ body =>
      exists t,
        transactions s !! gw_transactionId body = Some t
        /\ amount t = gw_amount body
        /\ currency t = gw_currency body
        /\ user_id t = gw_userId body
        /\ promoted_poll_id t = gw_promotedPollId body
        /\ payment_method t = method
  | _ => True
  end.

(** ** More of the small world *)

(** The demo world with a rate service that fails for JPY, although it
    still sends a rate along, and knows no other rate. *)
Definition rates_down_env : Env :=
  {| settings := settings (demo_env no_faults);
     gateway_settings := gateway_settings (demo_env no_faults);
     exchange_rates := fun from to =>
       if String.eqb from "JPY" then Response (Some 0.007%float) (Some "rate service down")
       else Response None None;
     payment_methods := payment_methods (demo_env no_faults);
     may_update := may_update (demo_env no_faults);
     fresh_id := fresh_id (demo_env no_faults);
     gateway := gateway (demo_env no_faults);
     now := now (demo_env no_faults);
     VITE_SUPABASE_URL := VITE_SUPABASE_URL (demo_env no_faults);
     faults := no_faults |}.

(** A gateway that answers every initiation with an authorization URL and
    a reference. *)
Definition redirecting_env : Env :=
  {| settings := settings (demo_env no_faults);
     gateway_settings := gateway_settings (demo_env no_faults);
     exchange_rates := demo_rates;
     payment_methods := payment_methods (demo_env no_faults);
     may_update := may_update (demo_env no_faults);
     fresh_id := fresh_id (demo_env no_faults);
     gateway := fun _ _ =>
       Responded true
         (inr {| body_error := None; body_clientSecret := None;
                 body_paymentIntentId := None;
                 body_authorizationUrl := Some "https://checkout.example/abc";
                 body_reference := Some "ref_abc" |});
     now := now (demo_env no_faults);
     VITE_SUPABASE_URL := VITE_SUPABASE_URL (demo_env no_faults);
     faults := no_faults |}.

(** The demo world with a settings service that knows no list of enabled
    methods, and a rate service whose JPY to USD rate is zero. *)
Definition bare_env : Env :=
  {| settings := settings (demo_env no_faults);
     gateway_settings := fun _ => Response None None;
     exchange_rates := fun from to =>
       if String.eqb from "JPY" && String.eqb to "USD" then success 0%float
       else demo_rates from to;
     payment_methods := payment_methods (demo_env no_faults);
     may_update := may_update (demo_env no_faults);
     fresh_id := fresh_id (demo_env no_faults);
     gateway := gateway (demo_env no_faults);
     now := now (demo_env no_faults);
     VITE_SUPABASE_URL := VITE_SUPABASE_URL (demo_env no_faults);
     faults := no_faults |}.

(** The rows of a rate table that lists EUR to USD twice. *)
Definition listed_rates : list RetryPaymentModal.ExchangeRate :=
  [ {| RetryPaymentModal.from_currency := "EUR"; RetryPaymentModal.to_currency := "USD";
       RetryPaymentModal.rate := 1.2%float |};
    {| RetryPaymentModal.from_currency := "USD"; RetryPaymentModal.to_currency := "NGN";
       RetryPaymentModal.rate := 1500%float |};
    {| RetryPaymentModal.from_currency := "EUR"; RetryPaymentModal.to_currency := "USD";
       RetryPaymentModal.rate := 1.1%float |} ].

(** The rates the modal holds when the table lists EUR to USD and USD to
    NGN but not EUR to NGN. *)
Definition modal_rates : RetryPaymentModal.Rates := RetryPaymentModal.ratesMap listed_rates.

(** A rate service that knows the same direct rates. *)
Definition listed_env : Env :=
  {| settings := settings (demo_env no_faults);
     gateway_settings := gateway_settings (demo_env no_faults);
     exchange_rates := fun from to =>
       Response (modal_rates !! from ≫= (fun row => row !! to)) None;
     payment_methods := payment_methods (demo_env no_faults);
     may_update := may_update (demo_env no_faults);
     fresh_id := fresh_id (demo_env no_faults);
     gateway := gateway (demo_env no_faults);
     now := now (demo_env no_faults);
     VITE_SUPABASE_URL := VITE_SUPABASE_URL (demo_env no_faults);
     faults := no_faults |}.

(** A profile service that knows one admin and one member, and fails for
    everyone else. *)
Definition accounts (userId : string) : ServiceResponse Listing.Account :=
  if String.eqb userId "root" then success {| Listing.role := "admin" |}
  else if String.eqb userId "alice" then success {| Listing.role := "user" |}
  else failure "profile service unavailable".

(** A store that answers every listing with the two rows of the ledger. *)
Definition two_rows (q : Listing.ListQuery) : Listing.QueryAnswer :=
  {| Listing.rows := Some [paid_row; open_row]; Listing.query_error := None;
     Listing.count := Some 2%float |}.

Definition no_options : Listing.ListOptions :=
  {| Listing.limit := None; Listing.offset := None; Listing.opt_status := None;
     Listing.opt_payment_method := None; Listing.opt_currency := None |}.

(** * Properties *)

Example round_examples :
  Js.Math_round 2.5%float = 3%float /\
  Js.Math_round (-2.5)%float = (-2)%float /\
  Js.Math_round 2.4%float = 2%float /\
  Js.Math_round (-0.2)%float = PrimFloat.neg_zero /\
  Js.Math_round 0.49999999999999994%float = 0%float /\
  Js.Math_round 4503599627370497%float = 4503599627370497%float /\
  Js.Math_round (50 * 1.1 * 100)%float = 5500%float.
Proof. repeat split; vm_compute; reflexivity. Qed.

(** ** Running a method *)

Lemma try_catch_returns {A : Type} (c : M A) (h : Js.Thrown -> M A) env s x s' :
  c env s = (inr x, s') -> try_catch c h env s = (inr x, s').
Proof. intros H. unfold try_catch. rewrite H. reflexivity. Qed.

(** ** Currency conversion *)

(** C8. [convertAmount(x, c, c)] succeeds with exactly [x] and makes no call
    at all (the trace, like the rest of the store, is as before); and for
    two distinct currencies whose rate lookup finds no rate, [convertAmount]
    answers with an error and no value. *)
Theorem convertAmount_identity_and_missing_rate :
  forall (env : Env) (s : Store) (x : Js.number),
    (forall c : string, convertAmount x c c env s = (inr (success x), s))
    /\ (forall from to : string,
          from <> to ->
          data (exchange_rates env from to) = None ->
          exists msg s',
            convertAmount x from to env s = (inr (Response None (Some msg)), s')
            /\ trace s' = GetExchangeRate from to :: trace s).
Proof.
  intros env s x. split.
  - intros c. unfold convertAmount, try_catch. rewrite String.eqb_refl. reflexivity.
  - intros from to Hne Hnone.
    unfold convertAmount, try_catch, bind, SettingsService_getExchangeRate, record_call, ask, ret.
    apply String.eqb_neq in Hne. rewrite Hne. cbn.
    destruct (exchange_rates env from to) as [d e]. cbn in Hnone. subst d. cbn.
    destruct (Js.truthy_opt_string e) eqn:He.
    + destruct e as [msg|]; [|discriminate]. cbn. eauto.
    + cbn. eauto.
Qed.

Lemma convertAmount_identity_and_missing_rate_witness :
  convertAmount 12.5%float "EUR" "EUR" (demo_env no_faults) demo_store
    = (inr (success 12.5%float), demo_store)
  /\ exists msg s',
       convertAmount 12.5%float "GBP" "USD" (demo_env no_faults) demo_store
         = (inr (Response None (Some msg)), s')
       /\ trace s' = GetExchangeRate "GBP" "USD" :: trace demo_store.
Proof.
  destruct (convertAmount_identity_and_missing_rate
              (demo_env no_faults) demo_store 12.5%float) as [Hsame Hmissing].
  split.
  - apply Hsame.
  - apply Hmissing; [discriminate | reflexivity].
Defined.

(** ** Wallet payments *)

Lemma wallet_debit_and_record_returns userId amount poll currency usd conv profile env s :
  exists r s',
    wallet_debit_and_record userId amount poll currency usd conv profile env s = (inr r, s').
Proof.
  unfold wallet_debit_and_record.
  destruct (points profile <? points_for usd conv)%float; [cbn; eauto|].
  unfold bind, ProfileService_updateUserPoints, transactions_insert, fallible_call,
    get, ask, ret, set_profiles, set_transactions.
  cbn.
  destruct (faults env (clock s)) as [f|]; cbn; [eauto|].
  destruct (profiles s !! userId) as [p|]; cbn; [|eauto].
  destruct (faults env (S (clock s))) as [f|]; cbn; [|eauto].
  destruct (faults env (S (S (clock s)))) as [g|]; cbn; [eauto|].
  rewrite lookup_insert_eq. cbn. eauto.
Qed.

Lemma wallet_with_usd_amount_returns userId amount poll currency conv usd env s :
  exists r s',
    wallet_with_usd_amount userId amount poll currency conv usd env s = (inr r, s').
Proof.
  unfold wallet_with_usd_amount, bind, ProfileService_fetchProfileById, fallible_call, get, ret.
  cbn.
  destruct (faults env (clock s)) as [f|]; cbn; [eauto|].
  destruct (profiles s !! userId) as [p|]; cbn; [|eauto].
  apply wallet_debit_and_record_returns.
Qed.

(** Once the rate lookup has passed, [processWalletPayment] is the rest of
    its body run with the rate and the USD amount read from the settings. *)
Lemma processWalletPayment_after_reads userId amount poll currency env s :
  rate_lookup_passes env currency = true ->
  processWalletPayment userId amount poll currency env s
  = wallet_with_usd_amount userId amount poll currency
      (wallet_conversion env) (wallet_amount_in_usd env amount currency)
      env (after_reads (wallet_reads currency) s).
Proof.
  intros Hpass.
  destruct (wallet_with_usd_amount_returns userId amount poll currency
              (wallet_conversion env) (wallet_amount_in_usd env amount currency)
              env (after_reads (wallet_reads currency) s)) as (r & s' & Hrun).
  rewrite Hrun. apply try_catch_returns. rewrite <- Hrun. clear Hrun.
  unfold rate_lookup_passes in Hpass.
  unfold bind at 1. unfold SettingsService_getSettings, bind, record_call, ask, ret,
    SettingsService_getExchangeRate, wallet_amount_in_usd, lenient_convert, wallet_reads,
    rate_reads, wallet_conversion, after_reads.
  cbn.
  destruct (String.eqb currency "USD") eqn:Hcur; cbn.
  - reflexivity.
  - cbn in Hpass. apply negb_true_iff in Hpass. rewrite Hpass. reflexivity.
Qed.

Arguments Js.Math_round : simpl never.
Arguments points_for : simpl never.
Arguments wallet_row : simpl never.
Arguments wallet_amount_in_usd : simpl never.
Arguments wallet_conversion : simpl never.
Arguments wallet_reads : simpl never.
Arguments lenient_convert : simpl never.
Arguments rate_reads : simpl never.

(** C4. When the fetched profile holds fewer points than [pointsNeeded],
    [processWalletPayment] answers with the insufficient-points message,
    which carries both the needed and the available count, and writes
    nothing: both tables are as before and no call it made is a write. *)
Theorem insufficient_points_no_mutation :
  forall (env : Env) (s : Store) (userId : string) (amount : Js.number)
         (poll : option string) (currency : string) (profile : Profile),
    rate_lookup_passes env currency = true ->
    faults env (clock s) = None ->
    profiles s !! userId = Some profile ->
    (points profile <? wallet_points_needed env amount currency)%float = true ->
    exists pieces s',
      processWalletPayment userId amount poll currency env s
      = (inr {| wallet_data := None; wallet_error := Some (Template pieces) |}, s')
      /\ Num (wallet_points_needed env amount currency) ∈ pieces
      /\ Num (points profile) ∈ pieces
      /\ profiles s' = profiles s
      /\ transactions s' = transactions s
      /\ exists calls, trace s' = (calls ++ trace s)%list /\ Forall (fun c => is_write c = false) calls.
Proof.
  intros env s userId amount poll currency profile Hpass Hfetch Hprofile Hlow.
  rewrite processWalletPayment_after_reads by exact Hpass.
  unfold wallet_with_usd_amount, bind, ProfileService_fetchProfileById, fallible_call, get, ret.
  cbn. rewrite Hfetch. cbn. rewrite Hprofile. cbn.
  unfold wallet_debit_and_record. unfold wallet_points_needed in Hlow. rewrite Hlow.
  eexists _, _. split; [reflexivity|]. cbn.
  split; [unfold insufficient_points; rewrite !elem_of_cons; auto|].
  split; [unfold insufficient_points; rewrite !elem_of_cons; auto 6|].
  split; [reflexivity|]. split; [reflexivity|].
  exists (FetchProfileById userId :: wallet_reads currency). split; [reflexivity|].
  constructor; [reflexivity|].
  unfold wallet_reads, rate_reads. destruct (String.eqb currency "USD"); repeat constructor.
Qed.

Lemma insufficient_points_no_mutation_witness :
  exists pieces s',
    processWalletPayment "bob" 50%float None "EUR" (demo_env no_faults) demo_store
    = (inr {| wallet_data := None; wallet_error := Some (Template pieces) |}, s')
    /\ Num (wallet_points_needed (demo_env no_faults) 50%float "EUR") ∈ pieces
    /\ Num (points bob) ∈ pieces
    /\ profiles s' = profiles demo_store
    /\ transactions s' = transactions demo_store
    /\ exists calls, trace s' = (calls ++ trace demo_store)%list
                     /\ Forall (fun c => is_write c = false) calls.
Proof.
  apply (insufficient_points_no_mutation (demo_env no_faults) demo_store
           "bob" 50%float None "EUR" bob); vm_compute; reflexivity.
Defined.

(** The balance after a debit and an equal credit is the balance before,
    when the two additions are exact. *)
Lemma credit_undoes_debit (n : Js.number) (profile : Profile) :
  (points profile + - n + n)%float = points profile ->
  add_points n (add_points (- n)%float profile) = profile.
Proof. intros H. destruct profile as [p c]. unfold add_points. cbn in *. rewrite H. reflexivity. Qed.

(** C1 (as amended). A run of [processWalletPayment] that reaches the debit
    step ends in one of three ways, by what the store reports for the
    debit, the insert and the credit.  A refused debit writes nothing and
    its error is returned.  After a debit and an insert that both succeed
    the completed row is in the table and is returned.  After a refused
    insert a credit of the same [pointsNeeded] is issued, after the insert
    and as the last call, and the insert's message is returned; the credit's
    own outcome is not read: when it is applied the balance is the debited
    balance plus [pointsNeeded] (the original balance when the two additions
    are exact), and when it is refused the balance stays debited although no
    row was written. *)
Theorem wallet_debit_saga :
  forall (env : Env) (s : Store) (userId : string) (amount : Js.number)
         (poll : option string) (currency : string) (profile : Profile),
    reaches_debit env s userId amount currency profile ->
    let n := wallet_points_needed env amount currency in
    let row := wallet_row userId amount poll currency
                 (wallet_amount_in_usd env amount currency) (wallet_conversion env) n in
    let before := (FetchProfileById userId :: wallet_reads currency ++ trace s)%list in
    exists r s',
      processWalletPayment userId amount poll currency env s = (inr r, s')
      /\ match faults env (S (clock s)), faults env (S (S (clock s))) with
         | Some refused, _ =>
             r = {| wallet_data := None; wallet_error := Some (Plain (fault_message refused)) |}
             /\ profiles s' = profiles s
             /\ transactions s' = transactions s
             /\ trace s' = UpdateUserPoints userId (- n)%float :: before
         | None, None =>
             let t := stored_row (fresh_id env (S (S (clock s)))) row in
             r = {| wallet_data := Some t; wallet_error := None |}
             /\ status t = Completed
             /\ profiles s' = <[userId := add_points (- n)%float profile]> (profiles s)
             /\ transactions s' = <[id t := t]> (transactions s)
             /\ trace s' = InsertTransaction row :: UpdateUserPoints userId (- n)%float :: before
         | None, Some refused =>
             r = {| wallet_data := None; wallet_error := Some (Plain (fault_message refused)) |}
             /\ transactions s' = transactions s
             /\ trace s' = UpdateUserPoints userId n :: InsertTransaction row
                             :: UpdateUserPoints userId (- n)%float :: before
             /\ match faults env (S (S (S (clock s)))) with
                | None =>
                    profiles s'
                    = <[userId := add_points n (add_points (- n)%float profile)]> (profiles s)
                    /\ ((points profile + - n + n)%float = points profile ->
                        profiles s' = profiles s)
                | Some _ =>
                    profiles s' = <[userId := add_points (- n)%float profile]> (profiles s)
                end
         end.
Proof.
  intros env s userId amount poll currency profile (Hpass & Hfetch & Hprofile & Henough) n row before.
  rewrite processWalletPayment_after_reads by exact Hpass.
  unfold wallet_with_usd_amount, bind, ProfileService_fetchProfileById, fallible_call, get, ret.
  cbn. rewrite Hfetch. cbn. rewrite Hprofile. cbn.
  subst n row before. unfold wallet_points_needed in *.
  unfold wallet_debit_and_record. rewrite Henough.
  unfold bind, ProfileService_updateUserPoints, transactions_insert, fallible_call,
    get, ask, ret, set_profiles, set_transactions.
  cbn.
  destruct (faults env (S (clock s))) as [refused|]; cbn.
  { eexists _, _. split; [reflexivity|]. cbn. auto. }
  rewrite Hprofile. cbn.
  destruct (faults env (S (S (clock s)))) as [refused|]; cbn.
  - destruct (faults env (S (S (S (clock s))))) as [again|]; cbn.
    + eexists _, _. split; [reflexivity|]. cbn. auto.
    + rewrite lookup_insert_eq. cbn.
      eexists _, _. split; [reflexivity|]. cbn.
      rewrite insert_insert_eq.
      repeat split.
      intros Hexact. rewrite credit_undoes_debit by exact Hexact.
      apply insert_id. exact Hprofile.
  - eexists _, _. split; [reflexivity|]. cbn. auto.
Qed.

Lemma wallet_debit_saga_witness :
  reaches_debit insert_refused demo_store "alice" 50%float "EUR" alice
  /\ exists s',
       processWalletPayment "alice" 50%float None "EUR" insert_refused demo_store
       = (inr {| wallet_data := None; wallet_error := Some (Plain "insert failed") |}, s')
       /\ transactions s' = transactions demo_store
       /\ profiles s' = profiles demo_store.
Proof.
  assert (Hreach : reaches_debit insert_refused demo_store "alice" 50%float "EUR" alice)
    by (repeat split; vm_compute; reflexivity).
  split; [exact Hreach|].
  destruct (wallet_debit_saga insert_refused demo_store "alice" 50%float None "EUR" alice Hreach)
    as (r & s' & Hrun & Hcase).
  change (faults insert_refused (S (clock demo_store))) with (@None Fault) in Hcase.
  change (faults insert_refused (S (S (clock demo_store))))
    with (fault_of "insert failed") in Hcase.
  change (faults insert_refused (S (S (S (clock demo_store))))) with (@None Fault) in Hcase.
  cbv beta iota zeta delta [fault_of] in Hcase.
  destruct Hcase as (Hr & Htx & _ & _ & Hrestored).
  exists s'. subst r. split; [exact Hrun|]. split; [exact Htx|].
  apply Hrestored. vm_compute. reflexivity.
Defined.

(** C1 (as stated) fails: the store refuses the insert and then the credit;
    the run returns the insert's message, alice's balance is reduced, and
    she has no completed transaction. *)
Lemma wallet_credit_refused_leaves_debit :
  reaches_debit insert_and_credit_refused demo_store "alice" 50%float "EUR" alice
  /\ fst (processWalletPayment "alice" 50%float None "EUR" insert_and_credit_refused demo_store)
     = inr {| wallet_data := None; wallet_error := Some (Plain "store unavailable") |}
  /\ balance_reduced "alice" demo_store
       (snd (processWalletPayment "alice" 50%float None "EUR" insert_and_credit_refused demo_store))
  /\ ~ has_completed_transaction "alice"
       (snd (processWalletPayment "alice" 50%float None "EUR" insert_and_credit_refused demo_store)).
Proof.
  split; [repeat split; vm_compute; reflexivity|].
  split; [vm_compute; reflexivity|].
  split.
  - exists alice, {| points := 4500%float; pf_currency := Some "EUR" |}.
    repeat split; vm_compute; reflexivity.
  - intros (t & Hlookup & _).
    assert (Hempty : transactions
                       (snd (processWalletPayment "alice" 50%float None "EUR"
                               insert_and_credit_refused demo_store)) = ∅)
      by (vm_compute; reflexivity).
    rewrite Hempty in Hlookup. rewrite lookup_empty in Hlookup. discriminate.
Qed.

(** C9 (as amended). With a points rate of 100 and an EUR to USD rate of
    1.1, [processWalletPayment] of 50 EUR works with [amountInUSD] equal to
    the double product [50 * 1.1], which is 55.00000000000001 (the double
    next above 55), and with [pointsNeeded] equal to 5500; it continues to
    the profile fetch with these two values. *)
Theorem wallet_scenario_fifty_eur :
  forall (env : Env) (s : Store) (userId : string) (poll : option string),
    data (settings env "promoted_polls") ≫= points_to_usd_conversion = Some 100%float ->
    exchange_rates env "EUR" "USD" = success 1.1%float ->
    wallet_amount_in_usd env 50%float "EUR" = 55.00000000000001%float
    /\ 55.00000000000001%float = PrimFloat.next_up 55%float
    /\ wallet_points_needed env 50%float "EUR" = 5500%float
    /\ processWalletPayment userId 50%float poll "EUR" env s
       = wallet_with_usd_amount userId 50%float poll "EUR" 100%float 55.00000000000001%float
           env (after_reads [GetExchangeRate "EUR" "USD"; GetSettings "promoted_polls"] s).
Proof.
  intros env s userId poll Hsettings Hrate.
  assert (Husd : wallet_amount_in_usd env 50%float "EUR" = 55.00000000000001%float).
  { unfold wallet_amount_in_usd, lenient_convert. rewrite Hrate. vm_compute. reflexivity. }
  assert (Hconv : wallet_conversion env = 100%float).
  { unfold wallet_conversion. rewrite Hsettings. vm_compute. reflexivity. }
  split; [exact Husd|].
  split; [vm_compute; reflexivity|].
  split.
  - unfold wallet_points_needed. rewrite Husd, Hconv. vm_compute. reflexivity.
  - rewrite processWalletPayment_after_reads.
    + rewrite Husd, Hconv. reflexivity.
    + unfold rate_lookup_passes. rewrite Hrate. reflexivity.
Qed.

Lemma wallet_scenario_fifty_eur_witness :
  wallet_amount_in_usd (demo_env no_faults) 50%float "EUR" = 55.00000000000001%float
  /\ 55.00000000000001%float = PrimFloat.next_up 55%float
  /\ wallet_points_needed (demo_env no_faults) 50%float "EUR" = 5500%float
  /\ processWalletPayment "alice" 50%float None "EUR" (demo_env no_faults) demo_store
     = wallet_with_usd_amount "alice" 50%float None "EUR" 100%float 55.00000000000001%float
         (demo_env no_faults)
         (after_reads [GetExchangeRate "EUR" "USD"; GetSettings "promoted_polls"] demo_store).
Proof.
  apply (wallet_scenario_fifty_eur (demo_env no_faults) demo_store "alice" None);
    reflexivity.
Defined.

(** C9 (as stated) fails: in the scenario the transaction is recorded with
    an amount in USD that is not 55, though with 5500 points used. *)
Lemma wallet_scenario_amount_is_not_55 :
  exists t s',
    processWalletPayment "alice" 50%float None "EUR" (demo_env no_faults) demo_store
    = (inr {| wallet_data := Some t; wallet_error := None |}, s')
    /\ amount t <> 55%float
    /\ (55%float <? amount t)%float = true
    /\ metadata t !! "points_used" = Some (Js.VNumber 5500%float).
Proof.
  eexists _, _. split; [vm_compute; reflexivity|].
  split; [|split; vm_compute; reflexivity].
  cbn. intros H.
  apply (f_equal (fun x => (55%float <? x)%float)) in H.
  vm_compute in H. discriminate.
Qed.

(** C10. For a currency other than USD whose rate lookup reports no error
    and no rate, [processWalletPayment] goes on to the profile fetch with
    [amountInUSD] equal to the amount it was given, where [convertAmount]
    on the same currencies answers with an error. *)
Theorem wallet_missing_rate_is_one_to_one :
  forall (env : Env) (s : Store) (userId : string) (amount : Js.number)
         (poll : option string) (currency : string),
    currency <> "USD" ->
    exchange_rates env currency "USD" = Response None None ->
    wallet_amount_in_usd env amount currency = amount
    /\ processWalletPayment userId amount poll currency env s
       = wallet_with_usd_amount userId amount poll currency (wallet_conversion env) amount
           env (after_reads [GetExchangeRate currency "USD"; GetSettings "promoted_polls"] s)
    /\ exists msg s',
         convertAmount amount currency "USD" env s = (inr (Response None (Some msg)), s').
Proof.
  intros env s userId amount poll currency Hne Hrate.
  apply String.eqb_neq in Hne.
  assert (Husd : wallet_amount_in_usd env amount currency = amount).
  { unfold wallet_amount_in_usd, lenient_convert. rewrite Hne, Hrate. reflexivity. }
  split; [exact Husd|]. split.
  - rewrite processWalletPayment_after_reads.
    + rewrite Husd. unfold wallet_reads, rate_reads. rewrite Hne. reflexivity.
    + unfold rate_lookup_passes. rewrite Hrate, Hne. reflexivity.
  - unfold convertAmount, try_catch, bind, SettingsService_getExchangeRate, record_call, ask, ret.
    rewrite Hne. cbn. rewrite Hrate. cbn. eauto.
Qed.

Lemma wallet_missing_rate_is_one_to_one_witness :
  wallet_amount_in_usd (demo_env no_faults) 50%float "GBP" = 50%float
  /\ processWalletPayment "alice" 50%float None "GBP" (demo_env no_faults) demo_store
     = wallet_with_usd_amount "alice" 50%float None "GBP"
         (wallet_conversion (demo_env no_faults)) 50%float (demo_env no_faults)
         (after_reads [GetExchangeRate "GBP" "USD"; GetSettings "promoted_polls"] demo_store)
  /\ exists msg s',
       convertAmount 50%float "GBP" "USD" (demo_env no_faults) demo_store
       = (inr (Response None (Some msg)), s').
Proof.
  apply (wallet_missing_rate_is_one_to_one (demo_env no_faults) demo_store
           "alice" 50%float None "GBP").
  - discriminate.
  - reflexivity.
Defined.

Example wallet_missing_rate_charges_one_to_one :
  exists t s',
    processWalletPayment "alice" 50%float None "GBP" (demo_env no_faults) demo_store
    = (inr {| wallet_data := Some t; wallet_error := None |}, s')
    /\ amount t = 50%float /\ currency t = "USD"
    /\ original_amount t = 50%float /\ original_currency t = "GBP"
    /\ metadata t !! "points_used" = Some (Js.VNumber 5000%float).
Proof. eexists _, _. split; [vm_compute; reflexivity|]. repeat split. Qed.

(** ** Status updates *)

(** [updateTransactionStatus] when the store reports no failure, by what
    the table holds under the key. *)
Lemma updateTransactionStatus_run env s tid st gw :
  faults env (clock s) = None ->
  faults env (S (clock s)) = None ->
  let patch := status_patch st (now env) gw in
  let reread :=
    {| profiles := profiles s; transactions := transactions s; clock := S (S (clock s));
       trace := SelectTransaction tid :: UpdateTransaction tid patch :: trace s |} in
  updateTransactionStatus tid st gw env s
  = match transactions s !! tid with
    | Some t =>
        if may_update env t then
          (inr (success (apply_patch patch t)),
           {| profiles := profiles s;
              transactions := <[tid := apply_patch patch t]> (transactions s);
              clock := S (clock s);
              trace := UpdateTransaction tid patch :: trace s |})
        else if is_final (status t) then (inr (success t), reread)
        else (inr (failure "Transaction not found"), reread)
    | None => (inr (failure "Transaction not found"), reread)
    end.
Proof.
  intros Hupdate Hselect patch reread. subst patch reread.
  unfold updateTransactionStatus, try_catch, bind, transactions_update, transactions_select,
    fallible_call, get, ask, ret, set_transactions.
  cbn. rewrite Hupdate. cbn.
  destruct (transactions s !! tid) as [t|] eqn:Hrow; cbn.
  - destruct (may_update env t); cbn; [reflexivity|].
    rewrite Hselect. cbn. rewrite Hrow. cbn.
    destruct (is_final (status t)); reflexivity.
  - rewrite Hselect. cbn. rewrite Hrow. reflexivity.
Qed.

(** C2. With a store that reports no failure: an update that matches no row
    because the row, already in a final status, is closed to this client
    makes [updateTransactionStatus] re-read the row and succeed with it;
    "Transaction not found" is returned only when the re-read finds no row
    or a row that is not final; and after a call that succeeded, a second
    call for the same transaction and final status succeeds too, with a
    row in a final status. *)
Theorem updateTransactionStatus_idempotent :
  forall (env : Env) (s : Store) (tid : string) (st : Status) (gw : option string),
    (forall k, faults env k = None) ->
    (forall t,
        transactions s !! tid = Some t -> may_update env t = false ->
        is_final (status t) = true ->
        exists s',
          updateTransactionStatus tid st gw env s = (inr (success t), s')
          /\ transactions s' = transactions s
          /\ trace s' = SelectTransaction tid
                          :: UpdateTransaction tid (status_patch st (now env) gw) :: trace s)
    /\ (forall r s',
          updateTransactionStatus tid st gw env s = (inr r, s') ->
          error r = Some "Transaction not found" ->
          head (trace s') = Some (SelectTransaction tid)
          /\ (transactions s !! tid = None
              \/ exists t, transactions s !! tid = Some t /\ is_final (status t) = false))
    /\ (forall r1 s1,
          is_final st = true ->
          updateTransactionStatus tid st gw env s = (inr r1, s1) ->
          error r1 = None ->
          exists t s2,
            updateTransactionStatus tid st gw env s1 = (inr (success t), s2)
            /\ is_final (status t) = true).
Proof.
  intros env s tid st gw Hquiet.
  pose proof (updateTransactionStatus_run env s tid st gw (Hquiet _) (Hquiet _)) as Hrun.
  cbv zeta in Hrun.
  split; [|split].
  - intros t Hrow Hclosed Hfinal. rewrite Hrun, Hrow, Hclosed, Hfinal.
    eexists. split; [reflexivity|]. split; reflexivity.
  - intros r s' Heq Herr. rewrite Hrun in Heq.
    destruct (transactions s !! tid) as [t|] eqn:Hrow.
    + destruct (may_update env t).
      { inversion Heq; subst. discriminate. }
      destruct (is_final (status t)) eqn:Hfinal.
      { inversion Heq; subst. discriminate. }
      inversion Heq; subst. split; [reflexivity|]. right. eauto.
    + inversion Heq; subst. split; [reflexivity|]. left. reflexivity.
  - intros r1 s1 Hst Heq Hok. rewrite Hrun in Heq.
    assert (Hnext : exists t1, transactions s1 !! tid = Some t1 /\ is_final (status t1) = true).
    { destruct (transactions s !! tid) as [t|] eqn:Hrow.
      - destruct (may_update env t).
        + inversion Heq; subst. cbn. rewrite lookup_insert_eq. eauto.
        + destruct (is_final (status t)) eqn:Hfinal; inversion Heq; subst; [|discriminate].
          cbn. eauto.
      - inversion Heq; subst. discriminate. }
    destruct Hnext as (t1 & Hrow1 & Hfinal1).
    rewrite (updateTransactionStatus_run env s1 tid st gw (Hquiet _) (Hquiet _)).
    cbv zeta. rewrite Hrow1.
    destruct (may_update env t1).
    + eexists _, _. split; [reflexivity|]. exact Hst.
    + rewrite Hfinal1. eexists _, _. split; [reflexivity|]. exact Hfinal1.
Qed.

Lemma updateTransactionStatus_idempotent_witness :
  (exists s',
      updateTransactionStatus "tx-9" Completed (Some "pi_123") (demo_env no_faults) ledger_store
      = (inr (success paid_row), s')
      /\ transactions s' = transactions ledger_store)
  /\ (exists t s2,
        updateTransactionStatus "tx-8" Failed None (demo_env no_faults)
          (snd (updateTransactionStatus "tx-8" Failed None (demo_env no_faults) ledger_store))
        = (inr (success t), s2)
        /\ is_final (status t) = true).
Proof.
  split.
  - destruct (updateTransactionStatus_idempotent (demo_env no_faults) ledger_store
                "tx-9" Completed (Some "pi_123") (fun k => eq_refl)) as (Hzero & _ & _).
    destruct (Hzero paid_row eq_refl eq_refl eq_refl) as (s' & Hrun & Htable & _).
    exists s'. split; assumption.
  - destruct (updateTransactionStatus_idempotent (demo_env no_faults) ledger_store
                "tx-8" Failed None (fun k => eq_refl)) as (_ & _ & Htwice).
    apply (Htwice
             (success (apply_patch (status_patch Failed (now (demo_env no_faults)) None) open_row))
             (snd (updateTransactionStatus "tx-8" Failed None (demo_env no_faults) ledger_store)));
      vm_compute; reflexivity.
Defined.

(** ** Payment method lookup *)

Lemma supports_currency_rule (c : string) (m : PaymentMethod) :
  Js.truthy_string c = true ->
  supports_currency c m = true <-> currency_rule c m.
Proof.
  intros Hc. unfold supports_currency, currency_rule.
  destruct (pm_config m ≫= supported_currencies) as [supported|].
  - rewrite bool_decide_eq_true. split.
    + intros Hin. left. eauto.
    + intros [(l & Heq & Hin)|[[Heq _]|[Heq _]]]; [|discriminate..].
      injection Heq as <-. exact Hin.
  - destruct (pm_config m ≫= default_currency) as [d|]; cbn.
    + destruct (Js.truthy_string d) eqn:Hd.
      * rewrite String.eqb_eq. split.
        -- intros ->. right. left. auto.
        -- intros [(l & Heq & _)|[[_ Heq]|[_ Heq]]]; [discriminate| |discriminate].
           injection Heq as ->. reflexivity.
      * split; [intros _; right; right; auto|reflexivity].
    + split; [intros _; right; right; auto|reflexivity].
Qed.

Lemma elem_of_active_by_name (m : PaymentMethod) (table : list PaymentMethod) :
  m ∈ merge_sort name_le (filter (fun m => pm_is_active m = true) table)
  <-> m ∈ table /\ pm_is_active m = true.
Proof.
  rewrite merge_sort_Permutation, list_elem_of_filter. tauto.
Qed.

Lemma enabled_in_true (enabled : option (list PaymentType)) (m : PaymentMethod) :
  enabled_in enabled m = true <-> exists l, enabled = Some l /\ pm_type m ∈ l.
Proof.
  unfold enabled_in. destruct enabled as [l|].
  - rewrite bool_decide_eq_true. split; [eauto|].
    intros (l' & Heq & Hin). injection Heq as <-. exact Hin.
  - split; [discriminate|]. intros (l & Heq & _). discriminate.
Qed.

(** C7. A successful [getAvailablePaymentMethods(country, currency)] with a
    currency given returns exactly the active methods enabled for the
    country that satisfy the currency rule.  So with currency EUR a method
    that declares [supported_currencies: ['USD','NGN']] is not returned,
    and an active, enabled method with no currency configuration is. *)
Theorem getAvailablePaymentMethods_exactly :
  forall (env : Env) (s : Store) (country : option string) (c : string)
         (r : ServiceResponse (list PaymentMethod)) (s' : Store) (methods : list PaymentMethod),
    Js.truthy_string c = true ->
    getAvailablePaymentMethods country (Some c) env s = (inr r, s') ->
    data r = Some methods ->
    (forall m, m ∈ methods <-> country_enabled_active env country m /\ currency_rule c m)
    /\ (c = "EUR" ->
        forall m,
          (pm_config m ≫= supported_currencies = Some ["USD"; "NGN"] -> m ∉ methods)
          /\ (pm_config m = None -> country_enabled_active env country m -> m ∈ methods)).
Proof.
  intros env s country c r s' methods Hc Hrun Hdata.
  assert (Hexact : forall m,
             m ∈ methods <-> country_enabled_active env country m /\ currency_rule c m).
  { revert Hrun.
    unfold getAvailablePaymentMethods, try_catch, bind, SettingsService_getPaymentGatewaySettings,
      getPaymentMethods, try_catch, bind, payment_methods_select_active, fallible_call,
      record_call, ask, ret.
    cbn.
    destruct (Js.truthy_opt_string (error (gateway_settings env country))); cbn.
    { intros Heq. inversion Heq; subst. discriminate. }
    destruct (faults env (clock s)) as [f|]; cbn.
    { intros Heq. inversion Heq; subst. discriminate. }
    rewrite Hc. intros Heq. inversion Heq; subst. cbn in Hdata. injection Hdata as <-.
    intros m. rewrite !list_elem_of_In, !filter_In, <- !list_elem_of_In.
    rewrite elem_of_active_by_name, enabled_in_true, supports_currency_rule by exact Hc.
    unfold country_enabled_active. tauto. }
  split; [exact Hexact|].
  intros -> m. split.
  - intros Hsupported Hin. apply Hexact in Hin as [_ Hrule].
    destruct Hrule as [(l & Heq & Hmem)|[[Heq _]|[Heq _]]];
      rewrite Hsupported in Heq; [|discriminate..].
    injection Heq as <-.
    rewrite !elem_of_cons, elem_of_nil in Hmem.
    destruct Hmem as [Hmem|[Hmem|[]]]; discriminate.
  - intros Hnone Hactive. apply Hexact. split; [exact Hactive|].
    right. right. rewrite Hnone. auto.
Qed.

Lemma getAvailablePaymentMethods_exactly_witness :
  (forall m,
      (m ∈ [bank; points_wallet])
      <-> (country_enabled_active (demo_env no_faults) (Some "NG") m /\ currency_rule "EUR" m))
  /\ (card ∉ [bank; points_wallet])
  /\ (points_wallet ∈ [bank; points_wallet]).
Proof.
  assert (Hrun : getAvailablePaymentMethods (Some "NG") (Some "EUR") (demo_env no_faults) demo_store
                 = (inr (success [bank; points_wallet]),
                    snd (getAvailablePaymentMethods (Some "NG") (Some "EUR")
                           (demo_env no_faults) demo_store)))
    by (vm_compute; reflexivity).
  destruct (getAvailablePaymentMethods_exactly (demo_env no_faults) demo_store (Some "NG") "EUR"
              _ _ [bank; points_wallet] eq_refl Hrun eq_refl) as [Hexact Heur].
  split; [exact Hexact|].
  destruct (Heur eq_refl card) as [Hcard _].
  destruct (Heur eq_refl points_wallet) as [_ Hwallet].
  split.
  - apply Hcard. reflexivity.
  - apply Hwallet; [reflexivity|].
    split; [|split].
    + change (points_wallet ∈ [points_wallet; retired; card; bank]).
      rewrite !elem_of_cons. auto.
    + reflexivity.
    + exists [Wallet; Stripe; Paystack; Paypal]. split; [reflexivity|].
      rewrite !elem_of_cons. auto.
Defined.

(** ** Creating transactions *)

Lemma to_gateway_currency_run amount currency target env s :
  to_gateway_currency amount currency target env s
  = (inr (lenient_convert env amount currency target),
     after_reads (rate_reads currency target) s).
Proof.
  unfold to_gateway_currency, lenient_convert, rate_reads, after_reads, bind,
    SettingsService_getExchangeRate, record_call, ask, ret.
  destruct (String.eqb currency target); cbn.
  - destruct s; reflexivity.
  - destruct (data (exchange_rates env currency target)) as [r|]; [|reflexivity].
    destruct (Js.truthy_number r); reflexivity.
Qed.

(** [createTransaction] as a function of the store it starts in. *)
Lemma createTransaction_run userId req env s :
  createTransaction userId req env s
  = match faults env (S (clock s)) with
    | Some refused =>
        (inr (failure (fault_message refused)),
         createTransaction_store env s userId req (transactions s))
    | None =>
        let t := stored_row (fresh_id env (S (clock s))) (createTransaction_row env s userId req) in
        (inr (success t),
         createTransaction_store env s userId req (<[id t := t]> (transactions s)))
    end.
Proof.
  unfold createTransaction, createTransaction_store, createTransaction_row, preferred_currency,
    lenient_convert, rate_reads, try_catch, bind, ProfileService_fetchProfileById,
    SettingsService_getExchangeRate, transactions_insert, fallible_call, record_call,
    get, ask, ret, set_transactions.
  cbn.
  destruct (faults env (clock s)) as [f|]; cbn.
  - destruct (String.eqb (Js.string_or (req_currency req) "USD") "USD"); cbn.
    + destruct (faults env (S (clock s))); reflexivity.
    + destruct (data (exchange_rates env _ _)) as [r|]; cbn;
        [destruct (Js.truthy_number r); cbn|];
        destruct (faults env (S (clock s))); reflexivity.
  - destruct (String.eqb (Js.string_or (req_currency req) "USD")
                (Js.string_or (profiles s !! userId ≫= pf_currency) "USD")); cbn.
    + destruct (faults env (S (clock s))); reflexivity.
    + destruct (data (exchange_rates env _ _)) as [r|]; cbn;
        [destruct (Js.truthy_number r); cbn|];
        destruct (faults env (S (clock s))); reflexivity.
Qed.

(** Two closed doubles differ: their sign, mantissa and exponent do. *)
Ltac numbers_differ :=
  let H := fresh in
  intros H; apply (f_equal Prim2SF) in H; vm_compute in H; discriminate H.

(** C5 (as amended). When the store accepts the insert, [createTransaction]
    returns and stores a [pending] row whose [amount] and [currency] are
    the request's amount and currency (USD when the request names none),
    whose [original_currency] is the user's preferred currency (USD when
    the profile gives none), and whose [original_amount] is the request's
    amount taken into the preferred currency: multiplied by the rate when
    the two currencies differ and the lookup gives a usable rate, and
    unchanged when the currencies are the same. *)
Theorem createTransaction_stores_request_and_preferred :
  forall (env : Env) (s : Store) (userId : string) (req : TransactionCreateRequest),
    faults env (S (clock s)) = None ->
    let requested := Js.string_or (req_currency req) "USD" in
    let preferred := preferred_currency env s userId in
    exists t s',
      createTransaction userId req env s = (inr (success t), s')
      /\ transactions s' !! id t = Some t
      /\ status t = Pending
      /\ amount t = req_amount req
      /\ currency t = requested
      /\ original_currency t = preferred
      /\ original_amount t = lenient_convert env (req_amount req) requested preferred
      /\ (requested = preferred -> original_amount t = req_amount req)
      /\ (forall rate,
            requested <> preferred ->
            data (exchange_rates env requested preferred) = Some rate ->
            Js.truthy_number rate = true ->
            original_amount t = (req_amount req * rate)%float).
Proof.
  intros env s userId req Haccepted requested preferred.
  rewrite createTransaction_run, Haccepted. cbv zeta.
  eexists _, _. split; [reflexivity|].
  split; [apply lookup_insert_eq|].
  repeat (split; [reflexivity|]).
  change (original_amount _) with (lenient_convert env (req_amount req) requested preferred).
  unfold lenient_convert.
  split.
  - intros Hsame. apply String.eqb_eq in Hsame. rewrite Hsame. reflexivity.
  - intros rate Hdiffer Hrate Husable. apply String.eqb_neq in Hdiffer.
    rewrite Hdiffer, Hrate, Husable. reflexivity.
Qed.

Lemma createTransaction_stores_request_and_preferred_witness :
  exists t s',
    createTransaction "alice" hundred_usd (demo_env no_faults) demo_store = (inr (success t), s')
    /\ status t = Pending
    /\ amount t = 100%float /\ currency t = "USD"
    /\ original_amount t = 50%float /\ original_currency t = "EUR".
Proof.
  destruct (createTransaction_stores_request_and_preferred
              (demo_env no_faults) demo_store "alice" hundred_usd eq_refl)
    as (t & s' & Hrun & _ & Hstatus & Hamount & Hcurrency & Hpreferred & _ & _ & Hrate).
  exists t, s'. split; [exact Hrun|]. split; [exact Hstatus|].
  split; [exact Hamount|]. split; [exact Hcurrency|]. split; [|exact Hpreferred].
  rewrite (Hrate 0.5%float); [vm_compute; reflexivity|discriminate|reflexivity|reflexivity].
Defined.

(** C5 (as stated) fails: alice, whose preferred currency is EUR, asks for
    100 USD; the row keeps 100 under [amount] and holds the converted 50
    under [original_amount], not the other way round. *)
Lemma createTransaction_keeps_request_under_amount :
  exists t s',
    createTransaction "alice" hundred_usd (demo_env no_faults) demo_store = (inr (success t), s')
    /\ req_amount hundred_usd = 100%float
    /\ lenient_convert (demo_env no_faults) 100%float "USD" "EUR" = 50%float
    /\ amount t <> 50%float
    /\ original_amount t <> 100%float.
Proof.
  eexists _, _. split; [vm_compute; reflexivity|].
  split; [reflexivity|]. split; [vm_compute; reflexivity|].
  split; cbn; numbers_differ.
Qed.

(** ** Gateway initiation *)

Lemma bind_run {A B : Type} (c : M A) (k : A -> M B) env s x s' :
  c env s = (inr x, s') -> bind c k env s = k x env s'.
Proof. intros H. unfold bind. rewrite H. reflexivity. Qed.

Lemma fetch_profile_ignored {A : Type} (k : M A) userId env s :
  bind (ProfileService_fetchProfileById userId) (fun _ => k) env s
  = k env (after_fetch s userId).
Proof.
  unfold bind, ProfileService_fetchProfileById, fallible_call, get, ret, after_fetch. cbn.
  destruct (faults env (clock s)); reflexivity.
Qed.

Lemma transactions_update_ignored {A : Type} (k : M A) patch key env s :
  bind (transactions_update patch key) (fun _ => k) env s
  = k env (after_update env s patch key).
Proof.
  unfold bind, transactions_update, fallible_call, get, ask, ret, set_transactions,
    after_update, table_after_update.
  cbn.
  destruct (faults env (clock s)); cbn; [reflexivity|].
  destruct (transactions s !! key) as [row|]; cbn; [|reflexivity].
  destruct (may_update env row); reflexivity.
Qed.

(** A failed round trip to Stripe issues the update that marks the
    transaction failed, as its last call, and throws what made it fail. *)
Lemma stripe_round_trip_fails userId usdAmount poll t env s err :
  stripe_failure (gateway env (VITE_SUPABASE_URL env ++ "/functions/v1/create-payment-intent")
                    {| gw_amount := usdAmount; gw_userId := userId; gw_transactionId := id t;
                       gw_promotedPollId := poll; gw_currency := "USD" |}) = Some err ->
  stripe_round_trip userId usdAmount poll t env s
  = (inl err,
     after_update env (after_reads [stripe_call env userId usdAmount poll t] s)
       (failed_patch (metadata t) (Js.message_or err "Failed to create payment intent") (now env))
       (id t)).
Proof.
  intros Hfail.
  unfold stripe_round_trip. unfold bind at 1. unfold ask at 1. cbv beta iota.
  unfold try_catch.
  unfold bind at 1. unfold fetch at 1. unfold bind at 1. unfold record_call at 1.
  unfold bind at 1. unfold ask at 1. cbv beta iota.
  unfold stripe_failure, round_trip_failure in Hfail.
  destruct (gateway env _ _) as [reason|ok json].
  - injection Hfail as ->. cbn. rewrite transactions_update_ignored. reflexivity.
  - destruct ok, json as [reason|body]; cbn in Hfail |- *.
    + injection Hfail as ->. rewrite transactions_update_ignored. reflexivity.
    + destruct (Js.truthy_opt_string (body_clientSecret body)); [discriminate|].
      injection Hfail as <-. cbn. rewrite transactions_update_ignored. reflexivity.
    + injection Hfail as ->. rewrite transactions_update_ignored. reflexivity.
    + injection Hfail as <-. rewrite transactions_update_ignored. reflexivity.
Qed.

Lemma paystack_round_trip_fails userId ngnAmount poll t env s err :
  paystack_failure (gateway env (VITE_SUPABASE_URL env ++ "/functions/v1/paystack-initiate-payment")
                      {| gw_amount := ngnAmount; gw_userId := userId; gw_transactionId := id t;
                         gw_promotedPollId := poll; gw_currency := "NGN" |}) = Some err ->
  paystack_round_trip userId ngnAmount poll t env s
  = (inl err,
     after_update env (after_reads [paystack_call env userId ngnAmount poll t] s)
       (failed_patch (metadata t) (Js.message_or err "Failed to initialize Paystack payment") (now env))
       (id t)).
Proof.
  intros Hfail.
  unfold paystack_round_trip. unfold bind at 1. unfold ask at 1. cbv beta iota.
  unfold try_catch.
  unfold bind at 1. unfold fetch at 1. unfold bind at 1. unfold record_call at 1.
  unfold bind at 1. unfold ask at 1. cbv beta iota.
  unfold paystack_failure, round_trip_failure in Hfail.
  destruct (gateway env _ _) as [reason|ok json].
  - injection Hfail as ->. cbn. rewrite transactions_update_ignored. reflexivity.
  - destruct ok, json as [reason|body]; cbn in Hfail |- *.
    + injection Hfail as ->. rewrite transactions_update_ignored. reflexivity.
    + destruct (Js.truthy_opt_string (body_authorizationUrl body)); [discriminate|].
      injection Hfail as <-. cbn. rewrite transactions_update_ignored. reflexivity.
    + injection Hfail as ->. rewrite transactions_update_ignored. reflexivity.
    + injection Hfail as <-. rewrite transactions_update_ignored. reflexivity.
Qed.

(** [initializeStripePayment] up to the round trip. *)
Lemma initializeStripePayment_run userId amount poll currency env s :
  initializeStripePayment userId amount poll currency env s
  = match faults env (S (S (clock s))) with
    | Some refused =>
        (inr (Response None (Some (fault_message refused))),
         createTransaction_store env (before_create s userId currency "USD") userId
           (gateway_request Stripe "USD" env amount poll currency) (transactions s))
    | None =>
        try_catch
          (stripe_round_trip userId (lenient_convert env amount currency "USD") poll
             (created_pending Stripe "USD" env s userId amount poll currency))
          (fun e => ret (failure (Js.message_or e "Failed to initialize Stripe payment")))
          env (before_round_trip Stripe "USD" env s userId amount poll currency)
    end.
Proof.
  unfold initializeStripePayment. unfold try_catch at 1.
  rewrite fetch_profile_ignored.
  erewrite bind_run by apply to_gateway_currency_run.
  pose proof (createTransaction_run userId (gateway_request Stripe "USD" env amount poll currency)
                env (before_create s userId currency "USD")) as Hcreate.
  change (clock (before_create s userId currency "USD")) with (S (clock s)) in Hcreate.
  destruct (faults env (S (S (clock s)))) as [refused|].
  - erewrite bind_run by exact Hcreate. reflexivity.
  - erewrite bind_run by exact Hcreate. cbn [error data success Js.truthy_opt_string].
    unfold try_catch. reflexivity.
Qed.

(** [initializePaystackPayment] up to the round trip. *)
Lemma initializePaystackPayment_run userId amount poll currency env s :
  initializePaystackPayment userId amount poll currency env s
  = match faults env (S (S (clock s))) with
    | Some refused =>
        (inr (Response None (Some (fault_message refused))),
         createTransaction_store env (before_create s userId currency "NGN") userId
           (gateway_request Paystack "NGN" env amount poll currency) (transactions s))
    | None =>
        try_catch
          (paystack_round_trip userId (lenient_convert env amount currency "NGN") poll
             (created_pending Paystack "NGN" env s userId amount poll currency))
          (fun e => ret (failure (Js.message_or e "Failed to initialize Paystack payment")))
          env (before_round_trip Paystack "NGN" env s userId amount poll currency)
    end.
Proof.
  unfold initializePaystackPayment. unfold try_catch at 1.
  rewrite fetch_profile_ignored.
  erewrite bind_run by apply to_gateway_currency_run.
  pose proof (createTransaction_run userId (gateway_request Paystack "NGN" env amount poll currency)
                env (before_create s userId currency "NGN")) as Hcreate.
  change (clock (before_create s userId currency "NGN")) with (S (clock s)) in Hcreate.
  destruct (faults env (S (S (clock s)))) as [refused|].
  - erewrite bind_run by exact Hcreate. reflexivity.
  - erewrite bind_run by exact Hcreate. cbn [error data success Js.truthy_opt_string].
    unfold try_catch. reflexivity.
Qed.

(** The update that marks the pending row failed, issued right after the
    row was stored and applied by the store, leaves the row failed with
    the message in its metadata. *)
Lemma marked_failed env s t text :
  transactions s !! id t = Some t ->
  faults env (clock s) = None ->
  may_update env t = true ->
  exists t',
    table_after_update env s (failed_patch (metadata t) text (now env)) (id t) !! id t = Some t'
    /\ status t' = Failed
    /\ metadata t' !! "error" = Some (Js.VString text).
Proof.
  intros Hrow Hquiet Hopen. unfold table_after_update. rewrite Hquiet, Hrow, Hopen.
  rewrite lookup_insert_eq. eexists. split; [reflexivity|]. split; [reflexivity|].
  cbn. apply lookup_insert_eq.
Qed.

(** The same update, refused by the store or matching no row it may
    change, leaves the row as it was created. *)
Lemma left_as_created env s t patch :
  transactions s !! id t = Some t ->
  faults env (clock s) <> None \/ may_update env t = false ->
  table_after_update env s patch (id t) !! id t = Some t.
Proof.
  intros Hrow Hcase. unfold table_after_update.
  destruct (faults env (clock s)) as [refused|]; [exact Hrow|].
  rewrite Hrow. destruct Hcase as [Hrefused|Hclosed]; [contradiction|].
  rewrite Hclosed. exact Hrow.
Qed.

(** The row a gateway initiation creates holds no error text. *)
Lemma created_pending_has_no_error method target env s userId amount poll currency :
  metadata (created_pending method target env s userId amount poll currency) !! "error" = None.
Proof.
  cbn. unfold request_metadata.
  rewrite lookup_insert_ne by discriminate. apply lookup_singleton_ne. discriminate.
Qed.

(** C6 (as amended). Take a run of [initializeStripePayment] or of
    [initializePaystackPayment] in which the pending transaction has been
    created and the round trip to the gateway fails: the response is not
    OK, or the client secret (the authorization URL) is missing, or the
    request or the reading of the body throws.  Then the caller receives
    [{data: null, error}] with the failure's message, and the last call of
    the run is the update of the transaction just created to [failed], with
    the message under [error] in its metadata.  What the store answers to
    that update is not read.  When the store applies it, the stored row is
    [failed] and its metadata holds the message; when the store refuses
    it, or lets it match no row, the stored row is the row as it was
    created, [pending] and without an error text, and the caller receives
    the same error. *)
Theorem gateway_failure_issues_failed_update :
  forall (env : Env) (s : Store) (userId : string) (amount : Js.number)
         (poll : option string) (currency : string) (err : Js.Thrown),
    faults env (S (S (clock s))) = None ->
    (let t := created_pending Stripe "USD" env s userId amount poll currency in
     let call := stripe_call env userId (lenient_convert env amount currency "USD") poll t in
     let text := Js.message_or err "Failed to create payment intent" in
     let start := before_round_trip Stripe "USD" env s userId amount poll currency in
     answer env call ≫= stripe_failure = Some err ->
     exists s',
       initializeStripePayment userId amount poll currency env s
       = (inr (Response None (Some (Js.message_or err "Failed to initialize Stripe payment"))), s')
       /\ status t = Pending
       /\ metadata t !! "error" = None
       /\ transactions start !! id t = Some t
       /\ trace s' = UpdateTransaction (id t) (failed_patch (metadata t) text (now env))
                       :: call :: trace start
       /\ (faults env (S (S (S (clock s)))) = None ->
           may_update env t = true ->
           exists t',
             transactions s' !! id t = Some t'
             /\ status t' = Failed
             /\ metadata t' !! "error" = Some (Js.VString text))
       /\ (faults env (S (S (S (clock s)))) <> None \/ may_update env t = false ->
           transactions s' !! id t = Some t))
    /\ (let t := created_pending Paystack "NGN" env s userId amount poll currency in
        let call := paystack_call env userId (lenient_convert env amount currency "NGN") poll t in
        let text := Js.message_or err "Failed to initialize Paystack payment" in
        let start := before_round_trip Paystack "NGN" env s userId amount poll currency in
        answer env call ≫= paystack_failure = Some err ->
        exists s',
          initializePaystackPayment userId amount poll currency env s
          = (inr (Response None (Some text)), s')
          /\ status t = Pending
          /\ metadata t !! "error" = None
          /\ transactions start !! id t = Some t
          /\ trace s' = UpdateTransaction (id t) (failed_patch (metadata t) text (now env))
                          :: call :: trace start
          /\ (faults env (S (S (S (clock s)))) = None ->
              may_update env t = true ->
              exists t',
                transactions s' !! id t = Some t'
                /\ status t' = Failed
                /\ metadata t' !! "error" = Some (Js.VString text))
          /\ (faults env (S (S (S (clock s)))) <> None \/ may_update env t = false ->
              transactions s' !! id t = Some t)).
Proof.
  intros env s userId amount poll currency err Hinsert. split.
  - intros t call text start Hfail. cbn in Hfail.
    rewrite initializeStripePayment_run, Hinsert. unfold try_catch.
    rewrite (stripe_round_trip_fails _ _ _ _ _ _ err) by exact Hfail.
    eexists. split; [reflexivity|]. split; [reflexivity|].
    split; [apply created_pending_has_no_error|].
    assert (Hrow : transactions start !! id t = Some t) by apply lookup_insert_eq.
    split; [exact Hrow|]. split; [reflexivity|]. split.
    + intros Hquiet Hopen. cbn [transactions after_update].
      apply marked_failed; assumption.
    + intros Hcase. cbn [transactions after_update].
      apply left_as_created; assumption.
  - intros t call text start Hfail. cbn in Hfail.
    rewrite initializePaystackPayment_run, Hinsert. unfold try_catch.
    rewrite (paystack_round_trip_fails _ _ _ _ _ _ err) by exact Hfail.
    eexists. split; [reflexivity|]. split; [reflexivity|].
    split; [apply created_pending_has_no_error|].
    assert (Hrow : transactions start !! id t = Some t) by apply lookup_insert_eq.
    split; [exact Hrow|]. split; [reflexivity|]. split.
    + intros Hquiet Hopen. cbn [transactions after_update].
      apply marked_failed; assumption.
    + intros Hcase. cbn [transactions after_update].
      apply left_as_created; assumption.
Qed.

Lemma gateway_failure_issues_failed_update_witness :
  (exists s' t',
      initializeStripePayment "alice" 100%float (Some "poll-1") "EUR" (demo_env no_faults) demo_store
      = (inr (Response None (Some "card declined")), s')
      /\ transactions s' !! "tx-1" = Some t'
      /\ status t' = Failed
      /\ metadata t' !! "error" = Some (Js.VString "card declined"))
  /\ (exists s' t',
        initializePaystackPayment "bob" 100%float None "USD" read_only_env demo_store
        = (inr (Response None (Some "card declined")), s')
        /\ transactions s' !! "tx-1" = Some t'
        /\ status t' = Pending
        /\ metadata t' !! "error" = None).
Proof.
  split.
  - destruct (gateway_failure_issues_failed_update (demo_env no_faults) demo_store
                "alice" 100%float (Some "poll-1") "EUR" (Js.ErrorObject "card declined") eq_refl)
      as [Hstripe _].
    destruct (Hstripe eq_refl) as (s' & Hrun & _ & _ & _ & _ & Hmarked & _).
    destruct (Hmarked eq_refl eq_refl) as (t' & Hrow & Hstatus & Hmeta).
    exists s', t'. split; [exact Hrun|]. split; [exact Hrow|]. split; assumption.
  - destruct (gateway_failure_issues_failed_update read_only_env demo_store
                "bob" 100%float None "USD" (Js.ErrorObject "card declined") eq_refl)
      as [_ Hpaystack].
    destruct (Hpaystack eq_refl) as (s' & Hrun & Hstatus & Hmeta & _ & _ & _ & Hkept).
    eexists s', _. split; [exact Hrun|]. split; [exact (Hkept (or_intror eq_refl))|].
    split; assumption.
Defined.

(** C6 (as stated) fails.  The gateway declines, so the round trip fails and
    the caller receives the error; but the store refuses the update that
    would mark alice's transaction failed, and under a policy that lets no
    row be updated the update for bob matches no row: in both runs the
    update was issued, yet the transaction just created is still [pending]
    and its metadata holds no error text. *)
Lemma gateway_failure_can_leave_row_pending :
  (gateway update_refused "https://project.example/functions/v1/create-payment-intent"
     {| gw_amount := lenient_convert update_refused 100%float "EUR" "USD";
        gw_userId := "alice"; gw_transactionId := "tx-1";
        gw_promotedPollId := Some "poll-1"; gw_currency := "USD" |}
   = declined
   /\ fst (initializeStripePayment "alice" 100%float (Some "poll-1") "EUR" update_refused
             demo_store)
      = inr (Response None (Some "card declined"))
   /\ (exists patch,
         head (trace (snd (initializeStripePayment "alice" 100%float (Some "poll-1") "EUR"
                             update_refused demo_store)))
         = Some (UpdateTransaction "tx-1" patch)
         /\ set_status patch = Some Failed)
   /\ exists t,
        transactions (snd (initializeStripePayment "alice" 100%float (Some "poll-1") "EUR"
                             update_refused demo_store)) !! "tx-1" = Some t
        /\ status t = Pending
        /\ status t <> Failed
        /\ metadata t !! "error" = None)
  /\ (fst (initializePaystackPayment "bob" 100%float None "USD" read_only_env demo_store)
      = inr (Response None (Some "card declined"))
      /\ (exists patch,
            head (trace (snd (initializePaystackPayment "bob" 100%float None "USD"
                                read_only_env demo_store)))
            = Some (UpdateTransaction "tx-1" patch)
            /\ set_status patch = Some Failed)
      /\ exists t,
           transactions (snd (initializePaystackPayment "bob" 100%float None "USD"
                                read_only_env demo_store)) !! "tx-1" = Some t
           /\ status t = Pending
           /\ status t <> Failed
           /\ metadata t !! "error" = None).
Proof.
  split.
  - split; [reflexivity|]. split; [vm_compute; reflexivity|]. split.
    + eexists. split; [vm_compute; reflexivity|]. reflexivity.
    + eexists. split; [vm_compute; reflexivity|].
      split; [reflexivity|]. split; [discriminate|]. vm_compute. reflexivity.
  - split; [vm_compute; reflexivity|]. split.
    + eexists. split; [vm_compute; reflexivity|]. reflexivity.
    + eexists. split; [vm_compute; reflexivity|].
      split; [reflexivity|]. split; [discriminate|]. vm_compute. reflexivity.
Qed.

(** ** The rows handed to the store *)

Lemma inserts_only_step P s s1 s2 :
  inserts_only P s s1 -> inserts_only P s1 s2 -> inserts_only P s s2.
Proof.
  intros (c1 & H1 & Hp1) (c2 & H2 & Hp2). exists (c2 ++ c1)%list. split.
  - rewrite H2, H1. apply List.app_assoc.
  - intros row Hin. apply elem_of_app in Hin as [Hin|Hin]; auto.
Qed.

Lemma inserts_only_call P s s' c :
  trace s' = c :: trace s ->
  (forall row, c = InsertTransaction row -> P row) ->
  inserts_only P s s'.
Proof.
  intros Heq Hp. exists [c]. split; [exact Heq|].
  intros row Hin. apply list_elem_of_singleton in Hin. auto.
Qed.

Lemma inserts_only_reads P s s' reads :
  trace s' = (reads ++ trace s)%list ->
  Forall (fun c => is_write c = false) reads ->
  inserts_only P s s'.
Proof.
  intros Heq Hreads. exists reads. split; [exact Heq|].
  intros row Hin. rewrite Forall_forall in Hreads. apply Hreads in Hin. discriminate.
Qed.

Lemma rate_reads_are_reads from to : Forall (fun c => is_write c = false) (rate_reads from to).
Proof. unfold rate_reads. destruct (String.eqb from to); repeat constructor. Qed.

Lemma wallet_reads_are_reads currency : Forall (fun c => is_write c = false) (wallet_reads currency).
Proof. unfold wallet_reads, rate_reads. destruct (String.eqb currency "USD"); repeat constructor. Qed.

Lemma try_catch_ret_store {A : Type} (c : M A) (f : Js.Thrown -> A) env s :
  snd (try_catch c (fun e => ret (f e)) env s) = snd (c env s).
Proof. unfold try_catch, ret. destruct (c env s) as [[e|x] s']; reflexivity. Qed.

Lemma createTransaction_store_inserts_only (P : NewTransaction -> Prop) userId req env s table :
  P (createTransaction_row env s userId req) ->
  inserts_only P s (createTransaction_store env s userId req table).
Proof.
  intros Hrow.
  apply (inserts_only_step P s
           {| profiles := profiles s; transactions := transactions s; clock := clock s;
              trace := rate_reads (Js.string_or (req_currency req) "USD")
                         (preferred_currency env s userId)
                       ++ FetchProfileById userId :: trace s |}).
  - apply (inserts_only_step P s (after_fetch s userId)).
    + apply (inserts_only_call P _ _ (FetchProfileById userId)); [reflexivity|discriminate].
    + eapply inserts_only_reads; [reflexivity|apply rate_reads_are_reads].
  - apply (inserts_only_call P _ _
             (InsertTransaction (createTransaction_row env s userId req))); [reflexivity|].
    intros row Heq. injection Heq as <-. exact Hrow.
Qed.

(** [createTransaction] hands one row to the store, the one described. *)
Lemma createTransaction_inserts_only (P : NewTransaction -> Prop) userId req env s :
  P (createTransaction_row env s userId req) ->
  inserts_only P s (snd (createTransaction userId req env s)).
Proof.
  intros Hrow. rewrite createTransaction_run.
  destruct (faults env (S (clock s))); apply createTransaction_store_inserts_only; exact Hrow.
Qed.

(** The round trips hand no row to the store. *)
Lemma stripe_round_trip_inserts_nothing (P : NewTransaction -> Prop) userId usdAmount poll t env s :
  inserts_only P s (snd (stripe_round_trip userId usdAmount poll t env s)).
Proof.
  assert (Hupdate : forall patch,
             inserts_only P s
               (after_update env (after_reads [stripe_call env userId usdAmount poll t] s)
                  patch (id t))).
  { intros patch.
    apply (inserts_only_step P s (after_reads [stripe_call env userId usdAmount poll t] s)).
    - apply (inserts_only_call P _ _ (stripe_call env userId usdAmount poll t));
        [reflexivity|discriminate].
    - apply (inserts_only_call P _ _ (UpdateTransaction (id t) patch));
        [reflexivity|discriminate]. }
  destruct (stripe_failure
              (gateway env (VITE_SUPABASE_URL env ++ "/functions/v1/create-payment-intent")
                 {| gw_amount := usdAmount; gw_userId := userId; gw_transactionId := id t;
                    gw_promotedPollId := poll; gw_currency := "USD" |})) as [err|] eqn:Hfail.
  - rewrite (stripe_round_trip_fails _ _ _ _ _ _ err) by exact Hfail. apply Hupdate.
  - unfold stripe_failure, round_trip_failure in Hfail.
    unfold stripe_round_trip. unfold bind at 1. unfold ask at 1. cbv beta iota.
    unfold try_catch.
    unfold bind at 1. unfold fetch at 1. unfold bind at 1. unfold record_call at 1.
    unfold bind at 1. unfold ask at 1. cbv beta iota.
    destruct (gateway env _ _) as [reason|ok json]; [discriminate|].
    destruct ok, json as [reason|body]; try discriminate.
    cbn in Hfail |- *.
    destruct (Js.truthy_opt_string (body_clientSecret body)); [|discriminate].
    rewrite transactions_update_ignored. apply Hupdate.
Qed.

Lemma paystack_round_trip_inserts_nothing (P : NewTransaction -> Prop) userId ngnAmount poll t env s :
  inserts_only P s (snd (paystack_round_trip userId ngnAmount poll t env s)).
Proof.
  assert (Hupdate : forall patch,
             inserts_only P s
               (after_update env (after_reads [paystack_call env userId ngnAmount poll t] s)
                  patch (id t))).
  { intros patch.
    apply (inserts_only_step P s (after_reads [paystack_call env userId ngnAmount poll t] s)).
    - apply (inserts_only_call P _ _ (paystack_call env userId ngnAmount poll t));
        [reflexivity|discriminate].
    - apply (inserts_only_call P _ _ (UpdateTransaction (id t) patch));
        [reflexivity|discriminate]. }
  destruct (paystack_failure
              (gateway env (VITE_SUPABASE_URL env ++ "/functions/v1/paystack-initiate-payment")
                 {| gw_amount := ngnAmount; gw_userId := userId; gw_transactionId := id t;
                    gw_promotedPollId := poll; gw_currency := "NGN" |})) as [err|] eqn:Hfail.
  - rewrite (paystack_round_trip_fails _ _ _ _ _ _ err) by exact Hfail. apply Hupdate.
  - unfold paystack_failure, round_trip_failure in Hfail.
    unfold paystack_round_trip. unfold bind at 1. unfold ask at 1. cbv beta iota.
    unfold try_catch.
    unfold bind at 1. unfold fetch at 1. unfold bind at 1. unfold record_call at 1.
    unfold bind at 1. unfold ask at 1. cbv beta iota.
    destruct (gateway env _ _) as [reason|ok json]; [discriminate|].
    destruct ok, json as [reason|body]; try discriminate.
    cbn in Hfail |- *.
    destruct (Js.truthy_opt_string (body_authorizationUrl body)); [|discriminate].
    rewrite transactions_update_ignored. apply Hupdate.
Qed.

Lemma before_create_inserts_only (P : NewTransaction -> Prop) s userId currency target :
  inserts_only P s (before_create s userId currency target).
Proof.
  apply (inserts_only_step P s (after_fetch s userId)).
  - apply (inserts_only_call P _ _ (FetchProfileById userId)); [reflexivity|discriminate].
  - eapply inserts_only_reads; [reflexivity|apply rate_reads_are_reads].
Qed.

Lemma initializeStripePayment_inserts_only (P : NewTransaction -> Prop)
    userId amount poll currency env s :
  P (createTransaction_row env (before_create s userId currency "USD") userId
       (gateway_request Stripe "USD" env amount poll currency)) ->
  inserts_only P s (snd (initializeStripePayment userId amount poll currency env s)).
Proof.
  intros Hrow. rewrite initializeStripePayment_run.
  destruct (faults env (S (S (clock s)))).
  - eapply inserts_only_step; [apply before_create_inserts_only|].
    apply createTransaction_store_inserts_only. exact Hrow.
  - rewrite try_catch_ret_store.
    eapply inserts_only_step; [|apply stripe_round_trip_inserts_nothing].
    eapply inserts_only_step; [apply before_create_inserts_only|].
    apply createTransaction_store_inserts_only. exact Hrow.
Qed.

Lemma initializePaystackPayment_inserts_only (P : NewTransaction -> Prop)
    userId amount poll currency env s :
  P (createTransaction_row env (before_create s userId currency "NGN") userId
       (gateway_request Paystack "NGN" env amount poll currency)) ->
  inserts_only P s (snd (initializePaystackPayment userId amount poll currency env s)).
Proof.
  intros Hrow. rewrite initializePaystackPayment_run.
  destruct (faults env (S (S (clock s)))).
  - eapply inserts_only_step; [apply before_create_inserts_only|].
    apply createTransaction_store_inserts_only. exact Hrow.
  - rewrite try_catch_ret_store.
    eapply inserts_only_step; [|apply paystack_round_trip_inserts_nothing].
    eapply inserts_only_step; [apply before_create_inserts_only|].
    apply createTransaction_store_inserts_only. exact Hrow.
Qed.

(** Closes [inserts_only P s s'] when the trace of [s'] is that of [s] with
    calls put in front, [Hrow] proving [P] of the one row among them. *)
Ltac close_inserts Hrow :=
  lazymatch goal with
  | |- inserts_only ?P ?s ?s' =>
      let t := eval cbn in (trace s') in
      let base := constr:(trace s) in
      let rec prefix t :=
        lazymatch t with
        | base => constr:(@nil Call)
        | ?c :: ?t' => let p := prefix t' in constr:(c :: p)
        end in
      let p := prefix t in
      let Hin := fresh "Hin" in
      exists p; split; [reflexivity|];
      intros row Hin; rewrite ?elem_of_cons, elem_of_nil in Hin;
      repeat (destruct Hin as [Hin|Hin];
              [first [discriminate Hin | injection Hin as ->; exact Hrow]|]);
      destruct Hin
  end.

Lemma wallet_with_usd_amount_inserts_only (P : NewTransaction -> Prop)
    userId amount poll currency conv usd env s :
  P (wallet_row userId amount poll currency usd conv (points_for usd conv)) ->
  inserts_only P s (snd (wallet_with_usd_amount userId amount poll currency conv usd env s)).
Proof.
  intros Hrow.
  unfold wallet_with_usd_amount, bind, ProfileService_fetchProfileById, fallible_call, get, ret.
  cbn.
  destruct (faults env (clock s)) as [f|]; cbn; [close_inserts Hrow|].
  destruct (profiles s !! userId) as [p|] eqn:Hprofile; cbn; [|close_inserts Hrow].
  unfold wallet_debit_and_record.
  destruct (points p <? points_for usd conv)%float; [close_inserts Hrow|].
  unfold bind, ProfileService_updateUserPoints, transactions_insert, fallible_call,
    get, ask, ret, set_profiles, set_transactions.
  cbn.
  destruct (faults env (S (clock s))) as [f|]; cbn; [close_inserts Hrow|].
  rewrite Hprofile. cbn.
  destruct (faults env (S (S (clock s)))) as [f|]; cbn; [|close_inserts Hrow].
  destruct (faults env (S (S (S (clock s))))) as [g|]; cbn; [close_inserts Hrow|].
  rewrite lookup_insert_eq. cbn. close_inserts Hrow.
Qed.

Lemma processWalletPayment_inserts_only (P : NewTransaction -> Prop)
    userId amount poll currency env s :
  P (wallet_row userId amount poll currency (wallet_amount_in_usd env amount currency)
       (wallet_conversion env) (wallet_points_needed env amount currency)) ->
  inserts_only P s (snd (processWalletPayment userId amount poll currency env s)).
Proof.
  intros Hrow.
  destruct (rate_lookup_passes env currency) eqn:Hpass.
  - rewrite processWalletPayment_after_reads by exact Hpass.
    eapply inserts_only_step; [|apply wallet_with_usd_amount_inserts_only; exact Hrow].
    eapply inserts_only_reads; [reflexivity|apply wallet_reads_are_reads].
  - unfold rate_lookup_passes in Hpass. apply orb_false_iff in Hpass as [Hcur Herr].
    apply negb_false_iff in Herr.
    unfold processWalletPayment, try_catch, bind, SettingsService_getSettings,
      SettingsService_getExchangeRate, record_call, ask, ret.
    cbn. rewrite Hcur. cbn. rewrite Herr. cbn.
    close_inserts Hrow.
Qed.

(** C3 (as amended). The rows the four methods hand to the store.
    [processWalletPayment]: the USD amount under [amount], "USD" under
    [currency], and the request's own amount and currency under
    [original_amount] and [original_currency].  [createTransaction]: the
    request's own amount and currency (USD by default) under [amount] and
    [currency], and that amount taken into the user's preferred currency
    under [original_amount] and [original_currency].  The two gateway
    initiations: the amount in the gateway's currency (USD, NGN) under
    [amount] and [currency], that amount taken into the user's preferred
    currency under [original_amount] and [original_currency], and the
    request's own amount and currency in the metadata. *)
Theorem inserted_rows_amounts :
  forall (env : Env) (s : Store) (userId : string) (amount : Js.number)
         (poll : option string) (currency : string) (req : TransactionCreateRequest),
    inserts_only
      (fun row =>
         new_amount row = wallet_amount_in_usd env amount currency
         /\ new_currency row = "USD"
         /\ new_original_amount row = amount
         /\ new_original_currency row = currency)
      s (snd (processWalletPayment userId amount poll currency env s))
    /\ inserts_only
         (fun row =>
            new_amount row = req_amount req
            /\ new_currency row = Js.string_or (req_currency req) "USD"
            /\ new_original_amount row
               = lenient_convert env (req_amount req) (new_currency row)
                   (preferred_currency env s userId)
            /\ new_original_currency row = preferred_currency env s userId)
         s (snd (createTransaction userId req env s))
    /\ inserts_only
         (gateway_row_shape env "USD"
            (preferred_currency env (before_create s userId currency "USD") userId)
            amount currency)
         s (snd (initializeStripePayment userId amount poll currency env s))
    /\ inserts_only
         (gateway_row_shape env "NGN"
            (preferred_currency env (before_create s userId currency "NGN") userId)
            amount currency)
         s (snd (initializePaystackPayment userId amount poll currency env s)).
Proof.
  intros env s userId amount poll currency req.
  split; [|split; [|split]].
  - apply processWalletPayment_inserts_only. repeat split.
  - apply createTransaction_inserts_only. repeat split.
  - apply initializeStripePayment_inserts_only. repeat split.
  - apply initializePaystackPayment_inserts_only. repeat split.
Qed.

(** C3 (as stated) fails: bob, whose profile names no currency, asks
    [createTransaction] for 50 EUR; the row keeps 50 EUR, not a USD value,
    under [amount]/[currency], and its [original_amount]/[original_currency]
    are the converted 55.00000000000001 USD, not the 50 EUR of the request. *)
Lemma createTransaction_original_is_not_the_request :
  exists t s',
    createTransaction "bob" fifty_eur (demo_env no_faults) demo_store = (inr (success t), s')
    /\ req_amount fifty_eur = 50%float /\ req_currency fifty_eur = Some "EUR"
    /\ amount t = 50%float /\ currency t = "EUR"
    /\ original_amount t <> 50%float /\ original_currency t <> "EUR"
    /\ original_amount t = 55.00000000000001%float /\ original_currency t = "USD".
Proof.
  eexists _, _. split; [vm_compute; reflexivity|].
  repeat split; try (vm_compute; reflexivity); cbn.
  - numbers_differ.
  - discriminate.
Qed.

Example stripe_original_is_the_preferred_currency :
  exists t,
    transactions
      (snd (initializeStripePayment "alice" 100%float None "NGN" (demo_env no_faults) demo_store))
      !! "tx-1" = Some t
    /\ amount t = 100%float /\ currency t = "USD"
    /\ original_amount t = 50%float /\ original_currency t = "EUR"
    /\ metadata t !! "original_amount" = Some (Js.VNumber 100%float)
    /\ metadata t !! "original_currency" = Some (Js.VString "NGN").
Proof. eexists. split; [vm_compute; reflexivity|]. repeat split. Qed.

Example stripe_initiation_succeeds :
  exists s' t,
    initializeStripePayment "alice" 100%float (Some "poll-1") "EUR" approving_env demo_store
    = (inr (success {| clientSecret := "pi_1_secret_2"; stripe_transactionId := "tx-1" |}), s')
    /\ transactions s' !! "tx-1" = Some t
    /\ status t = Pending
    /\ stripe_payment_intent_id t = Some "pi_1"
    /\ metadata t !! "payment_intent_id" = Some (Js.VString "pi_1")
    /\ currency t = "USD" /\ original_currency t = "EUR".
Proof. eexists _, _. split; [vm_compute; reflexivity|]. repeat split. Qed.

(** * Further properties of the service *)

(** ** Wallet payments: the early exits and what is left untouched *)

(** X1. When the currency is not USD and the rate lookup reports an error,
    [processWalletPayment] returns that error at once, whatever rate came
    with it: the only calls made are the two reads, so the profile is not
    fetched and nothing is written. *)
Theorem wallet_rate_error_stops_early :
  forall (env : Env) (s : Store) (userId : string) (amount : Js.number)
         (poll : option string) (currency msg : string),
    currency <> "USD" ->
    error (exchange_rates env currency "USD") = Some msg ->
    Js.truthy_string msg = true ->
    processWalletPayment userId amount poll currency env s
    = (inr {| wallet_data := None; wallet_error := Some (Plain msg) |},
       after_reads [GetExchangeRate currency "USD"; GetSettings "promoted_polls"] s).
Proof.
  intros env s userId amount poll currency msg Hne Herr Htruthy.
  apply String.eqb_neq in Hne.
  unfold processWalletPayment, try_catch, bind, SettingsService_getSettings,
    SettingsService_getExchangeRate, record_call, ask, ret, after_reads.
  cbn. rewrite Hne. cbn. rewrite Herr. cbn. rewrite Htruthy. reflexivity.
Qed.

(** X2. When the profile service reports an error, or answers with no
    profile, [processWalletPayment] returns the service's message, or
    "User profile not found", after the profile fetch: nothing is written. *)
Theorem wallet_without_profile :
  forall (env : Env) (s : Store) (userId : string) (amount : Js.number)
         (poll : option string) (currency : string),
    rate_lookup_passes env currency = true ->
    faults env (clock s) <> None \/ profiles s !! userId = None ->
    processWalletPayment userId amount poll currency env s
    = (inr {| wallet_data := None;
              wallet_error :=
                Some (Plain (match faults env (clock s) with
                             | Some refused => fault_message refused
                             | None => "User profile not found"
                             end)) |},
       after_fetch (after_reads (wallet_reads currency) s) userId).
Proof.
  intros env s userId amount poll currency Hpass Hmissing.
  rewrite processWalletPayment_after_reads by exact Hpass.
  unfold wallet_with_usd_amount, bind, ProfileService_fetchProfileById, fallible_call, get, ret,
    after_fetch.
  cbn.
  destruct (faults env (clock s)) as [refused|]; cbn; [reflexivity|].
  destruct Hmissing as [Hfault|Hnone]; [congruence|].
  rewrite Hnone. reflexivity.
Qed.

Lemma wallet_rate_error_stops_early_witness :
  processWalletPayment "alice" 900%float None "JPY" rates_down_env demo_store
  = (inr {| wallet_data := None; wallet_error := Some (Plain "rate service down") |},
     after_reads [GetExchangeRate "JPY" "USD"; GetSettings "promoted_polls"] demo_store).
Proof.
  apply (wallet_rate_error_stops_early rates_down_env demo_store "alice" 900%float None
           "JPY" "rate service down").
  - discriminate.
  - reflexivity.
  - reflexivity.
Defined.

Lemma wallet_without_profile_witness :
  processWalletPayment "carol" 5%float None "USD" (demo_env no_faults) demo_store
  = (inr {| wallet_data := None; wallet_error := Some (Plain "User profile not found") |},
     after_fetch (after_reads (wallet_reads "USD") demo_store) "carol").
Proof.
  apply (wallet_without_profile (demo_env no_faults) demo_store "carol" 5%float None "USD").
  - reflexivity.
  - right. reflexivity.
Defined.

(** X3. Whatever the collaborators answer, [processWalletPayment] leaves
    every other user's profile as it was, leaves the payer's preferred
    currency as it was, and leaves every transaction row as it was: a row
    of the table afterwards is a row of the table before, or is the payer's
    completed wallet transaction in USD. *)
Theorem wallet_payment_touches_only_the_payer :
  forall (env : Env) (s : Store) (userId : string) (amount : Js.number)
         (poll : option string) (cur : string),
    (forall other,
        other <> userId ->
        profiles (snd (processWalletPayment userId amount poll cur env s)) !! other
        = profiles s !! other)
    /\ pf_currency <$> profiles (snd (processWalletPayment userId amount poll cur env s))
                         !! userId
       = pf_currency <$> profiles s !! userId
    /\ (forall key t,
          transactions (snd (processWalletPayment userId amount poll cur env s)) !! key
          = Some t ->
          transactions s !! key = Some t
          \/ (user_id t = userId /\ payment_method t = Wallet
              /\ status t = Completed /\ currency t = "USD")).
Proof.
  intros env s userId amount poll cur.
  assert (Hrest : forall conv usd s0,
             profiles s0 = profiles s -> transactions s0 = transactions s ->
             let s' := snd (wallet_with_usd_amount userId amount poll cur conv usd env s0) in
             (forall other, other <> userId -> profiles s' !! other = profiles s !! other)
             /\ pf_currency <$> profiles s' !! userId = pf_currency <$> profiles s !! userId
             /\ (forall key t,
                   transactions s' !! key = Some t ->
                   transactions s !! key = Some t
                   \/ (user_id t = userId /\ payment_method t = Wallet
                       /\ status t = Completed /\ currency t = "USD"))).
  { intros conv usd s0 Hp Ht.
    unfold wallet_with_usd_amount, bind, ProfileService_fetchProfileById, fallible_call, get, ret.
    cbn.
    destruct (faults env (clock s0)) as [f|]; cbn; [rewrite Hp, Ht; auto|].
    destruct (profiles s0 !! userId) as [p|] eqn:Hprofile; cbn; [|rewrite Hp, Ht; auto].
    unfold wallet_debit_and_record.
    destruct (points p <? points_for usd conv)%float; cbn; [rewrite Hp, Ht; auto|].
    unfold bind, ProfileService_updateUserPoints, transactions_insert, fallible_call,
      get, ask, ret, set_profiles, set_transactions.
    cbn.
    destruct (faults env (S (clock s0))) as [f|]; cbn; [rewrite Hp, Ht; auto|].
    rewrite Hprofile. cbn.
    assert (Hdebited : forall q : Profile,
               pf_currency q = pf_currency p ->
               (forall other, other <> userId ->
                              <[userId := q]> (profiles s0) !! other = profiles s !! other)
               /\ pf_currency <$> <[userId := q]> (profiles s0) !! userId
                  = pf_currency <$> profiles s !! userId).
    { intros q Hq. split.
      - intros other Hother. rewrite lookup_insert_ne by congruence. rewrite Hp. reflexivity.
      - rewrite lookup_insert_eq. rewrite <- Hp, Hprofile. cbn. congruence. }
    destruct (faults env (S (S (clock s0)))) as [f|]; cbn.
    - destruct (faults env (S (S (S (clock s0))))) as [g|]; cbn.
      + destruct (Hdebited (add_points (- points_for usd conv)%float p) eq_refl) as [Ho Hc].
        rewrite Ht. auto.
      + rewrite lookup_insert_eq. cbn. rewrite insert_insert_eq.
        destruct (Hdebited (add_points (points_for usd conv)
                              (add_points (- points_for usd conv)%float p)) eq_refl) as [Ho Hc].
        rewrite Ht. auto.
    - destruct (Hdebited (add_points (- points_for usd conv)%float p) eq_refl) as [Ho Hc].
      split; [exact Ho|]. split; [exact Hc|].
      intros key t Hlookup. rewrite Ht in Hlookup.
      apply lookup_insert_Some in Hlookup as [[_ <-]|[_ Hold]]; [right|left; exact Hold].
      repeat split. }
  destruct (rate_lookup_passes env cur) eqn:Hpass.
  - rewrite processWalletPayment_after_reads by exact Hpass.
    apply Hrest; reflexivity.
  - unfold rate_lookup_passes in Hpass. apply orb_false_iff in Hpass as [Hcur Herr].
    apply negb_false_iff in Herr.
    unfold processWalletPayment, try_catch, bind, SettingsService_getSettings,
      SettingsService_getExchangeRate, record_call, ask, ret.
    cbn. rewrite Hcur. cbn. rewrite Herr. cbn. auto.
Qed.

(** ** The round trips that succeed *)

Lemma round_trip_passes fallback missing field outcome :
  round_trip_failure fallback missing field outcome = None ->
  exists body, outcome = Responded true (inr body) /\ Js.truthy_opt_string (field body) = true.
Proof.
  unfold round_trip_failure. destruct outcome as [reason|ok json]; [discriminate|].
  destruct ok, json as [reason|body]; try discriminate.
  destruct (Js.truthy_opt_string (field body)) eqn:Hfield; [|discriminate].
  intros _. eauto.
Qed.

Lemma stripe_round_trip_succeeds userId usdAmount poll t env s body :
  gateway env (VITE_SUPABASE_URL env ++ "/functions/v1/create-payment-intent")
    {| gw_amount := usdAmount; gw_userId := userId; gw_transactionId := id t;
       gw_promotedPollId := poll; gw_currency := "USD" |} = Responded true (inr body) ->
  Js.truthy_opt_string (body_clientSecret body) = true ->
  stripe_round_trip userId usdAmount poll t env s
  = (inr (success {| clientSecret := default "" (body_clientSecret body);
                     stripe_transactionId := id t |}),
     after_update env (after_reads [stripe_call env userId usdAmount poll t] s)
       (stripe_success_patch body t) (id t)).
Proof.
  intros Hanswer Hsecret.
  unfold stripe_round_trip. unfold bind at 1. unfold ask at 1. cbv beta iota.
  unfold try_catch.
  unfold bind at 1. unfold fetch at 1. unfold bind at 1. unfold record_call at 1.
  unfold bind at 1. unfold ask at 1. cbv beta iota.
  rewrite Hanswer. cbn. rewrite Hsecret.
  rewrite transactions_update_ignored. reflexivity.
Qed.

Lemma paystack_round_trip_succeeds userId ngnAmount poll t env s body :
  gateway env (VITE_SUPABASE_URL env ++ "/functions/v1/paystack-initiate-payment")
    {| gw_amount := ngnAmount; gw_userId := userId; gw_transactionId := id t;
       gw_promotedPollId := poll; gw_currency := "NGN" |} = Responded true (inr body) ->
  Js.truthy_opt_string (body_authorizationUrl body) = true ->
  paystack_round_trip userId ngnAmount poll t env s
  = (inr (success {| authorizationUrl := default "" (body_authorizationUrl body);
                     paystack_transactionId := id t |}),
     after_update env (after_reads [paystack_call env userId ngnAmount poll t] s)
       (paystack_success_patch body t) (id t)).
Proof.
  intros Hanswer Hurl.
  unfold paystack_round_trip. unfold bind at 1. unfold ask at 1. cbv beta iota.
  unfold try_catch.
  unfold bind at 1. unfold fetch at 1. unfold bind at 1. unfold record_call at 1.
  unfold bind at 1. unfold ask at 1. cbv beta iota.
  rewrite Hanswer. cbn. rewrite Hurl.
  rewrite transactions_update_ignored. reflexivity.
Qed.

(** A gateway initiation either reports the refused insert, or made the
    round trip: then it ends in the store the update after the round trip
    leaves, with the values of a success or the message of what was thrown. *)
Lemma initializeStripePayment_outcome userId amount poll cur env s :
  let t := created_pending Stripe "USD" env s userId amount poll cur in
  let call := stripe_call env userId (lenient_convert env amount cur "USD") poll t in
  let start := before_round_trip Stripe "USD" env s userId amount poll cur in
  (exists refused,
      faults env (S (S (clock s))) = Some refused
      /\ initializeStripePayment userId amount poll cur env s
         = (inr (Response None (Some (fault_message refused))),
            createTransaction_store env (before_create s userId cur "USD") userId
              (gateway_request Stripe "USD" env amount poll cur) (transactions s)))
  \/ (faults env (S (S (clock s))) = None
      /\ exists r patch,
           initializeStripePayment userId amount poll cur env s
           = (inr r, after_update env (after_reads [call] start) patch (id t))
           /\ one_of r
           /\ ((exists body, patch = stripe_success_patch body t)
               \/ exists text, patch = failed_patch (metadata t) text (now env))).
Proof.
  intros t call start. rewrite initializeStripePayment_run.
  destruct (faults env (S (S (clock s)))) as [refused|]; [left; eauto|].
  right. split; [reflexivity|]. unfold try_catch.
  destruct (stripe_failure
              (gateway env (VITE_SUPABASE_URL env ++ "/functions/v1/create-payment-intent")
                 {| gw_amount := lenient_convert env amount cur "USD"; gw_userId := userId;
                    gw_transactionId := id t; gw_promotedPollId := poll;
                    gw_currency := "USD" |})) as [err|] eqn:Hfail.
  - rewrite (stripe_round_trip_fails _ _ _ _ _ _ err) by exact Hfail.
    eexists _, _. split; [reflexivity|]. split; [right; cbn; eauto|].
    right. eauto.
  - apply round_trip_passes in Hfail as (body & Hanswer & Hsecret).
    rewrite (stripe_round_trip_succeeds _ _ _ _ _ _ body) by assumption.
    eexists _, _. split; [reflexivity|]. split; [left; cbn; eauto|].
    left. eauto.
Qed.

Lemma initializePaystackPayment_outcome userId amount poll cur env s :
  let t := created_pending Paystack "NGN" env s userId amount poll cur in
  let call := paystack_call env userId (lenient_convert env amount cur "NGN") poll t in
  let start := before_round_trip Paystack "NGN" env s userId amount poll cur in
  (exists refused,
      faults env (S (S (clock s))) = Some refused
      /\ initializePaystackPayment userId amount poll cur env s
         = (inr (Response None (Some (fault_message refused))),
            createTransaction_store env (before_create s userId cur "NGN") userId
              (gateway_request Paystack "NGN" env amount poll cur) (transactions s)))
  \/ (faults env (S (S (clock s))) = None
      /\ exists r patch,
           initializePaystackPayment userId amount poll cur env s
           = (inr r, after_update env (after_reads [call] start) patch (id t))
           /\ one_of r
           /\ ((exists body, patch = paystack_success_patch body t)
               \/ exists text, patch = failed_patch (metadata t) text (now env))).
Proof.
  intros t call start. rewrite initializePaystackPayment_run.
  destruct (faults env (S (S (clock s)))) as [refused|]; [left; eauto|].
  right. split; [reflexivity|]. unfold try_catch.
  destruct (paystack_failure
              (gateway env (VITE_SUPABASE_URL env ++ "/functions/v1/paystack-initiate-payment")
                 {| gw_amount := lenient_convert env amount cur "NGN"; gw_userId := userId;
                    gw_transactionId := id t; gw_promotedPollId := poll;
                    gw_currency := "NGN" |})) as [err|] eqn:Hfail.
  - rewrite (paystack_round_trip_fails _ _ _ _ _ _ err) by exact Hfail.
    eexists _, _. split; [reflexivity|]. split; [right; cbn; eauto|].
    right. eauto.
  - apply round_trip_passes in Hfail as (body & Hanswer & Hurl).
    rewrite (paystack_round_trip_succeeds _ _ _ _ _ _ body) by assumption.
    eexists _, _. split; [reflexivity|]. split; [left; cbn; eauto|].
    left. eauto.
Qed.

(** ** The uniform result *)

Lemma one_of_failure {A : Type} (msg : string) : one_of (@failure A msg).
Proof. right. cbn. eauto. Qed.

Lemma one_of_success {A : Type} (x : A) : one_of (success x).
Proof. left. cbn. eauto. Qed.

Lemma one_of_truthy_error {A : Type} (e : option string) :
  Js.truthy_opt_string e = true -> one_of (@Response A None e).
Proof. destruct e; [|discriminate]. intros _. right. cbn. eauto. Qed.

Create HintDb shape.
#[local] Hint Resolve one_of_failure one_of_success one_of_truthy_error : shape.

(** X4. No method of the service throws past its boundary, and what a
    method returns holds a value and no error, or an error and no value,
    whatever the settings service, the profile service, the store and the
    gateways answer. *)
Theorem every_method_returns_one_of :
  forall (env : Env) (s : Store) (userId : string) (amount : Js.number)
         (poll : option string) (cur other tid : string) (country filter : option string)
         (req : TransactionCreateRequest) (st : Status) (gw : option string),
    returns_one_of (getPaymentMethods env s)
    /\ returns_one_of (getAvailablePaymentMethods country filter env s)
    /\ (exists r, fst (processWalletPayment userId amount poll cur env s) = inr r
                  /\ wallet_one_of r)
    /\ returns_one_of (createTransaction userId req env s)
    /\ returns_one_of (updateTransactionStatus tid st gw env s)
    /\ returns_one_of (initializeStripePayment userId amount poll cur env s)
    /\ returns_one_of (initializePaystackPayment userId amount poll cur env s)
    /\ returns_one_of (convertAmount amount cur other env s).
Proof.
  intros env s userId amount poll cur other tid country filter req st gw.
  unfold returns_one_of.
  split; [|split; [|split; [|split; [|split; [|split; [|split]]]]]].
  - unfold getPaymentMethods, try_catch, bind, payment_methods_select_active, fallible_call,
      ask, ret.
    cbn. destruct (faults env (clock s)); cbn; eauto with shape.
  - unfold getAvailablePaymentMethods, try_catch, bind, SettingsService_getPaymentGatewaySettings,
      getPaymentMethods, try_catch, bind, payment_methods_select_active, fallible_call,
      record_call, ask, ret.
    cbn.
    destruct (Js.truthy_opt_string (error (gateway_settings env country))) eqn:Herr; cbn;
      [eauto with shape|].
    destruct (faults env (clock s)); cbn; [eauto with shape|].
    destruct filter as [c|]; [destruct (Js.truthy_string c)|]; cbn; eauto with shape.
  - assert (Hrest : forall conv usd s0,
               exists r, fst (wallet_with_usd_amount userId amount poll cur conv usd env s0) = inr r
                         /\ wallet_one_of r).
    { intros conv usd s0.
      unfold wallet_with_usd_amount, bind, ProfileService_fetchProfileById, fallible_call, get, ret.
      cbn.
      destruct (faults env (clock s0)) as [f|]; cbn;
        [eexists; split; [reflexivity|right; cbn; eauto]|].
      destruct (profiles s0 !! userId) as [p|] eqn:Hprofile; cbn;
        [|eexists; split; [reflexivity|right; cbn; eauto]].
      unfold wallet_debit_and_record.
      destruct (points p <? points_for usd conv)%float; cbn;
        [eexists; split; [reflexivity|right; cbn; eauto]|].
      unfold bind, ProfileService_updateUserPoints, transactions_insert, fallible_call,
        get, ask, ret, set_profiles, set_transactions.
      cbn.
      destruct (faults env (S (clock s0))) as [f|]; cbn;
        [eexists; split; [reflexivity|right; cbn; eauto]|].
      rewrite Hprofile. cbn.
      destruct (faults env (S (S (clock s0)))) as [f|]; cbn;
        [|eexists; split; [reflexivity|left; cbn; eauto]].
      destruct (faults env (S (S (S (clock s0))))) as [g|]; cbn;
        [eexists; split; [reflexivity|right; cbn; eauto]|].
      rewrite lookup_insert_eq. cbn.
      eexists; split; [reflexivity|right; cbn; eauto]. }
    destruct (rate_lookup_passes env cur) eqn:Hpass.
    + rewrite processWalletPayment_after_reads by exact Hpass. apply Hrest.
    + unfold rate_lookup_passes in Hpass. apply orb_false_iff in Hpass as [Hcur Herr].
      apply negb_false_iff in Herr.
      unfold processWalletPayment, try_catch, bind, SettingsService_getSettings,
        SettingsService_getExchangeRate, record_call, ask, ret.
      cbn. rewrite Hcur. cbn. rewrite Herr. cbn.
      eexists; split; [reflexivity|].
      destruct (error (exchange_rates env cur "USD")); [|discriminate].
      right. cbn. eauto.
  - rewrite createTransaction_run.
    destruct (faults env (S (clock s))); cbn; eauto with shape.
  - unfold updateTransactionStatus, try_catch, bind, transactions_update, transactions_select,
      fallible_call, get, ask, ret, set_transactions.
    cbn.
    destruct (faults env (clock s)); cbn; [eauto with shape|].
    destruct (transactions s !! tid) as [t|] eqn:Hrow; cbn.
    + destruct (may_update env t); cbn; [eauto with shape|].
      destruct (faults env (S (clock s))); cbn; [eauto with shape|].
      rewrite Hrow. cbn. destruct (is_final (status t)); eauto with shape.
    + destruct (faults env (S (clock s))); cbn; [eauto with shape|].
      rewrite Hrow. cbn. eauto with shape.
  - destruct (initializeStripePayment_outcome userId amount poll cur env s)
      as [(refused & _ & Hrun)|(_ & r & patch & Hrun & Hone & _)]; rewrite Hrun; cbn;
      eauto with shape.
  - destruct (initializePaystackPayment_outcome userId amount poll cur env s)
      as [(refused & _ & Hrun)|(_ & r & patch & Hrun & Hone & _)]; rewrite Hrun; cbn;
      eauto with shape.
  - unfold convertAmount, try_catch, bind, SettingsService_getExchangeRate, record_call, ask, ret.
    destruct (String.eqb cur other); cbn; [eauto with shape|].
    destruct (Js.truthy_opt_string (error (exchange_rates env cur other))) eqn:Herr; cbn;
      [eauto with shape|].
    destruct (data (exchange_rates env cur other)) as [r|]; cbn; [|eauto with shape].
    destruct (Js.truthy_number r); cbn; eauto with shape.
Qed.

(** ** Creating transactions: what is stored and when *)

(** X5. [createTransaction] never writes to the profiles, and what it
    returns tells what it stored: with an error nothing was stored, and
    otherwise the returned row, a [pending] row of the user, is the one row
    added to the table, under its own id. *)
Theorem createTransaction_stores_what_it_returns :
  forall (env : Env) (s : Store) (userId : string) (req : TransactionCreateRequest),
    exists r s',
      createTransaction userId req env s = (inr r, s')
      /\ profiles s' = profiles s
      /\ match error r with
         | Some _ => data r = None /\ transactions s' = transactions s
         | None =>
             exists t,
               data r = Some t
               /\ transactions s' = <[id t := t]> (transactions s)
               /\ status t = Pending
               /\ user_id t = userId
               /\ payment_method t = req_payment_method req
               /\ promoted_poll_id t = req_promoted_poll_id req
         end.
Proof.
  intros env s userId req. rewrite createTransaction_run.
  destruct (faults env (S (clock s))) as [refused|].
  - eexists _, _. split; [reflexivity|]. cbn. auto.
  - eexists _, _. split; [reflexivity|]. cbn. split; [reflexivity|].
    eexists. repeat split.
Qed.

(** X6. A failing profile fetch, or a user without a profile, does not stop
    [createTransaction]: the preferred currency is then USD, so a request
    in USD (or naming no currency) is stored with [original_amount] equal
    to its amount and [original_currency] USD, and no rate is looked up. *)
Theorem createTransaction_without_profile :
  forall (env : Env) (s : Store) (userId : string) (req : TransactionCreateRequest),
    faults env (clock s) <> None \/ profiles s !! userId = None ->
    faults env (S (clock s)) = None ->
    Js.string_or (req_currency req) "USD" = "USD" ->
    exists t s',
      createTransaction userId req env s = (inr (success t), s')
      /\ amount t = req_amount req
      /\ currency t = "USD"
      /\ original_amount t = req_amount req
      /\ original_currency t = "USD"
      /\ trace s' = InsertTransaction (createTransaction_row env s userId req)
                      :: FetchProfileById userId :: trace s.
Proof.
  intros env s userId req Hmissing Haccepted Husd.
  assert (Hpreferred : preferred_currency env s userId = "USD").
  { unfold preferred_currency.
    destruct (faults env (clock s)); [reflexivity|].
    destruct Hmissing as [Hfault|Hnone]; [congruence|]. rewrite Hnone. reflexivity. }
  rewrite createTransaction_run, Haccepted. cbv zeta.
  eexists _, _. split; [reflexivity|]. cbn.
  unfold createTransaction_row, created_row, rate_reads, lenient_convert. cbn.
  rewrite Hpreferred, Husd. cbn. repeat split.
Qed.

Lemma createTransaction_without_profile_witness :
  exists t s',
    createTransaction "carol" hundred_usd (demo_env no_faults) demo_store = (inr (success t), s')
    /\ amount t = 100%float
    /\ currency t = "USD"
    /\ original_amount t = 100%float
    /\ original_currency t = "USD"
    /\ trace s' = InsertTransaction
                    (createTransaction_row (demo_env no_faults) demo_store "carol" hundred_usd)
                    :: FetchProfileById "carol" :: trace demo_store.
Proof.
  apply (createTransaction_without_profile (demo_env no_faults) demo_store "carol" hundred_usd).
  - right. reflexivity.
  - reflexivity.
  - reflexivity.
Defined.

(** ** Status updates: the update that is applied, the errors, the frame *)

(** X7. When the store applies the update, [updateTransactionStatus] makes
    one call, the update, and returns the row as it is now stored: the new
    status, the time of the call under [updated_at], the gateway
    transaction id when a non-empty one was given (an absent or empty one
    leaves the stored id), and every other column as it was. *)
Theorem updateTransactionStatus_applied :
  forall (env : Env) (s : Store) (tid : string) (st : Status) (gw : option string)
         (t : Transaction),
    faults env (clock s) = None ->
    transactions s !! tid = Some t ->
    may_update env t = true ->
    exists t' s',
      updateTransactionStatus tid st gw env s = (inr (success t'), s')
      /\ transactions s' = <[tid := t']> (transactions s)
      /\ profiles s' = profiles s
      /\ trace s' = UpdateTransaction tid (status_patch st (now env) gw) :: trace s
      /\ status t' = st
      /\ updated_at t' = Some (now env)
      /\ gateway_transaction_id t'
         = (if Js.truthy_opt_string gw then gw else gateway_transaction_id t)
      /\ id t' = id t /\ user_id t' = user_id t
      /\ promoted_poll_id t' = promoted_poll_id t
      /\ amount t' = amount t /\ currency t' = currency t
      /\ original_amount t' = original_amount t
      /\ original_currency t' = original_currency t
      /\ payment_method t' = payment_method t
      /\ stripe_payment_intent_id t' = stripe_payment_intent_id t
      /\ metadata t' = metadata t.
Proof.
  intros env s tid st gw t Hquiet Hrow Hopen.
  unfold updateTransactionStatus, try_catch, bind, transactions_update,
    fallible_call, get, ask, ret, set_transactions.
  cbn. rewrite Hquiet. cbn. rewrite Hrow. cbn. rewrite Hopen. cbn.
  eexists _, _. split; [reflexivity|]. cbn.
  repeat (split; [reflexivity|]).
  split; [|repeat split].
  destruct gw as [g|]; cbn; [|reflexivity].
  destruct (Js.truthy_string g); reflexivity.
Qed.

Lemma updateTransactionStatus_applied_witness :
  exists t' s',
    updateTransactionStatus "tx-8" Completed (Some "") (demo_env no_faults) ledger_store
    = (inr (success t'), s')
    /\ status t' = Completed
    /\ gateway_transaction_id t' = None
    /\ amount t' = 5%float
    /\ transactions s' !! "tx-9" = Some paid_row.
Proof.
  destruct (updateTransactionStatus_applied (demo_env no_faults) ledger_store "tx-8" Completed
              (Some "") open_row eq_refl eq_refl eq_refl)
    as (t' & s' & Hrun & Htable & _ & _ & Hstatus & _ & Hgw & _ & _ & _ & Hamount & _).
  exists t', s'. split; [exact Hrun|]. split; [exact Hstatus|].
  split; [exact Hgw|]. split; [exact Hamount|].
  rewrite Htable. rewrite lookup_insert_ne by discriminate. reflexivity.
Defined.

(** X8. An error of the store is returned as it is: when the update fails,
    [updateTransactionStatus] returns its message without re-reading the
    row; when the update matches no row and the re-read fails, it returns
    the message of the re-read.  In both cases no table has changed. *)
Theorem updateTransactionStatus_store_errors :
  forall (env : Env) (s : Store) (tid : string) (st : Status) (gw : option string)
         (refused : Fault),
    (faults env (clock s) = Some refused ->
     exists s',
       updateTransactionStatus tid st gw env s = (inr (failure (fault_message refused)), s')
       /\ trace s' = UpdateTransaction tid (status_patch st (now env) gw) :: trace s
       /\ transactions s' = transactions s /\ profiles s' = profiles s)
    /\ (faults env (clock s) = None ->
        faults env (S (clock s)) = Some refused ->
        (forall t, transactions s !! tid = Some t -> may_update env t = false) ->
        exists s',
          updateTransactionStatus tid st gw env s = (inr (failure (fault_message refused)), s')
          /\ trace s' = SelectTransaction tid
                          :: UpdateTransaction tid (status_patch st (now env) gw) :: trace s
          /\ transactions s' = transactions s /\ profiles s' = profiles s).
Proof.
  intros env s tid st gw refused. split.
  - intros Hupdate.
    unfold updateTransactionStatus, try_catch, bind, transactions_update,
      fallible_call, get, ask, ret, set_transactions.
    cbn. rewrite Hupdate. cbn. eexists. split; [reflexivity|]. cbn. auto.
  - intros Hupdate Hselect Hclosed.
    unfold updateTransactionStatus, try_catch, bind, transactions_update, transactions_select,
      fallible_call, get, ask, ret, set_transactions.
    cbn. rewrite Hupdate. cbn.
    destruct (transactions s !! tid) as [t|] eqn:Hrow; cbn.
    + rewrite (Hclosed t eq_refl). cbn. rewrite Hselect. cbn.
      eexists. split; [reflexivity|]. cbn. auto.
    + rewrite Hselect. cbn. eexists. split; [reflexivity|]. cbn. auto.
Qed.

Lemma updateTransactionStatus_store_errors_witness :
  (exists s',
      updateTransactionStatus "tx-8" Completed None (demo_env (refusing 0 1 "timeout")) ledger_store
      = (inr (failure "timeout"), s')
      /\ transactions s' = transactions ledger_store)
  /\ (exists s',
        updateTransactionStatus "tx-9" Completed None (demo_env (refusing 1 1 "timeout"))
          ledger_store
        = (inr (failure "timeout"), s')
        /\ transactions s' = transactions ledger_store).
Proof.
  split.
  - destruct (updateTransactionStatus_store_errors (demo_env (refusing 0 1 "timeout"))
                ledger_store "tx-8" Completed None
                {| fault_head := "t"%char; fault_tail := "imeout" |}) as [Hfirst _].
    destruct (Hfirst eq_refl) as (s' & Hrun & _ & Htable & _).
    exists s'. split; assumption.
  - destruct (updateTransactionStatus_store_errors (demo_env (refusing 1 1 "timeout"))
                ledger_store "tx-9" Completed None
                {| fault_head := "t"%char; fault_tail := "imeout" |}) as [_ Hsecond].
    destruct (Hsecond eq_refl eq_refl) as (s' & Hrun & _ & Htable & _).
    + intros t Hrow. vm_compute in Hrow. injection Hrow as <-. reflexivity.
    + exists s'. split; assumption.
Defined.

(** X9. Whatever the store answers, [updateTransactionStatus] leaves the
    profiles and every other transaction as they were, and the row under
    the id is then the row as it was or that row with the status patch
    applied: the call neither creates nor deletes a row. *)
Theorem updateTransactionStatus_touches_one_row :
  forall (env : Env) (s : Store) (tid : string) (st : Status) (gw : option string),
    profiles (snd (updateTransactionStatus tid st gw env s)) = profiles s
    /\ (forall key,
          key <> tid ->
          transactions (snd (updateTransactionStatus tid st gw env s)) !! key
          = transactions s !! key)
    /\ (transactions (snd (updateTransactionStatus tid st gw env s)) !! tid
        = transactions s !! tid
        \/ transactions (snd (updateTransactionStatus tid st gw env s)) !! tid
           = apply_patch (status_patch st (now env) gw) <$> transactions s !! tid).
Proof.
  intros env s tid st gw.
  unfold updateTransactionStatus, try_catch, bind, transactions_update, transactions_select,
    fallible_call, get, ask, ret, set_transactions.
  cbn.
  destruct (faults env (clock s)); cbn; [auto|].
  destruct (transactions s !! tid) as [t|] eqn:Hrow; cbn.
  - destruct (may_update env t); cbn.
    + split; [reflexivity|]. split.
      * intros key Hkey. apply lookup_insert_ne. congruence.
      * right. rewrite lookup_insert_eq. reflexivity.
    + destruct (faults env (S (clock s))); cbn; [rewrite Hrow; auto|].
      rewrite Hrow. cbn. destruct (is_final (status t)); cbn; rewrite Hrow; auto.
  - destruct (faults env (S (clock s))); cbn; [rewrite Hrow; auto|].
    rewrite Hrow. cbn. rewrite Hrow. auto.
Qed.

(** ** Gateway initiation: the success, the refused insert, the frame *)

Lemma initiation_calls_no_gateway method target env s userId amount poll cur :
  Forall (fun c => is_gateway_call c = false)
    (initiation_calls method target env s userId amount poll cur).
Proof.
  unfold initiation_calls, rate_reads.
  destruct (String.eqb (Js.string_or (Some target) "USD") _), (String.eqb cur target);
    repeat constructor.
Qed.

Lemma trace_before_round_trip method target env s userId amount poll cur table :
  trace (createTransaction_store env (before_create s userId cur target) userId
           (gateway_request method target env amount poll cur) table)
  = (initiation_calls method target env s userId amount poll cur ++ trace s)%list.
Proof.
  unfold createTransaction_store, initiation_calls, before_create.
  cbn [trace req_currency gateway_request app].
  f_equal. rewrite <- !List.app_assoc. cbn [app]. rewrite <- List.app_assoc. reflexivity.
Qed.

Lemma transactions_after_update env s patch key :
  transactions (after_update env s patch key) = table_after_update env s patch key.
Proof. reflexivity. Qed.

Lemma row_after_update env s patch t :
  transactions s !! id t = Some t ->
  (faults env (clock s) = None /\ may_update env t = true
   /\ table_after_update env s patch (id t) = <[id t := apply_patch patch t]> (transactions s))
  \/ ((faults env (clock s) <> None \/ may_update env t = false)
      /\ table_after_update env s patch (id t) = transactions s).
Proof.
  intros Hrow. unfold table_after_update. rewrite Hrow.
  destruct (faults env (clock s)); [right; split; [left; discriminate|reflexivity]|].
  destruct (may_update env t); [left; auto|right; auto].
Qed.

(** X10. When the pending row is stored and the gateway answers OK with a
    client secret, [initializeStripePayment] returns the secret with the id
    of that row, after asking the store to record the payment intent.  The
    store's answer to that last update is not read: when it is applied the
    row, still [pending] and with its amounts, carries the payment intent
    id in its column and in its metadata; when it is not, the success is
    returned all the same and the row is as it was created. *)
Theorem initializeStripePayment_success :
  forall (env : Env) (s : Store) (userId : string) (value : Js.number)
         (poll : option string) (cur secret : string) (body : GatewayBody),
    faults env (S (S (clock s))) = None ->
    answer env (stripe_call env userId (lenient_convert env value cur "USD") poll
                  (created_pending Stripe "USD" env s userId value poll cur))
    = Some (Responded true (inr body)) ->
    body_clientSecret body = Some secret ->
    Js.truthy_string secret = true ->
    let t := created_pending Stripe "USD" env s userId value poll cur in
    exists s',
      initializeStripePayment userId value poll cur env s
      = (inr (success {| clientSecret := secret; stripe_transactionId := id t |}), s')
      /\ head (trace s') = Some (UpdateTransaction (id t) (stripe_success_patch body t))
      /\ (faults env (S (S (S (clock s)))) = None ->
          may_update env t = true ->
          exists t',
            transactions s' !! id t = Some t'
            /\ status t' = Pending
            /\ amount t' = amount t /\ currency t' = "USD"
            /\ stripe_payment_intent_id t' = body_paymentIntentId body
            /\ forall intent,
                 body_paymentIntentId body = Some intent ->
                 metadata t' !! "payment_intent_id" = Some (Js.VString intent))
      /\ (faults env (S (S (S (clock s)))) <> None \/ may_update env t = false ->
          transactions s' !! id t = Some t).
Proof.
  intros env s userId value poll cur secret body Hinsert Hanswer Hsecret Htruthy t.
  cbn in Hanswer. injection Hanswer as Hanswer.
  rewrite initializeStripePayment_run, Hinsert. unfold try_catch.
  rewrite (stripe_round_trip_succeeds _ _ _ _ _ _ body);
    [|exact Hanswer|rewrite Hsecret; exact Htruthy].
  rewrite Hsecret. eexists. split; [reflexivity|]. split; [reflexivity|].
  fold t.
  assert (Hrow : transactions
                   (after_reads [stripe_call env userId (lenient_convert env value cur "USD")
                                   poll t]
                      (before_round_trip Stripe "USD" env s userId value poll cur))
                   !! id t = Some t) by apply lookup_insert_eq.
  destruct (row_after_update env _ (stripe_success_patch body t) t Hrow)
    as [(Hquiet & Hopen & Htable)|(Hnot & Htable)];
    rewrite transactions_after_update, Htable.
  - split.
    + intros _ _. rewrite lookup_insert_eq. eexists. split; [reflexivity|].
      repeat split.
      * cbn. destruct (body_paymentIntentId body); reflexivity.
      * intros intent Hintent. cbn. rewrite Hintent. cbn. apply lookup_insert_eq.
    + intros [Hfault|Hclosed]; [|congruence]. exfalso. apply Hfault. exact Hquiet.
  - split; [|intros _; exact Hrow].
    intros Hquiet Hopen. destruct Hnot as [Hfault|Hclosed]; [|congruence].
    exfalso. apply Hfault. exact Hquiet.
Qed.

Lemma initializeStripePayment_success_witness :
  exists s' t',
    initializeStripePayment "alice" 100%float (Some "poll-1") "EUR" approving_env demo_store
    = (inr (success {| clientSecret := "pi_1_secret_2"; stripe_transactionId := "tx-1" |}), s')
    /\ transactions s' !! "tx-1" = Some t'
    /\ status t' = Pending
    /\ stripe_payment_intent_id t' = Some "pi_1"
    /\ metadata t' !! "payment_intent_id" = Some (Js.VString "pi_1").
Proof.
  destruct (initializeStripePayment_success approving_env demo_store "alice" 100%float
              (Some "poll-1") "EUR" "pi_1_secret_2"
              {| body_error := None; body_clientSecret := Some "pi_1_secret_2";
                 body_paymentIntentId := Some "pi_1"; body_authorizationUrl := None;
                 body_reference := None |} eq_refl eq_refl eq_refl eq_refl)
    as (s' & Hrun & _ & Hrecorded & _).
  destruct (Hrecorded eq_refl eq_refl) as (t' & Hrow & Hstatus & _ & _ & Hintent & Hmeta).
  exists s', t'. split; [exact Hrun|]. split; [exact Hrow|]. split; [exact Hstatus|].
  split; [exact Hintent|]. apply Hmeta. reflexivity.
Defined.

(** X11. When the pending row is stored and the gateway answers OK with an
    authorization URL, [initializePaystackPayment] returns the URL with the
    id of that row, after asking the store to record the reference.  The
    store's answer to that last update is not read: when it is applied the
    row, still [pending] and with its amounts, carries the reference as its
    gateway transaction id and in its metadata; when it is not, the success
    is returned all the same and the row is as it was created. *)
Theorem initializePaystackPayment_success :
  forall (env : Env) (s : Store) (userId : string) (value : Js.number)
         (poll : option string) (cur url : string) (body : GatewayBody),
    faults env (S (S (clock s))) = None ->
    answer env (paystack_call env userId (lenient_convert env value cur "NGN") poll
                  (created_pending Paystack "NGN" env s userId value poll cur))
    = Some (Responded true (inr body)) ->
    body_authorizationUrl body = Some url ->
    Js.truthy_string url = true ->
    let t := created_pending Paystack "NGN" env s userId value poll cur in
    exists s',
      initializePaystackPayment userId value poll cur env s
      = (inr (success {| authorizationUrl := url; paystack_transactionId := id t |}), s')
      /\ head (trace s') = Some (UpdateTransaction (id t) (paystack_success_patch body t))
      /\ (faults env (S (S (S (clock s)))) = None ->
          may_update env t = true ->
          exists t',
            transactions s' !! id t = Some t'
            /\ status t' = Pending
            /\ amount t' = amount t /\ currency t' = "NGN"
            /\ gateway_transaction_id t' = body_reference body
            /\ forall reference,
                 body_reference body = Some reference ->
                 metadata t' !! "paystack_reference" = Some (Js.VString reference))
      /\ (faults env (S (S (S (clock s)))) <> None \/ may_update env t = false ->
          transactions s' !! id t = Some t).
Proof.
  intros env s userId value poll cur url body Hinsert Hanswer Hurl Htruthy t.
  cbn in Hanswer. injection Hanswer as Hanswer.
  rewrite initializePaystackPayment_run, Hinsert. unfold try_catch.
  rewrite (paystack_round_trip_succeeds _ _ _ _ _ _ body);
    [|exact Hanswer|rewrite Hurl; exact Htruthy].
  rewrite Hurl. eexists. split; [reflexivity|]. split; [reflexivity|].
  fold t.
  assert (Hrow : transactions
                   (after_reads [paystack_call env userId (lenient_convert env value cur "NGN")
                                   poll t]
                      (before_round_trip Paystack "NGN" env s userId value poll cur))
                   !! id t = Some t) by apply lookup_insert_eq.
  destruct (row_after_update env _ (paystack_success_patch body t) t Hrow)
    as [(Hquiet & Hopen & Htable)|(Hnot & Htable)];
    rewrite transactions_after_update, Htable.
  - split.
    + intros _ _. rewrite lookup_insert_eq. eexists. split; [reflexivity|].
      repeat split.
      * cbn. destruct (body_reference body); reflexivity.
      * intros reference Hreference. cbn. rewrite Hreference. cbn. apply lookup_insert_eq.
    + intros [Hfault|Hclosed]; [|congruence]. exfalso. apply Hfault. exact Hquiet.
  - split; [|intros _; exact Hrow].
    intros Hquiet Hopen. destruct Hnot as [Hfault|Hclosed]; [|congruence].
    exfalso. apply Hfault. exact Hquiet.
Qed.

Lemma initializePaystackPayment_success_witness :
  exists s' t',
    initializePaystackPayment "bob" 100%float None "NGN" redirecting_env demo_store
    = (inr (success {| authorizationUrl := "https://checkout.example/abc";
                       paystack_transactionId := "tx-1" |}), s')
    /\ transactions s' !! "tx-1" = Some t'
    /\ status t' = Pending
    /\ gateway_transaction_id t' = Some "ref_abc"
    /\ metadata t' !! "paystack_reference" = Some (Js.VString "ref_abc").
Proof.
  destruct (initializePaystackPayment_success redirecting_env demo_store "bob" 100%float
              None "NGN" "https://checkout.example/abc"
              {| body_error := None; body_clientSecret := None;
                 body_paymentIntentId := None;
                 body_authorizationUrl := Some "https://checkout.example/abc";
                 body_reference := Some "ref_abc" |} eq_refl eq_refl eq_refl eq_refl)
    as (s' & Hrun & _ & Hrecorded & _).
  destruct (Hrecorded eq_refl eq_refl) as (t' & Hrow & Hstatus & _ & _ & Href & Hmeta).
  exists s', t'. split; [exact Hrun|]. split; [exact Hrow|]. split; [exact Hstatus|].
  split; [exact Href|]. apply Hmeta. reflexivity.
Defined.

(** X12. When the store refuses the insert of the pending row, a gateway
    initiation returns the store's message and stops: no request goes to
    the gateway, and both tables are as they were. *)
Theorem refused_insert_stops_initiation :
  forall (env : Env) (s : Store) (userId : string) (value : Js.number)
         (poll : option string) (cur : string) (refused : Fault),
    faults env (S (S (clock s))) = Some refused ->
    (exists s',
        initializeStripePayment userId value poll cur env s
        = (inr (Response None (Some (fault_message refused))), s')
        /\ transactions s' = transactions s /\ profiles s' = profiles s
        /\ exists calls, trace s' = (calls ++ trace s)%list
                         /\ Forall (fun c => is_gateway_call c = false) calls)
    /\ (exists s',
          initializePaystackPayment userId value poll cur env s
          = (inr (Response None (Some (fault_message refused))), s')
          /\ transactions s' = transactions s /\ profiles s' = profiles s
          /\ exists calls, trace s' = (calls ++ trace s)%list
                           /\ Forall (fun c => is_gateway_call c = false) calls).
Proof.
  intros env s userId value poll cur refused Hinsert. split.
  - rewrite initializeStripePayment_run, Hinsert.
    eexists. split; [reflexivity|]. split; [reflexivity|]. split; [reflexivity|].
    eexists. split; [apply trace_before_round_trip|apply initiation_calls_no_gateway].
  - rewrite initializePaystackPayment_run, Hinsert.
    eexists. split; [reflexivity|]. split; [reflexivity|]. split; [reflexivity|].
    eexists. split; [apply trace_before_round_trip|apply initiation_calls_no_gateway].
Qed.

Lemma refused_insert_stops_initiation_witness :
  exists s',
    initializeStripePayment "alice" 100%float None "EUR" (demo_env (refusing 2 1 "disk full"))
      demo_store
    = (inr (Response None (Some "disk full")), s')
    /\ transactions s' = transactions demo_store.
Proof.
  destruct (refused_insert_stops_initiation (demo_env (refusing 2 1 "disk full")) demo_store
              "alice" 100%float None "EUR"
              {| fault_head := "d"%char; fault_tail := "isk full" |} eq_refl)
    as [(s' & Hrun & Htable & _) _].
  exists s'. split; assumption.
Defined.

Lemma no_gateway_call_matches method s calls :
  Forall (fun c => is_gateway_call c = false) calls ->
  Forall (request_matches_row method s) calls.
Proof.
  intros Hnone. eapply Forall_impl; [exact Hnone|].
  intros c Hc. destruct c; try exact I. discriminate.
Qed.

Lemma row_kept_by_update env s patch t :
  transactions s !! id t = Some t ->
  exists t',
    table_after_update env s patch (id t) !! id t = Some t'
    /\ amount t' = amount t /\ currency t' = currency t
    /\ user_id t' = user_id t /\ promoted_poll_id t' = promoted_poll_id t
    /\ payment_method t' = payment_method t.
Proof.
  intros Hrow.
  destruct (row_after_update env s patch t Hrow) as [(_ & _ & Htable)|(_ & Htable)];
    rewrite Htable.
  - rewrite lookup_insert_eq. eexists. split; [reflexivity|]. repeat split.
  - eexists. split; [exact Hrow|]. repeat split.
Qed.

(** X13. Whatever the collaborators answer, a request a gateway initiation
    sends to the gateway names a transaction that is in the table when the
    method returns, and asks for what that row records: its amount, its
    currency, its user and its promoted poll. *)
Theorem gateway_is_asked_for_what_is_stored :
  forall (env : Env) (s : Store) (userId : string) (value : Js.number)
         (poll : option string) (cur : string),
    (exists calls,
        trace (snd (initializeStripePayment userId value poll cur env s))
        = (calls ++ trace s)%list
        /\ Forall (request_matches_row Stripe
                     (snd (initializeStripePayment userId value poll cur env s))) calls)
    /\ (exists calls,
          trace (snd (initializePaystackPayment userId value poll cur env s))
          = (calls ++ trace s)%list
          /\ Forall (request_matches_row Paystack
                       (snd (initializePaystackPayment userId value poll cur env s))) calls).
Proof.
  intros env s userId value poll cur. split.
  - destruct (initializeStripePayment_outcome userId value poll cur env s)
      as [(refused & _ & Hrun)|(_ & r & patch & Hrun & _ & _)]; rewrite Hrun; cbn [snd].
    + eexists. split; [apply trace_before_round_trip|].
      apply no_gateway_call_matches, initiation_calls_no_gateway.
    + exists (UpdateTransaction
                (id (created_pending Stripe "USD" env s userId value poll cur)) patch
              :: stripe_call env userId (lenient_convert env value cur "USD") poll
                   (created_pending Stripe "USD" env s userId value poll cur)
              :: initiation_calls Stripe "USD" env s userId value poll cur).
      split.
      { cbn [trace after_update after_reads app]. unfold before_round_trip.
        rewrite trace_before_round_trip. reflexivity. }
      constructor; [exact I|]. constructor.
      * cbn [request_matches_row stripe_call gw_transactionId gw_amount gw_currency
               gw_userId gw_promotedPollId].
        rewrite transactions_after_update.
        destruct (row_kept_by_update env
                    (after_reads [stripe_call env userId (lenient_convert env value cur "USD")
                                    poll (created_pending Stripe "USD" env s userId value poll cur)]
                       (before_round_trip Stripe "USD" env s userId value poll cur))
                    patch (created_pending Stripe "USD" env s userId value poll cur))
          as (t' & Hrow & Ha & Hc & Hu & Hp & Hm); [apply lookup_insert_eq|].
        exists t'. split; [exact Hrow|]. rewrite Ha, Hc, Hu, Hp, Hm. repeat split.
      * apply no_gateway_call_matches, initiation_calls_no_gateway.
  - destruct (initializePaystackPayment_outcome userId value poll cur env s)
      as [(refused & _ & Hrun)|(_ & r & patch & Hrun & _ & _)]; rewrite Hrun; cbn [snd].
    + eexists. split; [apply trace_before_round_trip|].
      apply no_gateway_call_matches, initiation_calls_no_gateway.
    + exists (UpdateTransaction
                (id (created_pending Paystack "NGN" env s userId value poll cur)) patch
              :: paystack_call env userId (lenient_convert env value cur "NGN") poll
                   (created_pending Paystack "NGN" env s userId value poll cur)
              :: initiation_calls Paystack "NGN" env s userId value poll cur).
      split.
      { cbn [trace after_update after_reads app]. unfold before_round_trip.
        rewrite trace_before_round_trip. reflexivity. }
      constructor; [exact I|]. constructor.
      * cbn [request_matches_row paystack_call gw_transactionId gw_amount gw_currency
               gw_userId gw_promotedPollId].
        rewrite transactions_after_update.
        destruct (row_kept_by_update env
                    (after_reads [paystack_call env userId (lenient_convert env value cur "NGN")
                                    poll (created_pending Paystack "NGN" env s userId value poll cur)]
                       (before_round_trip Paystack "NGN" env s userId value poll cur))
                    patch (created_pending Paystack "NGN" env s userId value poll cur))
          as (t' & Hrow & Ha & Hc & Hu & Hp & Hm); [apply lookup_insert_eq|].
        exists t'. split; [exact Hrow|]. rewrite Ha, Hc, Hu, Hp, Hm. repeat split.
      * apply no_gateway_call_matches, initiation_calls_no_gateway.
Qed.

(** X14. Whatever the collaborators answer, a gateway initiation leaves
    the profiles as they were (no points are debited) and leaves every
    transaction but the one it creates as it was. *)
Theorem initiation_touches_one_row :
  forall (env : Env) (s : Store) (userId : string) (value : Js.number)
         (poll : option string) (cur : string),
    (profiles (snd (initializeStripePayment userId value poll cur env s)) = profiles s
     /\ forall key,
          key <> id (created_pending Stripe "USD" env s userId value poll cur) ->
          transactions (snd (initializeStripePayment userId value poll cur env s)) !! key
          = transactions s !! key)
    /\ (profiles (snd (initializePaystackPayment userId value poll cur env s)) = profiles s
        /\ forall key,
             key <> id (created_pending Paystack "NGN" env s userId value poll cur) ->
             transactions (snd (initializePaystackPayment userId value poll cur env s)) !! key
             = transactions s !! key).
Proof.
  intros env s userId value poll cur.
  assert (Hframe : forall method target call patch key,
             key <> id (created_pending method target env s userId value poll cur) ->
             table_after_update env
               (after_reads [call] (before_round_trip method target env s userId value poll cur))
               patch (id (created_pending method target env s userId value poll cur)) !! key
             = transactions s !! key).
  { intros method target call patch key Hkey.
    destruct (row_after_update env
                (after_reads [call] (before_round_trip method target env s userId value poll cur))
                patch (created_pending method target env s userId value poll cur))
      as [(_ & _ & Htable)|(_ & Htable)]; [apply lookup_insert_eq| |]; rewrite Htable.
    - rewrite lookup_insert_ne by congruence. cbn [transactions after_reads before_round_trip
                                                      createTransaction_store].
      apply lookup_insert_ne. congruence.
    - cbn [transactions after_reads before_round_trip createTransaction_store].
      apply lookup_insert_ne. congruence. }
  split.
  - destruct (initializeStripePayment_outcome userId value poll cur env s)
      as [(refused & _ & Hrun)|(_ & r & patch & Hrun & _ & _)]; rewrite Hrun; cbn [snd].
    + split; reflexivity.
    + split; [reflexivity|]. intros key Hkey. rewrite transactions_after_update.
      apply Hframe. exact Hkey.
  - destruct (initializePaystackPayment_outcome userId value poll cur env s)
      as [(refused & _ & Hrun)|(_ & r & patch & Hrun & _ & _)]; rewrite Hrun; cbn [snd].
    + split; reflexivity.
    + split; [reflexivity|]. intros key Hkey. rewrite transactions_after_update.
      apply Hframe. exact Hkey.
Qed.

(** ** Payment method lookup: errors, no currency, no list *)

(** X15. [getAvailablePaymentMethods] passes errors on as they are: an
    error of the settings lookup is returned at once, before any query of
    the payment methods; and when the lookup passes, a failure of that
    query is returned with its message. *)
Theorem getAvailablePaymentMethods_errors :
  forall (env : Env) (s : Store) (country wanted : option string),
    (forall msg,
        error (gateway_settings env country) = Some msg ->
        Js.truthy_string msg = true ->
        getAvailablePaymentMethods country wanted env s
        = (inr (Response None (Some msg)),
           after_reads [GetPaymentGatewaySettings country] s))
    /\ (forall refused,
          Js.truthy_opt_string (error (gateway_settings env country)) = false ->
          faults env (clock s) = Some refused ->
          fst (getAvailablePaymentMethods country wanted env s)
          = inr (Response None (Some (fault_message refused)))).
Proof.
  intros env s country wanted. split.
  - intros msg Herr Htruthy.
    unfold getAvailablePaymentMethods, try_catch, bind, SettingsService_getPaymentGatewaySettings,
      record_call, ask, ret, after_reads.
    cbn. rewrite Herr. cbn. rewrite Htruthy. reflexivity.
  - intros refused Hpass Hfault.
    unfold getAvailablePaymentMethods, try_catch, bind, SettingsService_getPaymentGatewaySettings,
      getPaymentMethods, try_catch, bind, payment_methods_select_active, fallible_call,
      record_call, ask, ret.
    cbn. rewrite Hpass. cbn. rewrite Hfault. reflexivity.
Qed.

Lemma getAvailablePaymentMethods_errors_witness :
  fst (getAvailablePaymentMethods (Some "NG") (Some "EUR") (demo_env (refusing 0 1 "timeout"))
         demo_store)
  = inr (Response None (Some "timeout")).
Proof.
  destruct (getAvailablePaymentMethods_errors (demo_env (refusing 0 1 "timeout")) demo_store
              (Some "NG") (Some "EUR")) as [_ Hstore].
  apply (Hstore {| fault_head := "t"%char; fault_tail := "imeout" |}); reflexivity.
Defined.

(** [getAvailablePaymentMethods] when both lookups pass. *)
Lemma getAvailablePaymentMethods_run env s country wanted :
  Js.truthy_opt_string (error (gateway_settings env country)) = false ->
  faults env (clock s) = None ->
  fst (getAvailablePaymentMethods country wanted env s)
  = inr (success
           (let available :=
              List.filter (enabled_in (data (gateway_settings env country)))
                (merge_sort name_le
                   (filter (fun m => pm_is_active m = true) (payment_methods env))) in
            match wanted with
            | Some c => if Js.truthy_string c
                        then List.filter (supports_currency c) available else available
            | None => available
            end)).
Proof.
  intros Hpass Hquiet.
  unfold getAvailablePaymentMethods, try_catch, bind, SettingsService_getPaymentGatewaySettings,
    getPaymentMethods, try_catch, bind, payment_methods_select_active, fallible_call,
    record_call, ask, ret.
  cbn. rewrite Hpass. cbn. rewrite Hquiet. cbn.
  destruct wanted as [c|]; [destruct (Js.truthy_string c)|]; reflexivity.
Qed.

Lemma getAvailablePaymentMethods_success env s country wanted r s' methods :
  getAvailablePaymentMethods country wanted env s = (inr r, s') ->
  data r = Some methods ->
  Js.truthy_opt_string (error (gateway_settings env country)) = false
  /\ faults env (clock s) = None.
Proof.
  unfold getAvailablePaymentMethods, try_catch, bind, SettingsService_getPaymentGatewaySettings,
    getPaymentMethods, try_catch, bind, payment_methods_select_active, fallible_call,
    record_call, ask, ret.
  cbn.
  destruct (Js.truthy_opt_string (error (gateway_settings env country))); cbn.
  { intros Heq Hdata. inversion Heq; subst. discriminate. }
  destruct (faults env (clock s)); cbn; [|auto].
  intros Heq Hdata. inversion Heq; subst. discriminate.
Qed.

(** X16. What a successful [getAvailablePaymentMethods] returns is always
    active and enabled for the country, with or without a currency; and
    when no currency is given, or an empty one, it returns exactly the
    active methods enabled for the country: the currency rule is not
    applied. *)
Theorem getAvailablePaymentMethods_without_currency :
  forall (env : Env) (s : Store) (country wanted : option string)
         (r : ServiceResponse (list PaymentMethod)) (s' : Store) (methods : list PaymentMethod),
    getAvailablePaymentMethods country wanted env s = (inr r, s') ->
    data r = Some methods ->
    (forall m, m ∈ methods -> country_enabled_active env country m)
    /\ (Js.truthy_opt_string wanted = false ->
        forall m, m ∈ methods <-> country_enabled_active env country m).
Proof.
  intros env s country wanted r s' methods Hrun Hdata.
  destruct (getAvailablePaymentMethods_success _ _ _ _ _ _ _ Hrun Hdata) as [Hpass Hquiet].
  pose proof (getAvailablePaymentMethods_run env s country wanted Hpass Hquiet) as Hfst.
  rewrite Hrun in Hfst. cbn in Hfst. injection Hfst as ->. cbn in Hdata. injection Hdata as <-.
  assert (Havailable : forall m,
             m ∈ List.filter (enabled_in (data (gateway_settings env country)))
                   (merge_sort name_le
                      (filter (fun m => pm_is_active m = true) (payment_methods env)))
             <-> country_enabled_active env country m).
  { intros m. rewrite list_elem_of_In, filter_In, <- list_elem_of_In.
    rewrite elem_of_active_by_name, enabled_in_true. unfold country_enabled_active. tauto. }
  split.
  - intros m Hin. destruct wanted as [c|]; [destruct (Js.truthy_string c)|];
      try (apply Havailable; exact Hin).
    apply list_elem_of_In, filter_In in Hin as [Hin _]. apply Havailable, list_elem_of_In, Hin.
  - intros Hnone m. destruct wanted as [c|]; cbn in Hnone; [rewrite Hnone|]; apply Havailable.
Qed.

Lemma getAvailablePaymentMethods_without_currency_witness :
  fst (getAvailablePaymentMethods None (Some "") (demo_env no_faults) demo_store)
  = inr (success [bank; card; points_wallet])
  /\ (forall m, m ∈ [bank; card; points_wallet]
                <-> country_enabled_active (demo_env no_faults) None m).
Proof.
  assert (Hrun : getAvailablePaymentMethods None (Some "") (demo_env no_faults) demo_store
                 = (inr (success [bank; card; points_wallet]),
                    snd (getAvailablePaymentMethods None (Some "") (demo_env no_faults)
                           demo_store)))
    by (vm_compute; reflexivity).
  split; [rewrite Hrun; reflexivity|].
  destruct (getAvailablePaymentMethods_without_currency (demo_env no_faults) demo_store None
              (Some "") _ _ [bank; card; points_wallet] Hrun eq_refl) as [_ Hexact].
  apply Hexact. reflexivity.
Defined.

(** X17. A settings lookup that answers with neither a list nor an error
    enables nothing: [getAvailablePaymentMethods] then succeeds with the
    empty list, whatever the currency. *)
Theorem getAvailablePaymentMethods_without_list :
  forall (env : Env) (s : Store) (country wanted : option string),
    data (gateway_settings env country) = None ->
    Js.truthy_opt_string (error (gateway_settings env country)) = false ->
    faults env (clock s) = None ->
    fst (getAvailablePaymentMethods country wanted env s) = inr (success []).
Proof.
  intros env s country wanted Hnone Hpass Hquiet.
  rewrite getAvailablePaymentMethods_run by assumption. rewrite Hnone. cbv zeta.
  assert (Hnothing : forall l : list PaymentMethod, List.filter (enabled_in None) l = []).
  { induction l as [|m l IH]; [reflexivity|]. cbn. exact IH. }
  rewrite Hnothing. destruct wanted as [c|]; [destruct (Js.truthy_string c)|]; reflexivity.
Qed.

Lemma getAvailablePaymentMethods_without_list_witness :
  fst (getAvailablePaymentMethods (Some "ZZ") (Some "EUR") bare_env demo_store)
  = inr (success []).
Proof.
  apply (getAvailablePaymentMethods_without_list bare_env demo_store (Some "ZZ") (Some "EUR"));
    reflexivity.
Defined.

(** ** Currency conversion: the rate that is used, and the one that is not *)

(** X18. Between two distinct currencies whose lookup reports no error,
    [convertAmount] multiplies by the rate when the rate is a number other
    than 0 and NaN; a rate of 0 or NaN counts as no rate, and the error
    then names both currencies. *)
Theorem convertAmount_by_rate :
  forall (env : Env) (s : Store) (value rate : Js.number) (from to : string),
    from <> to ->
    Js.truthy_opt_string (error (exchange_rates env from to)) = false ->
    data (exchange_rates env from to) = Some rate ->
    convertAmount value from to env s
    = (inr (if Js.truthy_number rate then success (value * rate)%float
            else failure ("Exchange rate not found for " ++ from ++ " to " ++ to)),
       after_reads [GetExchangeRate from to] s).
Proof.
  intros env s value rate from to Hne Hpass Hrate. apply String.eqb_neq in Hne.
  unfold convertAmount, try_catch, bind, SettingsService_getExchangeRate, record_call, ask, ret,
    after_reads.
  rewrite Hne. cbn. rewrite Hpass, Hrate. cbn.
  destruct (Js.truthy_number rate); reflexivity.
Qed.

Lemma convertAmount_by_rate_witness :
  convertAmount 900%float "JPY" "USD" bare_env demo_store
  = (inr (failure "Exchange rate not found for JPY to USD"),
     after_reads [GetExchangeRate "JPY" "USD"] demo_store)
  /\ convertAmount 100%float "USD" "EUR" bare_env demo_store
     = (inr (success 50%float), after_reads [GetExchangeRate "USD" "EUR"] demo_store).
Proof.
  split.
  - apply (convertAmount_by_rate bare_env demo_store 900%float 0%float "JPY" "USD");
      [discriminate|reflexivity|reflexivity].
  - apply (convertAmount_by_rate bare_env demo_store 100%float 0.5%float "USD" "EUR");
      [discriminate|reflexivity|reflexivity].
Defined.

(** X19. Whenever [convertAmount] succeeds, its value is the value the
    other methods work with for the same amount and currencies: the
    [amountInUSD] of [processWalletPayment], the [original_amount] of
    [createTransaction] and the gateway amounts all come from the same
    conversion. *)
Theorem convertAmount_agrees_with_the_other_methods :
  forall (env : Env) (s s' : Store) (value converted : Js.number) (from to : string),
    convertAmount value from to env s = (inr (success converted), s') ->
    lenient_convert env value from to = converted
    /\ (to = "USD" -> wallet_amount_in_usd env value from = converted).
Proof.
  intros env s s' value converted from to Hrun.
  assert (Hsame : lenient_convert env value from to = converted).
  { revert Hrun.
    unfold convertAmount, lenient_convert, try_catch, bind, SettingsService_getExchangeRate,
      record_call, ask, ret.
    destruct (String.eqb from to); cbn.
    { intros Heq. inversion Heq. reflexivity. }
    destruct (Js.truthy_opt_string (error (exchange_rates env from to))); cbn.
    { intros Heq. inversion Heq. }
    destruct (data (exchange_rates env from to)) as [r|]; cbn.
    - destruct (Js.truthy_number r); cbn; intros Heq; inversion Heq. reflexivity.
    - intros Heq. inversion Heq. }
  split; [exact Hsame|]. intros ->. exact Hsame.
Qed.

Lemma convertAmount_agrees_with_the_other_methods_witness :
  lenient_convert (demo_env no_faults) 100%float "USD" "EUR" = 50%float.
Proof.
  apply (convertAmount_agrees_with_the_other_methods (demo_env no_faults) demo_store
           (after_reads [GetExchangeRate "USD" "EUR"] demo_store) 100%float 50%float "USD" "EUR").
  vm_compute. reflexivity.
Defined.

(** ** The retry-payment modal *)

(** X20. A Stripe key is valid exactly when it starts with [pk_test_] or
    [pk_live_] and is not the placeholder of the example configuration (the
    two other tests follow from the prefix); and the key [loadStripeKey]
    uses, if any, is always a valid one, the key of the settings being
    taken whenever it is valid. *)
Theorem stripe_key_validity :
  (forall key,
      RetryPaymentModal.isValidStripeKey key = true
      <-> ((String.prefix "pk_test_" key = true \/ String.prefix "pk_live_" key = true)
           /\ key <> "pk_test_placeholder_key_replace_with_actual_stripe_key"))
  /\ (forall fromSettings fromEnv key,
        RetryPaymentModal.stripeKey fromSettings fromEnv = Some key ->
        RetryPaymentModal.isValidStripeKey key = true
        /\ (fromSettings = Some key \/ fromEnv = Some key))
  /\ (forall fromEnv key,
        RetryPaymentModal.isValidStripeKey key = true ->
        RetryPaymentModal.stripeKey (Some key) fromEnv = Some key).
Proof.
  assert (Hiff : forall key,
             RetryPaymentModal.isValidStripeKey key = true
             <-> ((String.prefix "pk_test_" key = true \/ String.prefix "pk_live_" key = true)
                  /\ key <> "pk_test_placeholder_key_replace_with_actual_stripe_key")).
  { intros key. unfold RetryPaymentModal.isValidStripeKey, Js.truthy_string.
    rewrite !andb_true_iff, orb_true_iff, !negb_true_iff, !String.eqb_neq. split.
    - intros [[[_ _] Hplaceholder] Hprefix]. auto.
    - intros [Hprefix Hplaceholder]. repeat split; try assumption.
      + intros ->. destruct Hprefix; discriminate.
      + intros ->. destruct Hprefix; discriminate. }
  split; [exact Hiff|]. split.
  - intros fromSettings fromEnv key. unfold RetryPaymentModal.stripeKey.
    destruct fromSettings as [k|].
    + destruct (Js.truthy_string k && RetryPaymentModal.isValidStripeKey k) eqn:Hk.
      * intros Heq. injection Heq as <-. apply andb_true_iff in Hk as [_ Hk]. auto.
      * destruct fromEnv as [e|]; [|discriminate].
        destruct (RetryPaymentModal.isValidStripeKey e) eqn:He; [|discriminate].
        intros Heq. injection Heq as <-. auto.
    + destruct fromEnv as [e|]; [|discriminate].
      destruct (RetryPaymentModal.isValidStripeKey e) eqn:He; [|discriminate].
      intros Heq. injection Heq as <-. auto.
  - intros fromEnv key Hvalid. unfold RetryPaymentModal.stripeKey.
    assert (Htruthy : Js.truthy_string key = true).
    { unfold RetryPaymentModal.isValidStripeKey in Hvalid.
      rewrite !andb_true_iff in Hvalid. tauto. }
    rewrite Htruthy, Hvalid. reflexivity.
Qed.

Example shipped_placeholder_is_no_key :
  RetryPaymentModal.stripeKey None
    (Some "pk_test_placeholder_key_replace_with_actual_stripe_key") = None
  /\ RetryPaymentModal.stripeKey (Some "sk_live_abc") (Some "pk_live_abc") = Some "pk_live_abc".
Proof. split; reflexivity. Qed.

Lemma lookup_add_rate (m : RetryPaymentModal.Rates) (r : RetryPaymentModal.ExchangeRate)
    (f t : string) :
  RetryPaymentModal.add_rate m r !! f ≫= (fun row => row !! t)
  = if decide (RetryPaymentModal.from_currency r = f /\ RetryPaymentModal.to_currency r = t)
    then Some (RetryPaymentModal.rate r)
    else m !! f ≫= (fun row => row !! t).
Proof.
  unfold RetryPaymentModal.add_rate.
  destruct (decide (RetryPaymentModal.from_currency r = f)) as [<-|Hf].
  - rewrite lookup_insert_eq. cbn.
    destruct (decide (RetryPaymentModal.to_currency r = t)) as [<-|Ht].
    + rewrite lookup_insert_eq. rewrite decide_True by auto. reflexivity.
    + rewrite lookup_insert_ne by exact Ht. rewrite decide_False by tauto.
      destruct (m !! RetryPaymentModal.from_currency r); reflexivity.
  - rewrite lookup_insert_ne by exact Hf. rewrite decide_False by tauto. reflexivity.
Qed.

Lemma lookup_fold_add_rate (rates : list RetryPaymentModal.ExchangeRate)
    (m : RetryPaymentModal.Rates) (f t : string) :
  (forall r, r ∈ rates ->
             ~ (RetryPaymentModal.from_currency r = f /\ RetryPaymentModal.to_currency r = t)) ->
  fold_left RetryPaymentModal.add_rate rates m !! f ≫= (fun row => row !! t)
  = m !! f ≫= (fun row => row !! t).
Proof.
  revert m. induction rates as [|r rates IH]; intros m Hnone; [reflexivity|].
  cbn. rewrite IH.
  - rewrite lookup_add_rate. rewrite decide_False; [reflexivity|].
    apply Hnone. left.
  - intros r' Hin. apply Hnone. right. exact Hin.
Qed.

(** X21. The map [fetchExchangeRates] builds holds, for a pair of
    currencies, the rate of the last row that lists the pair, and holds
    nothing for a pair no row lists. *)
Theorem ratesMap_holds_the_last_rate :
  forall (earlier later : list RetryPaymentModal.ExchangeRate)
         (r : RetryPaymentModal.ExchangeRate) (f t : string),
    (forall r', r' ∈ later ->
                ~ (RetryPaymentModal.from_currency r' = RetryPaymentModal.from_currency r
                   /\ RetryPaymentModal.to_currency r' = RetryPaymentModal.to_currency r)) ->
    RetryPaymentModal.ratesMap (earlier ++ r :: later)
      !! RetryPaymentModal.from_currency r
      ≫= (fun row => row !! RetryPaymentModal.to_currency r)
    = Some (RetryPaymentModal.rate r)
    /\ ((forall r', r' ∈ (earlier ++ r :: later)%list ->
                    ~ (RetryPaymentModal.from_currency r' = f
                       /\ RetryPaymentModal.to_currency r' = t)) ->
        RetryPaymentModal.ratesMap (earlier ++ r :: later) !! f ≫= (fun row => row !! t)
        = None).
Proof.
  intros earlier later r f t Hlast. unfold RetryPaymentModal.ratesMap. split.
  - rewrite fold_left_app. cbn. rewrite lookup_fold_add_rate by exact Hlast.
    rewrite lookup_add_rate. rewrite decide_True by auto. reflexivity.
  - intros Hnone. rewrite lookup_fold_add_rate by exact Hnone. reflexivity.
Qed.

Lemma ratesMap_holds_the_last_rate_witness :
  RetryPaymentModal.ratesMap listed_rates !! "EUR" ≫= (fun row => row !! "USD")
  = Some 1.1%float.
Proof.
  destruct (ratesMap_holds_the_last_rate
              [ {| RetryPaymentModal.from_currency := "EUR";
                   RetryPaymentModal.to_currency := "USD";
                   RetryPaymentModal.rate := 1.2%float |};
                {| RetryPaymentModal.from_currency := "USD";
                   RetryPaymentModal.to_currency := "NGN";
                   RetryPaymentModal.rate := 1500%float |} ]
              []
              {| RetryPaymentModal.from_currency := "EUR";
                 RetryPaymentModal.to_currency := "USD";
                 RetryPaymentModal.rate := 1.1%float |} "EUR" "USD") as [Hlast _].
  - intros r' Hin. inversion Hin.
  - exact Hlast.
Defined.

(** X22. Let the modal hold, for a pair of currencies, the rate the rate
    service answers with.  Then the modal's [convertAmount] gives what the
    service's methods work with, whenever the currencies are the same, the
    direct rate is usable, or one of the two rates through USD is missing.
    They part when the direct rate is missing and both rates through USD
    are there: the modal converts through USD, the service keeps the
    amount. *)
Theorem modal_conversion_and_the_service :
  forall (env : Env) (exchangeRates : RetryPaymentModal.Rates) (value : Js.number)
         (from to : string),
    exchangeRates !! from ≫= (fun row => row !! to) = data (exchange_rates env from to) ->
    (from = to
     \/ RetryPaymentModal.usable_rate exchangeRates from to <> None
     \/ RetryPaymentModal.usable_rate exchangeRates from "USD" = None
     \/ RetryPaymentModal.usable_rate exchangeRates "USD" to = None ->
     RetryPaymentModal.convertAmount exchangeRates value from to
     = lenient_convert env value from to)
    /\ (forall first second,
          from <> to ->
          RetryPaymentModal.usable_rate exchangeRates from to = None ->
          RetryPaymentModal.usable_rate exchangeRates from "USD" = Some first ->
          RetryPaymentModal.usable_rate exchangeRates "USD" to = Some second ->
          RetryPaymentModal.convertAmount exchangeRates value from to
          = (value * first * second)%float
          /\ lenient_convert env value from to = value).
Proof.
  intros env exchangeRates value from to Hmirror.
  unfold RetryPaymentModal.convertAmount, lenient_convert, RetryPaymentModal.usable_rate.
  rewrite Hmirror.
  destruct (String.eqb from to) eqn:Hsame.
  { split; [reflexivity|]. intros first second Hne. apply String.eqb_neq in Hne. congruence. }
  split.
  - intros [Heq|[Hdirect|[Hfirst|Hsecond]]].
    + apply String.eqb_eq in Heq. congruence.
    + destruct (data (exchange_rates env from to)) as [r|]; [|congruence].
      destruct (Js.truthy_number r); [reflexivity|congruence].
    + destruct (data (exchange_rates env from to)) as [r|];
        [destruct (Js.truthy_number r); [reflexivity|]|]; rewrite Hfirst; reflexivity.
    + destruct (data (exchange_rates env from to)) as [r|];
        [destruct (Js.truthy_number r); [reflexivity|]|]; rewrite Hsecond;
        destruct (match exchangeRates !! from ≫= _ with Some _ => _ | None => _ end);
        reflexivity.
  - intros first second _ Hdirect Hfirst Hsecond.
    destruct (data (exchange_rates env from to)) as [r|].
    + destruct (Js.truthy_number r); [discriminate|]. rewrite Hfirst, Hsecond. auto.
    + rewrite Hfirst, Hsecond. auto.
Qed.

Lemma modal_conversion_and_the_service_witness :
  RetryPaymentModal.convertAmount modal_rates 50%float "EUR" "USD"
  = lenient_convert listed_env 50%float "EUR" "USD"
  /\ RetryPaymentModal.convertAmount modal_rates 2%float "EUR" "NGN"
     = (2 * 1.1 * 1500)%float
  /\ lenient_convert listed_env 2%float "EUR" "NGN" = 2%float.
Proof.
  split.
  - destruct (modal_conversion_and_the_service listed_env modal_rates 50%float "EUR" "USD"
                eq_refl) as [Hagree _].
    apply Hagree. right. left. discriminate.
  - destruct (modal_conversion_and_the_service listed_env modal_rates 2%float "EUR" "NGN"
                eq_refl) as [_ Hpart].
    apply (Hpart 1.1%float 1500%float); [discriminate|reflexivity..].
Defined.

Lemma modal_conversion_agrees_to_usd env (exchangeRates : RetryPaymentModal.Rates) value cur :
  exchangeRates !! cur ≫= (fun row => row !! "USD") = data (exchange_rates env cur "USD") ->
  RetryPaymentModal.convertAmount exchangeRates value cur "USD"
  = lenient_convert env value cur "USD".
Proof.
  intros Hmirror.
  unfold RetryPaymentModal.convertAmount, lenient_convert, RetryPaymentModal.usable_rate.
  rewrite Hmirror.
  destruct (String.eqb cur "USD"); [reflexivity|].
  destruct (data (exchange_rates env cur "USD")) as [r|]; [|reflexivity].
  destruct (Js.truthy_number r); reflexivity.
Qed.

(** X23. When the modal holds the rate to USD the rate service answers
    with, and its settings arrived without error, the points the service
    charges for a wallet payment are the points the modal shows, rounded:
    the modal multiplies without rounding, the service rounds with
    [Math.round]. *)
Theorem modal_points_are_the_charge_unrounded :
  forall (env : Env) (exchangeRates : RetryPaymentModal.Rates) (budget : Js.number)
         (pollCurrency : string),
    exchangeRates !! pollCurrency ≫= (fun row => row !! "USD")
    = data (exchange_rates env pollCurrency "USD") ->
    Js.truthy_opt_string (error (settings env "promoted_polls")) = false ->
    wallet_points_needed env budget pollCurrency
    = Js.Math_round
        (RetryPaymentModal.pointsCost exchangeRates
           (RetryPaymentModal.pointsToUsdConversion (settings env "promoted_polls"))
           budget pollCurrency).
Proof.
  intros env exchangeRates budget pollCurrency Hmirror Hsettings.
  unfold wallet_points_needed, points_for, RetryPaymentModal.pointsCost,
    RetryPaymentModal.pointsToUsdConversion, wallet_conversion, wallet_amount_in_usd.
  rewrite Hsettings.
  rewrite (modal_conversion_agrees_to_usd env exchangeRates budget pollCurrency Hmirror).
  reflexivity.
Qed.

Lemma modal_points_are_the_charge_unrounded_witness :
  wallet_points_needed listed_env 50%float "EUR"
  = Js.Math_round
      (RetryPaymentModal.pointsCost modal_rates
         (RetryPaymentModal.pointsToUsdConversion (settings listed_env "promoted_polls"))
         50%float "EUR").
Proof.
  apply (modal_points_are_the_charge_unrounded listed_env modal_rates 50%float "EUR");
    reflexivity.
Defined.

Example modal_and_service_disagree_on_the_balance :
  let cost := RetryPaymentModal.pointsCost modal_rates 100%float 50%float "EUR" in
  cost = 5500.000000000001%float
  /\ (5500 <? cost)%float = true
  /\ (5500 <? wallet_points_needed listed_env 50%float "EUR")%float = false.
Proof. repeat split; vm_compute; reflexivity. Qed.

Lemma selected_is_listed (methods : list PaymentMethod) (previous : string) :
  methods <> [] ->
  exists m, In m methods
            /\ pm_id m = RetryPaymentModal.selectedPaymentMethod methods previous
            /\ ((exists w, In w methods /\ pm_type w = Wallet) -> pm_type m = Wallet).
Proof.
  intros Hsome. unfold RetryPaymentModal.selectedPaymentMethod.
  destruct (List.find _ methods) as [w|] eqn:Hfind.
  - apply List.find_some in Hfind as [Hin Hw]. apply bool_decide_eq_true in Hw.
    exists w. auto.
  - destruct methods as [|m rest]; [congruence|].
    exists m. split; [left; reflexivity|]. split; [reflexivity|].
    intros (w & Hin & Hw). pose proof (List.find_none _ _ Hfind w Hin) as Hnot.
    apply bool_decide_eq_false in Hnot. contradiction.
Qed.

(** X24. The method the modal selects after loading can be retried: when
    the filtered list is not empty and its ids are not empty, the selected
    id is the id of a listed method, a wallet method whenever one is
    listed, and [handleRetryPayment] finds under it a listed method that
    is not a Stripe method that cannot be used.  When the list is empty the
    selection stays what it was. *)
Theorem default_selection_can_be_retried :
  forall (stripeInstance : bool) (stripeLoadError : option string)
         (fetched : option (list PaymentMethod)) (previous : string),
    let methods := RetryPaymentModal.filteredMethods stripeInstance stripeLoadError fetched in
    let selected := RetryPaymentModal.selectedPaymentMethod methods previous in
    (forall m, In m methods -> Js.truthy_string (pm_id m) = true) ->
    (methods = [] -> selected = previous)
    /\ (methods <> [] ->
        (exists m, In m methods /\ pm_id m = selected
                   /\ ((exists w, In w methods /\ pm_type w = Wallet) -> pm_type m = Wallet))
        /\ exists m,
             RetryPaymentModal.methodToRetry stripeInstance stripeLoadError methods selected
             = inr m
             /\ In m methods /\ pm_id m = selected
             /\ (pm_type m = Stripe ->
                 stripeInstance = true /\ Js.truthy_opt_string stripeLoadError = false)).
Proof.
  intros stripeInstance stripeLoadError fetched previous methods selected Hids. split.
  - intros Hempty. subst selected. rewrite Hempty. reflexivity.
  - intros Hsome.
    destruct (selected_is_listed methods previous Hsome) as (m0 & Hin0 & Hid0 & Hwallet).
    split; [exists m0; auto|].
    unfold RetryPaymentModal.methodToRetry. fold selected.
    assert (Htruthy : Js.truthy_string selected = true).
    { subst selected. rewrite <- Hid0. apply Hids. exact Hin0. }
    rewrite Htruthy. cbn.
    destruct (List.find (fun m => String.eqb (pm_id m) selected) methods) as [m|] eqn:Hfind.
    + apply List.find_some in Hfind as [Hin Hid]. apply String.eqb_eq in Hid.
      assert (Husable : RetryPaymentModal.stripe_unusable stripeInstance stripeLoadError m
                        = false).
      { subst methods. unfold RetryPaymentModal.filteredMethods in Hin.
        destruct fetched as [l|]; [|contradiction].
        apply filter_In in Hin as [_ Hkept]. apply negb_true_iff in Hkept. exact Hkept. }
      rewrite Husable. exists m. split; [reflexivity|]. split; [exact Hin|].
      split; [exact Hid|].
      intros Hstripe. unfold RetryPaymentModal.stripe_unusable in Husable.
      rewrite bool_decide_eq_true_2 in Husable by exact Hstripe. cbn in Husable.
      apply orb_false_iff in Husable as [Hinst Herr].
      apply negb_false_iff in Hinst. auto.
    + pose proof (List.find_none _ _ Hfind m0 Hin0) as Hnot. cbn in Hnot.
      subst selected. rewrite Hid0, String.eqb_refl in Hnot. discriminate.
Qed.

Lemma default_selection_can_be_retried_witness :
  RetryPaymentModal.selectedPaymentMethod
    (RetryPaymentModal.filteredMethods false None (Some [card; bank; points_wallet])) ""
  = "pm-2"
  /\ exists m,
       RetryPaymentModal.methodToRetry false None
         (RetryPaymentModal.filteredMethods false None (Some [card; bank; points_wallet])) "pm-2"
       = inr m
       /\ pm_id m = "pm-2".
Proof.
  destruct (default_selection_can_be_retried false None (Some [card; bank; points_wallet]) "")
    as [_ Hlisted].
  - intros m [<-|[<-|[]]]; reflexivity.
  - split; [reflexivity|].
    destruct Hlisted as [_ (m & Hretry & _ & Hid & _)]; [discriminate|].
    exists m. split; assumption.
Defined.

(** ** Listing all transactions *)

(** X25. [getAllTransactions] is for admins only.  Whoever is not one (the
    profile fetch reports an error, or finds no profile, or finds another
    role) gets the one "Unauthorized" error, which replaces any message of
    the profile service, and no query is sent to the store.  A result that
    carries a page, or any query sent, means the profile was fetched
    without error and its role is [admin]; then one query is sent. *)
Theorem getAllTransactions_is_for_admins :
  forall (fetchProfileById : string -> ServiceResponse Listing.Account)
         (run_query : Listing.ListQuery -> Listing.QueryAnswer)
         (adminId : string) (options : Listing.ListOptions),
    (Js.truthy_opt_string (error (fetchProfileById adminId)) = true
     \/ data (fetchProfileById adminId) = None
     \/ (exists account,
           data (fetchProfileById adminId) = Some account /\ Listing.role account <> "admin") ->
     Listing.getAllTransactions fetchProfileById run_query adminId options
     = ([], failure "Unauthorized: Only admins can view all transactions"))
    /\ (is_Some (data (snd (Listing.getAllTransactions fetchProfileById run_query adminId options)))
        \/ fst (Listing.getAllTransactions fetchProfileById run_query adminId options) <> [] ->
        Js.truthy_opt_string (error (fetchProfileById adminId)) = false
        /\ (exists account,
              data (fetchProfileById adminId) = Some account /\ Listing.role account = "admin")
        /\ fst (Listing.getAllTransactions fetchProfileById run_query adminId options)
           = [Listing.query_of options]).
Proof.
  intros fetchProfileById run_query adminId options.
  unfold Listing.getAllTransactions, Listing.is_admin.
  destruct (Js.truthy_opt_string (error (fetchProfileById adminId))) eqn:Herr; cbn.
  { split; [reflexivity|]. intros [[x Hx]|Hq]; [discriminate|congruence]. }
  destruct (data (fetchProfileById adminId)) as [account|] eqn:Hdata; cbn.
  - destruct (String.eqb (Listing.role account) "admin") eqn:Hrole; cbn.
    + apply String.eqb_eq in Hrole. split.
      * intros [Hfalse|[Hfalse|(a & Ha & Hne)]]; try discriminate.
        injection Ha as <-. contradiction.
      * intros _. split; [reflexivity|]. split; [eauto|reflexivity].
    + split; [reflexivity|]. intros [[x Hx]|Hq]; [discriminate|congruence].
  - split; [reflexivity|]. intros [[x Hx]|Hq]; [discriminate|congruence].
Qed.

Lemma getAllTransactions_is_for_admins_witness :
  Listing.getAllTransactions accounts two_rows "alice" no_options
  = ([], failure "Unauthorized: Only admins can view all transactions")
  /\ Listing.getAllTransactions accounts two_rows "mallory" no_options
     = ([], failure "Unauthorized: Only admins can view all transactions")
  /\ fst (Listing.getAllTransactions accounts two_rows "root" no_options)
     = [Listing.query_of no_options].
Proof.
  split; [|split].
  - destruct (getAllTransactions_is_for_admins accounts two_rows "alice" no_options)
      as [Hdenied _].
    apply Hdenied. right. right. exists {| Listing.role := "user" |}.
    split; [reflexivity|discriminate].
  - destruct (getAllTransactions_is_for_admins accounts two_rows "mallory" no_options)
      as [Hdenied _].
    apply Hdenied. left. reflexivity.
  - destruct (getAllTransactions_is_for_admins accounts two_rows "root" no_options)
      as [_ Hadmin].
    apply Hadmin. left. cbn. eauto.
Defined.

Example admin_gets_the_page :
  snd (Listing.getAllTransactions accounts two_rows "root" no_options)
  = success {| Listing.page_transactions := [paid_row; open_row];
               Listing.totalCount := 2%float |}
  /\ Listing.first_row (Listing.query_of no_options) = 0%float
  /\ Listing.last_row (Listing.query_of no_options) = 49%float.
Proof. repeat split; vm_compute; reflexivity. Qed.

(** ** From the initiation to the completed payment *)

Lemma updateTransactionStatus_applies env s tid st gw t :
  faults env (clock s) = None ->
  transactions s !! tid = Some t ->
  may_update env t = true ->
  updateTransactionStatus tid st gw env s
  = (inr (success (apply_patch (status_patch st (now env) gw) t)),
     {| profiles := profiles s;
        transactions := <[tid := apply_patch (status_patch st (now env) gw) t]> (transactions s);
        clock := S (clock s);
        trace := UpdateTransaction tid (status_patch st (now env) gw) :: trace s |}).
Proof.
  intros Hquiet Hrow Hopen.
  unfold updateTransactionStatus, try_catch, bind, transactions_update,
    fallible_call, get, ask, ret, set_transactions.
  cbn. rewrite Hquiet. cbn. rewrite Hrow. cbn. rewrite Hopen. reflexivity.
Qed.

(** X26. The id [initializeStripePayment] returns is the key
    [updateTransactionStatus] completes the payment under.  With a store
    that reports no failure and lets pending rows be updated: after a
    successful initiation, [updateTransactionStatus] on the returned id
    with [completed] and a payment intent id succeeds with the row the
    initiation created, now [completed], with the amount in USD, the
    user and the payment intent recorded by the initiation, and with the
    given id as its gateway transaction id. *)
Theorem stripe_payment_completes_under_the_returned_id :
  forall (env : Env) (s : Store) (userId : string) (value : Js.number)
         (poll : option string) (cur secret intent : string) (body : GatewayBody),
    (forall k, faults env k = None) ->
    (forall row, status row = Pending -> may_update env row = true) ->
    answer env (stripe_call env userId (lenient_convert env value cur "USD") poll
                  (created_pending Stripe "USD" env s userId value poll cur))
    = Some (Responded true (inr body)) ->
    body_clientSecret body = Some secret ->
    Js.truthy_string secret = true ->
    Js.truthy_string intent = true ->
    exists s1 s2 t2,
      initializeStripePayment userId value poll cur env s
      = (inr (success {| clientSecret := secret;
                         stripe_transactionId := id t2 |}), s1)
      /\ updateTransactionStatus (id t2) Completed (Some intent) env s1
         = (inr (success t2), s2)
      /\ transactions s2 !! id t2 = Some t2
      /\ status t2 = Completed
      /\ gateway_transaction_id t2 = Some intent
      /\ stripe_payment_intent_id t2 = body_paymentIntentId body
      /\ amount t2 = lenient_convert env value cur "USD"
      /\ currency t2 = "USD"
      /\ user_id t2 = userId
      /\ payment_method t2 = Stripe
      /\ promoted_poll_id t2 = poll.
Proof.
  intros env s userId value poll cur secret intent body Hquiet Hpolicy Hanswer Hsecret
    Htruthy Hintent.
  set (t := created_pending Stripe "USD" env s userId value poll cur) in *.
  cbn in Hanswer. injection Hanswer as Hanswer.
  rewrite initializeStripePayment_run, (Hquiet _). unfold try_catch.
  rewrite (stripe_round_trip_succeeds _ _ _ _ _ _ body);
    [|exact Hanswer|rewrite Hsecret; exact Htruthy].
  rewrite Hsecret. fold t.
  set (start := after_reads [stripe_call env userId (lenient_convert env value cur "USD") poll t]
                  (before_round_trip Stripe "USD" env s userId value poll cur)).
  assert (Hrow : transactions start !! id t = Some t) by apply lookup_insert_eq.
  destruct (row_after_update env start (stripe_success_patch body t) t Hrow)
    as [(_ & _ & Htable)|([Hfault|Hclosed] & _)];
    [|exfalso; apply Hfault, Hquiet
     |rewrite (Hpolicy t eq_refl) in Hclosed; discriminate].
  set (t1 := apply_patch (stripe_success_patch body t) t) in *.
  set (s1 := after_update env start (stripe_success_patch body t) (id t)).
  assert (Hrow1 : transactions s1 !! id t = Some t1).
  { subst s1. rewrite transactions_after_update, Htable. apply lookup_insert_eq. }
  pose proof (updateTransactionStatus_applies env s1 (id t) Completed (Some intent) t1
                (Hquiet _) Hrow1 (Hpolicy t1 eq_refl)) as Hupdate.
  eexists s1, _, (apply_patch (status_patch Completed (now env) (Some intent)) t1).
  split; [reflexivity|]. split; [exact Hupdate|].
  split; [apply lookup_insert_eq|].
  split; [reflexivity|].
  split; [cbn; rewrite Hintent; reflexivity|].
  split; [cbn; destruct (body_paymentIntentId body); reflexivity|].
  repeat split.
Qed.

Lemma stripe_payment_completes_under_the_returned_id_witness :
  exists s1 s2 t2,
    initializeStripePayment "alice" 100%float (Some "poll-1") "EUR" approving_env demo_store
    = (inr (success {| clientSecret := "pi_1_secret_2"; stripe_transactionId := id t2 |}), s1)
    /\ updateTransactionStatus (id t2) Completed (Some "pi_1") approving_env s1
       = (inr (success t2), s2)
    /\ status t2 = Completed
    /\ gateway_transaction_id t2 = Some "pi_1".
Proof.
  destruct (stripe_payment_completes_under_the_returned_id approving_env demo_store "alice"
              100%float (Some "poll-1") "EUR" "pi_1_secret_2" "pi_1"
              {| body_error := None; body_clientSecret := Some "pi_1_secret_2";
                 body_paymentIntentId := Some "pi_1"; body_authorizationUrl := None;
                 body_reference := None |})
    as (s1 & s2 & t2 & Hinit & Hupdate & _ & Hstatus & Hgw & _); try reflexivity.
  - intros row Hpending. cbn. rewrite Hpending. reflexivity.
  - exists s1, s2, t2. repeat split; assumption.
Defined.
